(** * PublicReach data tools

    A shallow embedding of [tools/data_tools.py]: the dataset loader
    ([DataFrameLoadTool.run]), the analysis dispatcher
    ([DataFrameAnalysisTool.run]) and the visualization renderer
    ([DataVisualizationTool.run]).

    The three methods are translated branch by branch, over an explicit
    state (the files by path and pyplot's open figures) and with the
    exceptions written out, so that [try ... except Exception] is a
    function.  What the methods call in json, os, pandas, seaborn and
    matplotlib is not part of the repository: the structural part of those
    calls (which columns, how many rows, which key, which file) is written
    out from the libraries' documented behaviour, and everything numerical
    or textual inside them (parsing and writing of bytes, statistics,
    drawing) is a field of the record [World].  What the caller's own
    expressions do when [eval] and [df.query] run them, and what an
    aggregation named by the caller does, is a field too, and one that
    reads and changes the state.  A file is known by the path it is opened
    under.  The theorems hold for every [World]; [Sample.world] is one,
    used to run examples. *)

From Stdlib Require Import ZArith String Ascii List Bool Lia.
From stdpp Require Import gmap strings list pretty sorting.

Set Warnings "-register-all".
Local Open Scope Z_scope.
Local Open Scope string_scope.

(** ** Python values *)

(** The values that travel through a request and a JSON result.  A float is
    carried by its [repr]: no arithmetic on floats is done by the tools
    themselves.  [PObj] is any other object (a timestamp read from a
    spreadsheet, a numpy scalar, whatever [eval] hands back), known by the
    name of its type and by its [str]. *)
Inductive pyval : Type :=
| PNone
| PBool (b : bool)
| PInt (z : Z)
| PFloat (repr : string)
| PStr (s : string)
| PList (l : list pyval)
| PDict (d : list (string * pyval))
| PObj (kind text : string).

Abbreviation pydict := (list (string * pyval)).

(** [d.get(k)] *)
Fixpoint dict_get (k : string) (d : pydict) : option pyval :=
  match d with
  | [] => None
  | (k', v) :: d' => if String.eqb k k' then Some v else dict_get k d'
  end.

(** [k in d] *)
Definition dict_has (k : string) (d : pydict) : bool :=
  match dict_get k d with Some _ => true | None => false end.

(** [d.get(k, dflt)] *)
Definition dict_get_default (k : string) (dflt : pyval) (d : pydict) : pyval :=
  match dict_get k d with Some v => v | None => dflt end.

(** [d[k] = v]: an existing key keeps its position. *)
Fixpoint dict_set (k : string) (v : pyval) (d : pydict) : pydict :=
  match d with
  | [] => [(k, v)]
  | (k', v') :: d' =>
      if String.eqb k k' then (k, v) :: d' else (k', v') :: dict_set k v d'
  end.

(** [dict(pairs)] and dict comprehensions: later pairs overwrite. *)
Definition dict_of_pairs (l : list (string * pyval)) : pydict :=
  fold_left (fun d kv => dict_set (fst kv) (snd kv) d) l [].

(** [type(v).__name__] *)
Definition type_name (v : pyval) : string :=
  match v with
  | PNone => "NoneType"
  | PBool _ => "bool"
  | PInt _ => "int"
  | PFloat _ => "float"
  | PStr _ => "str"
  | PList _ => "list"
  | PDict _ => "dict"
  | PObj kind _ => kind
  end.

(** [bool(v)]; it is taken of request parameters only, which are JSON
    values. *)
Definition truthy (v : pyval) : bool :=
  match v with
  | PNone => false
  | PBool b => b
  | PInt z => negb (Z.eqb z 0)
  | PFloat r => negb (String.eqb r "0.0" || String.eqb r "-0.0")
  | PStr s => negb (String.eqb s "")
  | PList l => match l with [] => false | _ => true end
  | PDict d => match d with [] => false | _ => true end
  | PObj _ _ => true
  end.

(** ** Python strings *)

(** [s.split(sep)] for a one-character separator: never empty. *)
Fixpoint split_on (sep : ascii) (s : string) : list string :=
  match s with
  | EmptyString => [EmptyString]
  | String c rest =>
      if Ascii.eqb c sep then EmptyString :: split_on sep rest
      else match split_on sep rest with
           | [] => [String c EmptyString]
           | p :: ps => String c p :: ps
           end
  end.

(** [l[-1]] on the result of a split. *)
Definition last_piece (l : list string) : string := List.last l EmptyString.

Definition lower_ascii (c : ascii) : ascii :=
  let n := nat_of_ascii c in
  if Nat.leb 65 n && Nat.leb n 90 then ascii_of_nat (n + 32) else c.

(** [s.lower()] of a text of ASCII characters only. *)
Fixpoint lower_text (s : string) : string :=
  match s with
  | EmptyString => EmptyString
  | String c rest => String (lower_ascii c) (lower_text rest)
  end.

(** A string is the sequence of the bytes of its UTF-8 encoding: it is
    ASCII when every byte is below 128. *)
Fixpoint is_ascii (s : string) : bool :=
  match s with
  | EmptyString => true
  | String c rest => Nat.ltb (nat_of_ascii c) 128 && is_ascii rest
  end.

Fixpoint contains_char (c : ascii) (s : string) : bool :=
  match s with
  | EmptyString => false
  | String c' rest => Ascii.eqb c' c || contains_char c rest
  end.

(** [needle in s] *)
Fixpoint contains (needle s : string) : bool :=
  String.prefix needle s
  || match s with
     | EmptyString => false
     | String _ rest => contains needle rest
     end.

(** ['...'] around a name, as the diagnostics and [repr] write it. *)
Definition quoted (s : string) : string := "'" +:+ s +:+ "'".

(** [os.path.dirname] (posixpath): everything up to the last slash, the
    trailing slashes stripped unless the head is made of slashes only. *)
Fixpoint drop_to_slash (r : list ascii) : list ascii :=
  match r with
  | [] => []
  | c :: r' => if Ascii.eqb c "/" then r else drop_to_slash r'
  end.

Fixpoint strip_slashes (r : list ascii) : list ascii :=
  match r with
  | [] => []
  | c :: r' => if Ascii.eqb c "/" then strip_slashes r' else r
  end.

Definition dirname (p : string) : string :=
  let head := drop_to_slash (rev (list_ascii_of_string p)) in
  match strip_slashes head with
  | [] => string_of_list_ascii (rev head)
  | stripped => string_of_list_ascii (rev stripped)
  end.

Fixpoint lstrip_dots (s : string) : string :=
  match s with
  | String c rest => if Ascii.eqb c "." then lstrip_dots rest else s
  | EmptyString => s
  end.

Fixpoint strip_dots (r : list ascii) : list ascii :=
  match r with
  | [] => []
  | c :: r' => if Ascii.eqb c "." then strip_dots r' else r
  end.

(** [s.rstrip('.')] *)
Definition rstrip_dots (s : string) : string :=
  string_of_list_ascii (rev (strip_dots (rev (list_ascii_of_string s)))).

(** [os.path.splitext(p)[1][1:]]: what follows the last dot of the last
    component, the dots that component begins with not counting; empty
    when there is no such dot. *)
Definition extension (p : string) : string :=
  let name := lstrip_dots (last_piece (split_on "/" p)) in
  if contains_char "." name then last_piece (split_on "." name) else "".

(** The directories [os.makedirs(d)] has to do with, [d] itself first and
    then the heads it splits off, the nearest first: for ["a/b/c"] they are
    ["a/b/c"], ["a/b"] and ["a"].  An empty component (a leading, a doubled
    or a trailing slash) makes no directory of its own, and neither do [.]
    and [..], which exist wherever their head does. *)
Fixpoint chain (done : string) (first : bool) (components : list string)
  (seen : list string) : list string :=
  match components with
  | [] => seen
  | c :: rest =>
      let here := if first then c else done +:+ "/" +:+ c in
      chain here false rest
            (if String.eqb c "" || String.eqb c "." || String.eqb c ".."
             then seen else here :: seen)
  end.

Definition makedirs_chain (d : string) : list string :=
  chain "" true (split_on "/" d) [].

(** ** Failures *)

(** What a library call gives back: a value, or an exception that is an
    instance of [Exception] with [str(e) = msg].  json, os, pandas, seaborn
    and matplotlib report their failures this way (JSONDecodeError, OSError,
    KeyError, TypeError, ParserError, ...). *)
Inductive result (A : Type) : Type :=
| Ok (a : A)
| Err (msg : string).
Arguments Ok {A} a.
Arguments Err {A} msg.

(** What a piece of a method body gives back.  [Base] is an exception outside
    the [Exception] hierarchy (SystemExit, KeyboardInterrupt, GeneratorExit):
    [except Exception] does not catch it. *)
Inductive outcome (A : Type) : Type :=
| Val (a : A)
| Exc (msg : string)
| Base (name : string).
Arguments Val {A} a.
Arguments Exc {A} msg.
Arguments Base {A} name.

(** What the caller of [run] observes. *)
Inductive returned : Type :=
| Returns (s : string)
| Propagates (name : string).

(** ** Data frames *)

(** The dtypes of a frame read from delimited text, and [OtherT] for every
    other one (uint64 for integers beyond int64, the string dtype of pandas
    3, datetime64 for the dates of a spreadsheet), known by its name and by
    whether [select_dtypes] counts it among the numbers and among the
    objects and categories. *)
Inductive dtype : Type :=
| Int64
| Float64
| BoolT
| ObjectT
| OtherT (name : string) (number object : bool).

(** [str(dtype)] *)
Definition dtype_name (t : dtype) : string :=
  match t with
  | Int64 => "int64"
  | Float64 => "float64"
  | BoolT => "bool"
  | ObjectT => "object"
  | OtherT name _ _ => name
  end.

(** Membership in [select_dtypes(include=['number'])]: bool is not a number
    for numpy. *)
Definition is_number (t : dtype) : bool :=
  match t with
  | Int64 | Float64 => true
  | BoolT | ObjectT => false
  | OtherT _ number _ => number
  end.

(** Membership in [select_dtypes(include=['object', 'category'])]. *)
Definition is_object (t : dtype) : bool :=
  match t with
  | ObjectT => true
  | OtherT _ _ object => object
  | _ => false
  end.

(** The value in a cell.  [COther] is any other object (a timestamp, a
    nested JSON value), known by the name of its type, by its [str] and by
    what [to_csv] writes for it. *)
Inductive cell : Type :=
| CInt (z : Z)
| CFloat (repr : string)
| CBool (b : bool)
| CStr (s : string)
| CNaN
| COther (kind text written : string).

Global Instance cell_eq_dec : EqDecision cell.
Proof. solve_decision. Defined.

(** A frame: the columns in order, each with its dtype, and the rows in
    order.  The row labels are the default range index, which all three
    tools leave untouched or drop. *)
Record DataFrame : Type := {
  cols : list (string * dtype);
  rows : list (list cell)
}.

(** [df.columns] *)
Definition columns (df : DataFrame) : list string := map fst (cols df).

(** [len(df)] *)
Definition nrows (df : DataFrame) : nat := length (rows df).

Definition ncols (df : DataFrame) : nat := length (cols df).


(** The native Python value of a cell, as [to_dict] boxes it. *)
Definition box (c : cell) : pyval :=
  match c with
  | CInt z => PInt z
  | CFloat r => PFloat r
  | CBool b => PBool b
  | CStr s => PStr s
  | CNaN => PFloat "nan"
  | COther kind text _ => PObj kind text
  end.

(** [df.shape], a pair that json writes as a two-element array. *)
Definition shape (df : DataFrame) : pyval :=
  PList [PInt (Z.of_nat (nrows df)); PInt (Z.of_nat (ncols df))].

(** [df.head(n)] for an integer [n]: the first [n] rows, and for a negative
    [n] all rows but the last [|n|] (pandas: [self.iloc[:n]]). *)
Definition head_rows (n : Z) (rs : list (list cell)) : list (list cell) :=
  if Z.leb 0 n then take (Z.to_nat n) rs
  else take (length rs - Z.to_nat (- n)) rs.

Definition head (n : Z) (df : DataFrame) : DataFrame :=
  {| cols := cols df; rows := head_rows n (rows df) |}.

(** [df.empty]: some axis has length zero. *)
Definition empty (df : DataFrame) : bool :=
  Nat.eqb (ncols df) 0 || Nat.eqb (nrows df) 0.

(** The values of the column at position [j]. *)
Definition column_at (df : DataFrame) (j : nat) : list cell :=
  map (fun r => nth j r CNaN) (rows df).

(** Keep the positions of [l] where [mask] is true. *)
Fixpoint keep {A} (mask : list bool) (l : list A) : list A :=
  match mask, l with
  | b :: mask', x :: l' => if b then x :: keep mask' l' else keep mask' l'
  | _, _ => []
  end.

(** [df.select_dtypes(include=...)] with the membership test [p]. *)
Definition select_dtypes (p : dtype -> bool) (df : DataFrame) : DataFrame :=
  let mask := map (fun c => p (snd c)) (cols df) in
  {| cols := keep mask (cols df); rows := map (keep mask) (rows df) |}.

(** [df.to_dict(orient='records')]: one dict per row. *)
Definition record_of (names : list string) (r : list cell) : pyval :=
  PDict (dict_of_pairs (combine names (map box r))).

Definition to_dict_records (df : DataFrame) : pyval :=
  PList (map (record_of (columns df)) (rows df)).

(** [{col: str(dtype) for col, dtype in df.dtypes.items()}] *)
Definition dtypes_dict (df : DataFrame) : pyval :=
  PDict (dict_of_pairs (map (fun c => (fst c, PStr (dtype_name (snd c)))) (cols df))).

Definition count_nan (l : list cell) : nat :=
  length (filter (fun c => c = CNaN) l).

(** [df.isnull().sum().to_dict()] *)
Definition missing_values (df : DataFrame) : pyval :=
  PDict (dict_of_pairs
           (imap (fun j c => (fst c, PInt (Z.of_nat (count_nan (column_at df j)))))
                 (cols df))).

(** The two zeros of the floats are one value. *)
Definition one_zero (c : cell) : cell :=
  match c with
  | CFloat r => if String.eqb r "-0.0" then CFloat "0.0" else c
  | _ => c
  end.

(** [series.nunique()]: the distinct values, missing ones left out.  The
    cells of one column read from delimited text are of one kind, so that
    two of them are the same value when they are the same cell, the zeros
    apart. *)
Definition nunique (l : list cell) : nat :=
  length (remove_dups (map one_zero (filter (fun c => c <> CNaN) l))).

(** The positions at which a column is called [name]. *)
Definition positions_of (name : string) (df : DataFrame) : list nat :=
  map fst (filter (fun jc => snd jc = name) (imap (fun j c => (j, fst c)) (cols df))).

(** ** The staged file and the picture files *)

(** The fields of a delimited-text file: those of its first line and those
    of every following line.  The text and the fields are two things: the
    csv writer makes the one from the other and the tokenizer goes back. *)
Record table : Type := {
  header : list string;
  records : list (list string)
}.

(** What pyplot and seaborn were asked to draw on a figure. *)
Inductive plot_cmd : Type :=
| Histplot (x kde : pyval)
| Scatterplot (x y : pyval) (hue : option pyval)
| Barplot (x y : pyval)
| Lineplot (xs ys : list (list cell))
| Heatmap (corr annot cmap : pyval)
| Boxplot (y x : pyval)
| Title (s : string)
| Xlabel (v : pyval)
| Ylabel (v : pyval)
| Xticks_rotated
| Tight_layout.

Inductive file : Type :=
| Blob (bytes : string)
| Image (drawn : list plot_cmd)
| Directory.

(** The part of the process state the tools touch: the files by path, and
    pyplot's open figures, the current one first.  A file is known by the
    path it is reached by: the paths are taken in one spelling, so that two
    of them that differ name two files (no link, no [./a] beside [a]). *)
Record state : Type := {
  fs : gmap string file;
  figures : list (list plot_cmd)
}.

Definition with_fs (f : gmap string file) (st : state) : state :=
  {| fs := f; figures := figures st |}.

Definition with_figures (g : list (list plot_cmd)) (st : state) : state :=
  {| fs := fs st; figures := g |}.

(** What [eval] hands back when it returns. *)
Inductive evaluated : Type :=
| EvValue (v : pyval)
| EvFrame (df : DataFrame).

(** A frame as [read_excel] and [read_json] give it.  A column label need
    not be a string there: it is the position 0, 1, ... for an array of
    arrays, and the number or the date of the header cell for a sheet.
    ([read_csv] labels its columns with strings.) *)
Record Source : Type := {
  src_cols : list (pyval * dtype);
  src_rows : list (list cell)
}.

(** ** Method bodies: state, exceptions, early return *)

Definition M (A : Type) : Type := state -> outcome A * state.

Definition ret {A} (a : A) : M A := fun st => (Val a, st).

Definition bind {A B} (m : M A) (k : A -> M B) : M B :=
  fun st =>
    match m st with
    | (Val a, st') => k a st'
    | (Exc e, st') => (Exc e, st')
    | (Base b, st') => (Base b, st')
    end.

Notation "x <- m ;; k" := (bind m (fun x => k))
  (at level 100, m at next level, right associativity).

Definition lift {A} (r : result A) : M A :=
  fun st => (match r with Ok a => Val a | Err e => Exc e end, st).

Definition raise {A} (msg : string) : M A := fun st => (Exc msg, st).

(** A library call that changes the state and fails, if it does, with an
    [Exception]. *)
Definition effect {A} (f : state -> result A * state) : M A :=
  fun st => let (r, st') := f st in lift r st'.

(** [try: body  except Exception as e: return prefix + str(e)] *)
Definition try_except (prefix : string) (body : M string) (st : state)
  : returned * state :=
  match body st with
  | (Val s, st') => (Returns s, st')
  | (Exc msg, st') => (Returns (prefix +:+ msg), st')
  | (Base b, st') => (Propagates b, st')
  end.

(** ** The libraries *)

(** The behaviour of the libraries that the tools do not fix. *)
Record World : Type := {
  (** [json.loads] and [json.dumps(_, indent=2)] *)
  json_loads : string -> result pyval;
  json_dumps : pyval -> result string;
  (** [str] of a list or a dict *)
  repr : pyval -> string;
  (** the text of the exception raised for an argument of the wrong kind *)
  type_error_text : string -> pyval -> string;
  (** [os.path.exists] on something that is not a string *)
  exists_other : pyval -> result bool;
  (** a failure of the operating system when a path is opened for writing
      or a directory is made: nothing is written *)
  write_fault : string -> option string;
  (** the csv writer, fields to text, and the csv tokenizer, text to
      fields *)
  csv_text : table -> string;
  csv_fields : string -> result table;
  (** a failure of [to_csv] while it writes, with what has reached the
      file by then *)
  csv_break : DataFrame -> option (string * string);
  (** what [to_csv] writes for a column label that is neither a string nor
      an integer *)
  header_text : pyval -> string;
  (** [s.lower()] of a text with a character outside ASCII in it *)
  lower_unicode : string -> string;
  (** [read_csv]: renaming of repeated header names, dtype inference,
      conversion of a field, lines longer than the header, and a path that
      is not a string *)
  mangle_dupe_cols : list string -> list string;
  infer_dtype : list string -> dtype;
  parse_cell : dtype -> string -> cell;
  ragged_csv : table -> result DataFrame;
  read_csv_other : pyval -> result DataFrame;
  (** [read_excel] and [read_json] on a path and what is stored there *)
  read_excel : string -> option file -> result Source;
  read_json : string -> option file -> result Source;
  (** [describe]: validation of the percentiles and the statistics of one
      column *)
  refine_percentiles : pyval -> result pyval;
  stat_block : pyval -> dtype -> list cell -> result pyval;
  (** one coefficient of [corr] *)
  pearson : list cell -> list cell -> pyval;
  (** [df.groupby(cols).agg(f).reset_index()]: the aggregation is named by
      the caller, and the plotting ones ("hist", "boxplot", "plot") open
      figures *)
  groupby_agg : DataFrame -> pyval -> pyval -> state -> result DataFrame * state;
  (** [df.query(expr)]: the expression is the caller's and is evaluated
      with the names of [run] and of the module in scope; it may read and
      change the files and the figures, and it may raise anything *)
  df_query : DataFrame -> pyval -> M DataFrame;
  (** [series.value_counts().to_dict()] *)
  value_counts : list cell -> pyval;
  (** [df.sort_values(by=key)] and [df[key]] for a key that is not a string *)
  sort_values : DataFrame -> pyval -> result DataFrame;
  getitem_other : DataFrame -> pyval -> result (list (list cell));
  (** [eval(code)] in the scope of [run]: the parameters and the frame are
      in scope, and so are os, json, pandas and pyplot, the names of the
      module; the expression may read and change the files and the
      figures, and it may raise anything *)
  py_eval : pyval -> pydict -> DataFrame -> M evaluated;
  (** [plt.figure] and one drawing call *)
  figure_error : option string;
  draw_error : DataFrame -> plot_cmd -> option string;
  (** [plt.savefig]: the format taken when the name has no extension
      ([rcParams["savefig.format"]], "png" unless configured), a failure
      before the file is opened (a format the backend does not know, a
      figure that cannot be rendered), and a failure while the file is
      written, with what is left at the path then: nothing, when the
      library removes what it began, or some file *)
  default_filetype : string;
  savefig_error : string -> list plot_cmd -> option string;
  savefig_break : string -> list plot_cmd -> option file -> option (string * option file)
}.

Definition is_str (v : pyval) (s : string) : bool :=
  match v with PStr s' => String.eqb s' s | _ => false end.

(** [v.get]: only a dict has the method. *)
Definition as_dict (v : pyval) : result pydict :=
  match v with
  | PDict d => Ok d
  | _ => Err (quoted (type_name v) +:+ " object has no attribute 'get'")
  end.

Definition no_such_file (path : string) : string :=
  "[Errno 2] No such file or directory: " +:+ quoted path.

Definition is_a_directory (path : string) : string :=
  "[Errno 21] Is a directory: " +:+ quoted path.

Definition file_exists (path : string) : string :=
  "[Errno 17] File exists: " +:+ quoted path.

Definition not_a_directory (path : string) : string :=
  "[Errno 20] Not a directory: " +:+ quoted path.

(** What [to_csv] writes in a field. *)
Definition cell_text (c : cell) : string :=
  match c with
  | CInt z => pretty z
  | CFloat r => r
  | CBool true => "True"
  | CBool false => "False"
  | CStr s => s
  | CNaN => ""
  | COther _ _ written => written
  end.

(** The fields [df.to_csv(_, index=False)] hands to the csv writer: the
    column labels, then one line per row; no column for the row labels. *)
Definition table_of_frame (df : DataFrame) : table :=
  {| header := columns df; records := map (map cell_text) (rows df) |}.

(** The key json makes of a dict key: a string stays, a number is written
    out, [True], [False] and [None] become [true], [false] and [null].  A
    key of another type makes [json.dumps] fail; the same label is then in
    the list of the columns, which is encoded first and fails before. *)
Definition json_key (l : pyval) : string :=
  match l with
  | PStr s => s
  | PInt z => pretty z
  | PFloat r =>
      if String.eqb r "nan" then "NaN"
      else if String.eqb r "inf" then "Infinity"
      else if String.eqb r "-inf" then "-Infinity"
      else r
  | PBool true => "true"
  | PBool false => "false"
  | PNone => "null"
  | PList _ | PDict _ => ""
  | PObj _ text => text
  end.

(** The frame of a source with every label replaced by the key json makes
    of it: what the dicts of the loader's report are keyed by. *)
Definition keyed (src : Source) : DataFrame :=
  {| cols := map (fun c => (json_key (fst c), snd c)) (src_cols src);
     rows := src_rows src |}.

(** A frame with string labels, as a source. *)
Definition source_of (df : DataFrame) : Source :=
  {| src_cols := map (fun c => (PStr (fst c), snd c)) (cols df);
     src_rows := rows df |}.

(** [read_csv] calls a header field that is empty [Unnamed: j]. *)
Definition unnamed (j : nat) (name : string) : string :=
  if String.eqb name "" then "Unnamed: " +:+ pretty j else name.

(** A line shorter than the header is filled with missing fields. *)
Definition fit (width : nat) (r : list string) : list string :=
  take width (r ++ replicate width "")%list.

Section Libraries.

Variable w : World.

(** *** pandas, structurally *)

(** The column labels [read_csv] gives for a header line. *)
Definition header_names (h : list string) : list string :=
  let named := imap unnamed h in
  if bool_decide (NoDup named) then named else mangle_dupe_cols w named.

(** [read_csv] on the fields of a file: the first line names the columns,
    every other line is a row, each column gets the dtype inferred from its
    fields.  A file without any column is refused. *)
Definition frame_of_table (t : table) : result DataFrame :=
  match header t with
  | [] => Err "No columns to parse from file"
  | _ :: _ =>
      let width := length (header t) in
      if existsb (fun r => Nat.ltb width (length r)) (records t) then ragged_csv w t
      else
        let recs := map (fit width) (records t) in
        let dts := imap (fun j _ => infer_dtype w (map (fun r => nth j r "") recs))
                        (header t) in
        Ok {| cols := combine (header_names (header t)) dts;
              rows := map (fun r => zip_with (parse_cell w) dts r) recs |}
  end.

(** [read_csv] on the text of a file. *)
Definition frame_of_text (b : string) : result DataFrame :=
  match csv_fields w b with
  | Ok t => frame_of_table t
  | Err e => Err e
  end.

(** [pd.read_csv(path)] *)
Definition pd_read_csv (files : gmap string file) (path : string)
  : result DataFrame :=
  match files !! path with
  | None => Err (no_such_file path)
  | Some Directory => Err (is_a_directory path)
  | Some (Image _) =>
      Err "'utf-8' codec can't decode byte 0x89 in position 0: invalid start byte"
  | Some (Blob b) => frame_of_text b
  end.

(** What [to_csv] writes for a column label. *)
Definition label_text (l : pyval) : string :=
  match l with
  | PStr s => s
  | PInt z => pretty z
  | _ => header_text w l
  end.

(** The frame of a source as [to_csv] writes it, every label by its
    text. *)
Definition named (src : Source) : DataFrame :=
  {| cols := map (fun c => (label_text (fst c), snd c)) (src_cols src);
     rows := src_rows src |}.

(** The text [to_csv] writes for a frame. *)
Definition staged_text (df : DataFrame) : string :=
  csv_text w (table_of_frame df).

Definition read_csv_arg (files : gmap string file) (path : pyval)
  : result DataFrame :=
  match path with
  | PStr p => pd_read_csv files p
  | _ => read_csv_other w path
  end.

(** [os.path.exists(path)] *)
Definition path_exists (files : gmap string file) (path : pyval) : result bool :=
  match path with
  | PStr p => Ok (bool_decide (is_Some (files !! p)))
  | _ => exists_other w path
  end.

(** [str(v)], as an f-string formats a value. *)
Definition py_str (v : pyval) : string :=
  match v with
  | PNone => "None"
  | PBool true => "True"
  | PBool false => "False"
  | PInt z => pretty z
  | PFloat r => r
  | PStr s => s
  | PList _ | PDict _ => repr w v
  | PObj _ text => text
  end.

Fixpoint traverse {A B} (f : A -> result B) (l : list A) : result (list B) :=
  match l with
  | [] => Ok []
  | x :: l' =>
      match f x with
      | Err e => Err e
      | Ok y => match traverse f l' with
                | Err e => Err e
                | Ok ys => Ok (y :: ys)
                end
      end
  end.

(** The columns [describe] reports on when neither [include] nor [exclude]
    is given: the numeric ones; "if the dataframe consists only of object
    and categorical data without any numeric columns, the default is to
    return an analysis of both the object and categorical columns"
    (pandas: [data = select_dtypes(number); if len(data.columns) == 0:
    data = frame]). *)
Definition described (df : DataFrame) : DataFrame :=
  let numeric := select_dtypes is_number df in
  match cols numeric with
  | [] => df
  | _ :: _ => numeric
  end.

(** [df.describe(percentiles=p).to_dict()] *)
Definition describe (p : pyval) (df : DataFrame) : result pyval :=
  match refine_percentiles w p with
  | Err e => Err e
  | Ok q =>
      match cols df with
      | [] => Err "Cannot describe a DataFrame without columns"
      | _ :: _ =>
          let data := described df in
          match traverse (fun jc => stat_block w q (snd (snd jc)) (column_at data (fst jc)))
                         (imap (fun j c => (j, c)) (cols data)) with
          | Err e => Err e
          | Ok blocks => Ok (PDict (dict_of_pairs (combine (columns data) blocks)))
          end
      end
  end.

(** [df.corr().to_dict()] on a frame of numeric columns: column by column,
    the coefficient with every column. *)
Definition corr_dict (df : DataFrame) : pyval :=
  let series := imap (fun j c => (fst c, column_at df j)) (cols df) in
  PDict (dict_of_pairs
    (map (fun a =>
            (fst a,
             PDict (dict_of_pairs
                      (map (fun b => (fst b, pearson w (snd a) (snd b))) series))))
         series)).

(** [df.head(n)] for the value of a request parameter: [None] slices
    nothing off, and anything else than an int is refused by the check of
    the slice bound, a bool included. *)
Definition head_arg (n : pyval) (df : DataFrame) : result DataFrame :=
  match n with
  | PInt k => Ok (head k df)
  | PNone => Ok df
  | _ => Err (type_error_text w "head" n)
  end.

(** [key in df.columns] *)
Definition in_columns (key : pyval) (df : DataFrame) : result bool :=
  match key with
  | PStr s => Ok (bool_decide (s ∈ columns df))
  | PList _ | PDict _ => Err ("unhashable type: " +:+ quoted (type_name key))
  | _ => Ok false
  end.

(** [df[key]]: the columns called [key]. *)
Definition getitem (df : DataFrame) (key : pyval) : result (list (list cell)) :=
  match key with
  | PStr s =>
      match positions_of s df with
      | [] => Err (quoted s)
      | js => Ok (map (column_at df) js)
      end
  | _ => getitem_other w df key
  end.

(** [df[key].nunique() > 5] used as a condition: one column gives a bool,
    several give a Series, which has no truth value. *)
Definition nunique_gt5 (df : DataFrame) (key : pyval) : result bool :=
  match getitem df key with
  | Err e => Err e
  | Ok [c] => Ok (Nat.ltb 5 (nunique c))
  | Ok _ =>
      Err "The truth value of a Series is ambiguous. Use a.empty, a.bool(), a.item(), a.any() or a.all()."
  end.

(** *** Files and figures *)

(** [df.to_csv(path, index=False)]: the file is opened for writing, which
    empties it, and then written; a failure while writing leaves at the
    path what had been written by then. *)
Definition to_csv (path : string) (df : DataFrame) : M unit :=
  fun st =>
    match fs st !! path with
    | Some Directory => (Exc (is_a_directory path), st)
    | _ =>
        match write_fault w path with
        | Some e => (Exc e, st)
        | None =>
            match csv_break w df with
            | Some (e, written) =>
                (Exc e, with_fs (<[path := Blob written]> (fs st)) st)
            | None =>
                (Val tt, with_fs (<[path := Blob (staged_text df)]> (fs st)) st)
            end
        end
    end.

(** [plt.figure(figsize=(10, 6))]: a new, blank current figure. *)
Definition new_figure : M unit :=
  fun st =>
    match figure_error w with
    | Some e => (Exc e, st)
    | None => (Val tt, with_figures ([] :: figures st) st)
    end.

(** One drawing call on the current figure; pyplot opens a figure when
    there is none. *)
Definition draw (df : DataFrame) (c : plot_cmd) : M unit :=
  fun st =>
    match draw_error w df c with
    | Some e => (Exc e, st)
    | None =>
        (Val tt,
         with_figures (match figures st with
                       | [] => [[c]]
                       | f :: others => (f ++ [c])%list :: others
                       end) st)
    end.

Definition current_figure (st : state) : list plot_cmd :=
  match figures st with [] => [] | f :: _ => f end.

(** [os.mkdir(name)] as [makedirs] calls it with [exist_ok=True]: a
    directory that is there already is fine; [head] is the directory
    [name] lies in, when the path names one. *)
Definition mkdir (name : string) (head : option string) : M unit :=
  fun st =>
    match match head with Some h => fs st !! h | None => Some Directory end with
    | Some (Blob _) | Some (Image _) => (Exc (not_a_directory name), st)
    | _ =>
        match fs st !! name with
        | Some Directory => (Val tt, st)
        | Some _ => (Exc (file_exists name), st)
        | None =>
            match write_fault w name with
            | Some e => (Exc e, st)
            | None => (Val tt, with_fs (<[name := Directory]> (fs st)) st)
            end
        end
    end.

(** [os.makedirs(name, exist_ok=True)] on [name] and the heads it splits
    off: the head is made first when nothing is there, by the same steps,
    and then [name] itself. *)
Fixpoint makedirs_from (name : string) (heads : list string) : M unit :=
  match heads with
  | [] => mkdir name None
  | head :: outer =>
      fun st =>
        (_ <- (if bool_decide (is_Some (fs st !! head)) then ret tt
               else makedirs_from head outer) ;;
         mkdir name (Some head)) st
  end.

(** [os.makedirs(d, exist_ok=True)] *)
Definition makedirs (d : string) : M unit :=
  match makedirs_chain d with
  | [] => ret tt
  | name :: heads => makedirs_from name heads
  end.

(** The file [plt.savefig(path)] writes: the path itself when its name has
    an extension; otherwise the default format is taken and appended to
    the name, the dots the name ends with dropped
    ([filename.rstrip('.') + '.' + format]). *)
Definition image_path (path : string) : string :=
  if String.eqb (extension path) ""
  then rstrip_dots path +:+ "." +:+ default_filetype w
  else path.

(** [plt.savefig(path)]: the figure is rendered, then the file is opened
    and written. *)
Definition savefig (path : string) : M unit :=
  fun st =>
    let target := image_path path in
    let drawn := current_figure st in
    match savefig_error w path drawn with
    | Some e => (Exc e, st)
    | None =>
        match fs st !! target with
        | Some Directory => (Exc (is_a_directory target), st)
        | before =>
            match write_fault w target with
            | Some e => (Exc e, st)
            | None =>
                match savefig_break w path drawn before with
                | Some (e, Some remains) =>
                    (Exc e, with_fs (<[target := remains]> (fs st)) st)
                | Some (e, None) =>
                    (Exc e, with_fs (delete target (fs st)) st)
                | None =>
                    (Val tt, with_fs (<[target := Image drawn]> (fs st)) st)
                end
            end
        end
    end.

(** [plt.close()] *)
Definition close_figure : M unit :=
  fun st => (Val tt, with_figures (tail (figures st)) st).

Definition temp_dataframe : string := "temp_dataframe.csv".

Definition staging_missing (temp_path : pyval) : string :=
  "Error: Temporary DataFrame file not found at " +:+ py_str temp_path.

End Libraries.

(** ** The three tools *)

Module DataFrameLoadTool.
Section Run.

Variable w : World.

(** [s.lower()] *)
Definition lower (s : string) : string :=
  if is_ascii s then lower_text s else lower_unicode w s.

(** [file_path.split('.')[-1].lower()] *)
Definition file_ext (file_path : string) : string :=
  lower (last_piece (split_on "." file_path)).

Inductive reader : Type := ReadCsv | ReadExcel | ReadJson.

(** The chain [if file_ext == 'csv' ... elif file_ext in ['xls', 'xlsx'] ...
    elif file_ext == 'json' ... else]. *)
Definition reader_of (ext : string) : option reader :=
  if String.eqb ext "csv" then Some ReadCsv
  else if String.eqb ext "xls" || String.eqb ext "xlsx" then Some ReadExcel
  else if String.eqb ext "json" then Some ReadJson
  else None.

Definition read_source (r : reader) (file_path : string) : M Source :=
  fun st =>
    lift (match r with
          | ReadCsv =>
              match pd_read_csv w (fs st) file_path with
              | Ok df => Ok (source_of df)
              | Err e => Err e
              end
          | ReadExcel => read_excel w file_path (fs st !! file_path)
          | ReadJson => read_json w file_path (fs st !! file_path)
          end) st.

(** The report: the labels are listed as they are, and the dicts are keyed
    by them. *)
Definition info_dict (file_path : string) (df : Source) : pyval :=
  PDict [("shape", shape (keyed df));
         ("columns", PList (map fst (src_cols df)));
         ("dtypes", dtypes_dict (keyed df));
         ("missing_values", missing_values (keyed df));
         ("sample_data", to_dict_records (head 5 (keyed df)));
         ("file_path", PStr file_path);
         ("temp_path", PStr temp_dataframe)].

Definition body (file_path : string) : M string :=
  match reader_of (file_ext file_path) with
  | None => ret ("Unsupported file format: " +:+ file_ext file_path)
  | Some r =>
      df <- read_source r file_path ;;
      _ <- to_csv w temp_dataframe (named w df) ;;
      lift (json_dumps w (info_dict file_path df))
  end.

(** [DataFrameLoadTool.run] *)
Definition run (file_path : string) (st : state) : returned * state :=
  try_except "Error loading dataset: " (body file_path) st.

End Run.
End DataFrameLoadTool.

Module DataFrameAnalysisTool.
Section Run.

Variable w : World.

Definition default_percentiles : pyval :=
  PList [PFloat "0.25"; PFloat "0.5"; PFloat "0.75"].

(** The branch for [operation == "summary"]. *)
Definition summary_dict (df : DataFrame) : result pyval :=
  match describe w PNone df with
  | Err e => Err e
  | Ok numeric_summary =>
      Ok (PDict
            [("shape", shape df);
             ("dtypes", dtypes_dict df);
             ("missing_values", missing_values df);
             ("numeric_summary", numeric_summary);
             ("categorical_summary",
              PDict (dict_of_pairs
                       (keep (map (fun c => is_object (snd c)) (cols df))
                             (imap (fun j c => (fst c, value_counts w (column_at df j)))
                                   (cols df)))))])
  end.

(** The chain of [if operation == ...] after the frame is loaded. *)
Definition operation_result (operation : pyval) (params : pydict) (df : DataFrame)
  : M string :=
  if is_str operation "describe" then
    result <- lift (describe w (dict_get_default "percentiles" default_percentiles params) df) ;;
    lift (json_dumps w result)
  else if is_str operation "correlation" then
    let numeric_df := select_dtypes is_number df in
    if empty numeric_df then ret "No numeric columns found for correlation analysis"
    else lift (json_dumps w (corr_dict w numeric_df))
  else if is_str operation "groupby" then
    if negb (dict_has "columns" params) then
      ret "Error: 'columns' parameter required for groupby operation"
    else
      let groupby_cols := dict_get_default "columns" PNone params in
      let agg_func := dict_get_default "aggregation" (PStr "mean") params in
      let groupby_cols :=
        match groupby_cols with
        | PStr _ => PList [groupby_cols]
        | _ => groupby_cols
        end in
      grouped <- effect (groupby_agg w df groupby_cols agg_func) ;;
      lift (json_dumps w (to_dict_records grouped))
  else if is_str operation "query" then
    if negb (dict_has "filter" params) then
      ret "Error: 'filter' parameter required for query operation"
    else
      filtered_df <- df_query w df (dict_get_default "filter" PNone params) ;;
      shown <- lift (head_arg w (dict_get_default "limit" (PInt 10) params) filtered_df) ;;
      lift (json_dumps w (PDict [("shape", shape filtered_df);
                                 ("data", to_dict_records shown)]))
  else if is_str operation "summary" then
    summary <- lift (summary_dict df) ;;
    lift (json_dumps w summary)
  else if is_str operation "custom" then
    if negb (dict_has "code" params) then
      ret "Error: 'code' parameter required for custom operation"
    else
      result <- py_eval w (dict_get_default "code" PNone params) params df ;;
      let result :=
        match result with
        | EvFrame d => to_dict_records d
        | EvValue v => v
        end in
      lift (json_dumps w result)
  else
    ret ("Error: Unsupported operation " +:+ quoted (py_str w operation)).

(** The body of [run] once the query is parsed. *)
Definition request (query_dict : pyval) : M string :=
  query_dict <- lift (as_dict query_dict) ;;
  let operation := dict_get_default "operation" PNone query_dict in
  let params := dict_get_default "parameters" (PDict []) query_dict in
  params <- lift (as_dict params) ;;
  let temp_path := dict_get_default "temp_path" (PStr temp_dataframe) params in
  present <- (fun st => lift (path_exists w (fs st) temp_path) st) ;;
  if negb present then ret (staging_missing w temp_path)
  else
    df <- (fun st => lift (read_csv_arg w (fs st) temp_path) st) ;;
    operation_result operation params df.

Definition body (query : string) : M string :=
  query_dict <- lift (json_loads w query) ;;
  request query_dict.

(** [DataFrameAnalysisTool.run] *)
Definition run (query : string) (st : state) : returned * state :=
  try_except "Error during DataFrame analysis: " (body query) st.

End Run.
End DataFrameAnalysisTool.

Module DataVisualizationTool.
Section Run.

Variable w : World.

(** The chain of [if plot_type == ...]: [Some diagnostic] where the branch
    returns at once, [None] where control goes on to saving the figure. *)
Definition plot_branch (plot_type : pyval) (params : pydict) (df : DataFrame)
  : M (option string) :=
  let param k := dict_get_default k PNone params in
  if is_str plot_type "histogram" then
    if negb (dict_has "column" params) then
      ret (Some "Error: 'column' parameter required for histogram")
    else
      _ <- draw w df (Histplot (param "column")
                               (dict_get_default "kde" (PBool false) params)) ;;
      _ <- draw w df (Title ("Histogram of " +:+ py_str w (param "column"))) ;;
      _ <- draw w df (Xlabel (param "column")) ;;
      _ <- draw w df (Ylabel (PStr "Frequency")) ;;
      ret None
  else if is_str plot_type "scatter" then
    if negb (dict_has "x" params) || negb (dict_has "y" params) then
      ret (Some "Error: 'x' and 'y' parameters required for scatter plot")
    else
      let hue := param "hue" in
      coloured <- (if truthy hue then lift (in_columns hue df) else ret false) ;;
      _ <- draw w df (Scatterplot (param "x") (param "y")
                                  (if coloured then Some hue else None)) ;;
      _ <- draw w df (Title ("Scatter Plot: " +:+ py_str w (param "y")
                             +:+ " vs " +:+ py_str w (param "x"))) ;;
      _ <- draw w df (Xlabel (param "x")) ;;
      _ <- draw w df (Ylabel (param "y")) ;;
      ret None
  else if is_str plot_type "bar" then
    if negb (dict_has "x" params) || negb (dict_has "y" params) then
      ret (Some "Error: 'x' and 'y' parameters required for bar chart")
    else
      _ <- draw w df (Barplot (param "x") (param "y")) ;;
      _ <- draw w df (Title ("Bar Chart: " +:+ py_str w (param "y")
                             +:+ " by " +:+ py_str w (param "x"))) ;;
      _ <- draw w df (Xlabel (param "x")) ;;
      _ <- draw w df (Ylabel (param "y")) ;;
      many <- lift (nunique_gt5 w df (param "x")) ;;
      _ <- (if many then draw w df Xticks_rotated else ret tt) ;;
      ret None
  else if is_str plot_type "line" then
    if negb (dict_has "x" params) || negb (dict_has "y" params) then
      ret (Some "Error: 'x' and 'y' parameters required for line chart")
    else
      plot_df <- lift (sort_values w df (param "x")) ;;
      xs <- lift (getitem w plot_df (param "x")) ;;
      ys <- lift (getitem w plot_df (param "y")) ;;
      _ <- draw w df (Lineplot xs ys) ;;
      _ <- draw w df (Title ("Line Chart: " +:+ py_str w (param "y")
                             +:+ " vs " +:+ py_str w (param "x"))) ;;
      _ <- draw w df (Xlabel (param "x")) ;;
      _ <- draw w df (Ylabel (param "y")) ;;
      ret None
  else if is_str plot_type "correlation_heatmap" then
    let numeric_df := select_dtypes is_number df in
    if empty numeric_df then
      ret (Some "No numeric columns found for correlation heatmap")
    else
      _ <- draw w df (Heatmap (corr_dict w numeric_df)
                              (dict_get_default "show_values" (PBool true) params)
                              (dict_get_default "colormap" (PStr "coolwarm") params)) ;;
      _ <- draw w df (Title "Correlation Matrix Heatmap") ;;
      ret None
  else if is_str plot_type "boxplot" then
    if negb (dict_has "column" params) then
      ret (Some "Error: 'column' parameter required for boxplot")
    else
      _ <- draw w df (Boxplot (param "column") (param "group_by")) ;;
      _ <- draw w df (Title ("Boxplot of " +:+ py_str w (param "column"))) ;;
      ret None
  else
    ret (Some ("Error: Unsupported plot type " +:+ quoted (py_str w plot_type))).

(** The lines under [# Save the figure]. *)
Definition save_figure (df : DataFrame) (save_path : pyval) : M string :=
  match save_path with
  | PStr path =>
      _ <- makedirs w (if String.eqb (dirname path) "" then "." else dirname path) ;;
      _ <- draw w df Tight_layout ;;
      _ <- savefig w path ;;
      _ <- close_figure ;;
      ret ("Visualization saved to " +:+ path)
  | _ => raise (type_error_text w "dirname" save_path)
  end.

(** The body of [run] once the query is parsed. *)
Definition request (query_dict : pyval) : M string :=
  query_dict <- lift (as_dict query_dict) ;;
  let plot_type := dict_get_default "plot_type" PNone query_dict in
  let params := dict_get_default "parameters" (PDict []) query_dict in
  let save_path := dict_get_default "save_path" (PStr "visualization.png") query_dict in
  params <- lift (as_dict params) ;;
  let temp_path := dict_get_default "temp_path" (PStr temp_dataframe) params in
  present <- (fun st => lift (path_exists w (fs st) temp_path) st) ;;
  if negb present then ret (staging_missing w temp_path)
  else
    df <- (fun st => lift (read_csv_arg w (fs st) temp_path) st) ;;
    _ <- new_figure w ;;
    early <- plot_branch plot_type params df ;;
    match early with
    | Some diagnostic => ret diagnostic
    | None => save_figure df save_path
    end.

Definition body (query : string) : M string :=
  query_dict <- lift (json_loads w query) ;;
  request query_dict.

(** [DataVisualizationTool.run] *)
Definition run (query : string) (st : state) : returned * state :=
  try_except "Error creating visualization: " (body query) st.

End Run.
End DataVisualizationTool.

Import DataFrameLoadTool DataFrameAnalysisTool DataVisualizationTool.

(** ** A small instance of the libraries

    Enough of json, pandas and pyplot to run the tools on the examples of
    the specification: JSON without exponents and unicode escapes,
    comma-separated files without quoting, integer, boolean and text
    columns, filters of the form [column op integer], grouping with the
    "count" aggregation on an integer key.  Whatever is outside is
    refused. *)
Module Sample.

Definition nl : string := String (ascii_of_nat 10) EmptyString.

(** The double quote. *)
Definition dq : string := String "034"%char EmptyString.

Definition is_space (c : ascii) : bool :=
  Ascii.eqb c " " || Ascii.eqb c (ascii_of_nat 10)
  || Ascii.eqb c (ascii_of_nat 13) || Ascii.eqb c (ascii_of_nat 9).

Definition is_digit (c : ascii) : bool :=
  Nat.leb 48 (nat_of_ascii c) && Nat.leb (nat_of_ascii c) 57.

Fixpoint skip_space (s : list ascii) : list ascii :=
  match s with
  | c :: r => if is_space c then skip_space r else s
  | [] => []
  end.

Fixpoint span_digits (s : list ascii) : list ascii * list ascii :=
  match s with
  | c :: r =>
      if is_digit c then let (d, rest) := span_digits r in (c :: d, rest)
      else ([], s)
  | [] => ([], [])
  end.

Definition digits_value (d : list ascii) : Z :=
  fold_left (fun acc c => 10 * acc + Z.of_nat (nat_of_ascii c - 48)) d 0.

(** The characters of a string literal after its opening quote. *)
Fixpoint string_literal (s acc : list ascii) : option (string * list ascii) :=
  match s with
  | [] => None
  | c :: r =>
      if Ascii.eqb c "034" then Some (string_of_list_ascii (rev acc), r)
      else if Ascii.eqb c "\" then
        match r with
        | e :: r' =>
            if Ascii.eqb e "034" || Ascii.eqb e "\" || Ascii.eqb e "/"
            then string_literal r' (e :: acc) else None
        | [] => None
        end
      else string_literal r (c :: acc)
  end.

Definition number_literal (s : list ascii) : option (pyval * list ascii) :=
  let (neg, body) := match s with
                     | "-"%char :: r => (true, r)
                     | _ => (false, s)
                     end in
  match span_digits body with
  | ([], _) => None
  | (d, "."%char :: r) =>
      match span_digits r with
      | ([], _) => None
      | (f, rest) =>
          Some (PFloat (string_of_list_ascii
                          ((if neg then ["-"%char] else []) ++ d ++ "."%char :: f)%list),
                rest)
      end
  | (d, rest) => Some (PInt (if neg then - digits_value d else digits_value d), rest)
  end.

Fixpoint value (fuel : nat) (s : list ascii) : option (pyval * list ascii) :=
  match fuel with
  | O => None
  | S fuel' =>
      match skip_space s with
      | "n"%char :: "u"%char :: "l"%char :: "l"%char :: r => Some (PNone, r)
      | "t"%char :: "r"%char :: "u"%char :: "e"%char :: r => Some (PBool true, r)
      | "f"%char :: "a"%char :: "l"%char :: "s"%char :: "e"%char :: r =>
          Some (PBool false, r)
      | "034"%char :: r =>
          match string_literal r [] with
          | Some (str, r') => Some (PStr str, r')
          | None => None
          end
      | "["%char :: r =>
          match skip_space r with
          | "]"%char :: r' => Some (PList [], r')
          | _ => match elements fuel' r with
                 | Some (vs, r') => Some (PList vs, r')
                 | None => None
                 end
          end
      | "{"%char :: r =>
          match skip_space r with
          | "}"%char :: r' => Some (PDict [], r')
          | _ => match members fuel' r with
                 | Some (kvs, r') => Some (PDict (dict_of_pairs kvs), r')
                 | None => None
                 end
          end
      | other => number_literal other
      end
  end
with elements (fuel : nat) (s : list ascii) : option (list pyval * list ascii) :=
  match fuel with
  | O => None
  | S fuel' =>
      match value fuel' s with
      | None => None
      | Some (v, r) =>
          match skip_space r with
          | ","%char :: r' =>
              match elements fuel' r' with
              | Some (vs, r'') => Some (v :: vs, r'')
              | None => None
              end
          | "]"%char :: r' => Some ([v], r')
          | _ => None
          end
      end
  end
with members (fuel : nat) (s : list ascii)
  : option (list (string * pyval) * list ascii) :=
  match fuel with
  | O => None
  | S fuel' =>
      match skip_space s with
      | "034"%char :: r =>
          match string_literal r [] with
          | None => None
          | Some (k, r1) =>
              match skip_space r1 with
              | ":"%char :: r2 =>
                  match value fuel' r2 with
                  | None => None
                  | Some (v, r3) =>
                      match skip_space r3 with
                      | ","%char :: r4 =>
                          match members fuel' r4 with
                          | Some (kvs, r5) => Some ((k, v) :: kvs, r5)
                          | None => None
                          end
                      | "}"%char :: r4 => Some ([(k, v)], r4)
                      | _ => None
                      end
                  end
              | _ => None
              end
          end
      | _ => None
      end
  end.

Definition loads (s : string) : result pyval :=
  let chars := list_ascii_of_string s in
  match value (2 * length chars + 2) chars with
  | None => Err "Expecting value: line 1 column 1 (char 0)"
  | Some (v, rest) =>
      match skip_space rest with
      | [] => Ok v
      | _ => Err "Extra data"
      end
  end.

Fixpoint escape (s : string) : string :=
  match s with
  | EmptyString => EmptyString
  | String c r =>
      if Ascii.eqb c "034" || Ascii.eqb c "\" then String "\" (String c (escape r))
      else String c (escape r)
  end.

Fixpoint spaces (n : nat) : string :=
  match n with O => "" | S n' => " " +:+ spaces n' end.

(** [json.dumps(v, indent=2)] *)
Fixpoint dumps (level : nat) (v : pyval) {struct v} : string :=
  let inner := spaces (2 * S level) in
  match v with
  | PNone => "null"
  | PBool true => "true"
  | PBool false => "false"
  | PInt z => pretty z
  | PFloat r => if String.eqb r "nan" then "NaN" else r
  | PStr s => dq +:+ escape s +:+ dq
  | PList [] => "[]"
  | PList (x :: l) =>
      "[" +:+ nl +:+ inner +:+ dumps (S level) x
      +:+ (fix items (l : list pyval) : string :=
             match l with
             | [] => ""
             | y :: l' => "," +:+ nl +:+ inner +:+ dumps (S level) y +:+ items l'
             end) l
      +:+ nl +:+ spaces (2 * level) +:+ "]"
  | PDict [] => "{}"
  | PDict ((k, x) :: d) =>
      "{" +:+ nl +:+ inner +:+ dq +:+ escape k +:+ dq +:+ ": " +:+ dumps (S level) x
      +:+ (fix items (d : pydict) : string :=
             match d with
             | [] => ""
             | (k', y) :: d' =>
                 "," +:+ nl +:+ inner +:+ dq +:+ escape k' +:+ dq +:+ ": "
                 +:+ dumps (S level) y +:+ items d'
             end) d
      +:+ nl +:+ spaces (2 * level) +:+ "}"
  | PObj _ text => text
  end.

(** The type of the first object met that json has no encoding for. *)
Fixpoint unencodable (v : pyval) {struct v} : option string :=
  match v with
  | PObj kind _ => Some kind
  | PList l =>
      (fix items (l : list pyval) : option string :=
         match l with
         | [] => None
         | x :: l' => match unencodable x with Some k => Some k | None => items l' end
         end) l
  | PDict d =>
      (fix items (d : pydict) : option string :=
         match d with
         | [] => None
         | (_, x) :: d' => match unencodable x with Some k => Some k | None => items d' end
         end) d
  | _ => None
  end.

Definition encode (v : pyval) : result string :=
  match unencodable v with
  | Some kind => Err ("Object of type " +:+ kind +:+ " is not JSON serializable")
  | None => Ok (dumps 0 v)
  end.

(** [repr] of a value inside a container. *)
Fixpoint show (v : pyval) {struct v} : string :=
  match v with
  | PNone => "None"
  | PBool true => "True"
  | PBool false => "False"
  | PInt z => pretty z
  | PFloat r => r
  | PStr s => quoted s
  | PList [] => "[]"
  | PList (x :: l) =>
      "[" +:+ show x
      +:+ (fix items (l : list pyval) : string :=
             match l with
             | [] => ""
             | y :: l' => ", " +:+ show y +:+ items l'
             end) l
      +:+ "]"
  | PDict [] => "{}"
  | PDict ((k, x) :: d) =>
      "{" +:+ quoted k +:+ ": " +:+ show x
      +:+ (fix items (d : pydict) : string :=
             match d with
             | [] => ""
             | (k', y) :: d' => ", " +:+ quoted k' +:+ ": " +:+ show y +:+ items d'
             end) d
      +:+ "}"
  | PObj _ text => text
  end.

(** A JSON text written with single quotes in place of double quotes. *)
Fixpoint js (s : string) : string :=
  match s with
  | EmptyString => EmptyString
  | String c r => String (if Ascii.eqb c "'" then "034"%char else c) (js r)
  end.

(** The csv writer: a field with a comma, a quote or a line break in it is
    put between quotes, its quotes doubled, and so is a field that is alone
    on its line and empty. *)
Definition needs_quotes (f : string) : bool :=
  contains_char "," f || contains_char "034" f
  || contains_char (ascii_of_nat 10) f || contains_char (ascii_of_nat 13) f.

Fixpoint doubled (s : string) : string :=
  match s with
  | EmptyString => EmptyString
  | String c r =>
      if Ascii.eqb c "034" then String c (String c (doubled r)) else String c (doubled r)
  end.

Definition field_text (f : string) : string :=
  if needs_quotes f then dq +:+ doubled f +:+ dq else f.

Fixpoint joined (l : list string) : string :=
  match l with
  | [] => ""
  | [f] => f
  | f :: rest => f +:+ "," +:+ joined rest
  end.

Definition line_text (l : list string) : string :=
  match l with
  | [f] => if String.eqb f "" then dq +:+ dq else field_text f
  | _ => joined (map field_text l)
  end.

Definition text (t : table) : string :=
  fold_right (fun l rest => line_text l +:+ nl +:+ rest) "" (header t :: records t).

(** The tokenizer, for lines without quoted fields; blank lines are
    skipped. *)
Definition fields (b : string) : result table :=
  if contains_char "034" b then Err "quoted fields are not read"
  else
    match filter (fun l => l <> "") (split_on (ascii_of_nat 10) b) with
    | [] => Ok {| header := []; records := [] |}
    | h :: rs => Ok {| header := split_on "," h; records := map (split_on ",") rs |}
    end.

(** The fields [read_csv] takes for missing values. *)
Definition na_values : list string :=
  [""; "#N/A"; "#N/A N/A"; "#NA"; "-1.#IND"; "-1.#QNAN"; "-NaN"; "-nan";
   "1.#IND"; "1.#QNAN"; "<NA>"; "N/A"; "NA"; "NULL"; "NaN"; "None"; "n/a";
   "nan"; "null"].

Definition is_na (t : string) : bool := bool_decide (t ∈ na_values).

Definition int_text (t : string) : option Z :=
  match number_literal (list_ascii_of_string t) with
  | Some (PInt z, []) => Some z
  | _ => None
  end.

Definition float_text (t : string) : option string :=
  match number_literal (list_ascii_of_string t) with
  | Some (PInt z, []) => Some (pretty z +:+ ".0")
  | Some (PFloat r, []) => Some r
  | _ => None
  end.

Definition bool_text (t : string) : option bool :=
  if String.eqb t "True" then Some true
  else if String.eqb t "False" then Some false
  else None.

Definition all_some {A} (f : string -> option A) (l : list string) : bool :=
  forallb (fun t => match f t with Some _ => true | None => false end) l.

Definition infer (texts : list string) : dtype :=
  let present := filter (fun t => is_na t = false) texts in
  let complete := Nat.eqb (length present) (length texts) in
  match texts with
  | [] => ObjectT
  | _ :: _ =>
      if all_some int_text present then (if complete then Int64 else Float64)
      else if all_some float_text present then Float64
      else if all_some bool_text present && complete then BoolT
      else ObjectT
  end.

Definition convert (t : dtype) (text : string) : cell :=
  if is_na text then CNaN
  else match t with
       | Int64 => match int_text text with Some z => CInt z | None => CStr text end
       | Float64 => match float_text text with Some r => CFloat r | None => CStr text end
       | BoolT => match bool_text text with Some b => CBool b | None => CStr text end
       | ObjectT | OtherT _ _ _ => CStr text
       end.

(** Repeated labels get a running suffix. *)
Fixpoint mangle (seen names : list string) : list string :=
  match names with
  | [] => []
  | n :: rest =>
      let k := length (filter (fun s => s = n) seen) in
      (if Nat.eqb k 0 then n else n +:+ "." +:+ pretty k) :: mangle (n :: seen) rest
  end.

(** [read_json] on a list of records. *)
Fixpoint first_seen (seen : list string) (l : list string) : list string :=
  match l with
  | [] => []
  | k :: l' =>
      if bool_decide (k ∈ seen) then first_seen seen l'
      else k :: first_seen (k :: seen) l'
  end.

Definition cell_of_value (v : option pyval) : cell :=
  match v with
  | None | Some PNone => CNaN
  | Some (PInt z) => CInt z
  | Some (PFloat r) => CFloat r
  | Some (PBool b) => CBool b
  | Some (PStr s) => CStr s
  | Some other => CStr (show other)
  end.

Definition dtype_of_cells (l : list cell) : dtype :=
  let present := filter (fun c => c <> CNaN) l in
  match l with
  | [] => ObjectT
  | _ :: _ =>
      if forallb (fun c => match c with CInt _ => true | _ => false end) present
      then (if Nat.eqb (length present) (length l) then Int64 else Float64)
      else if forallb (fun c => match c with CInt _ | CFloat _ => true | _ => false end)
                      present then Float64
      else if forallb (fun c => match c with CBool _ => true | _ => false end) l
      then BoolT
      else ObjectT
  end.

Definition widen (t : dtype) (c : cell) : cell :=
  match t, c with
  | Float64, CInt z => CFloat (pretty z +:+ ".0")
  | _, _ => c
  end.

Definition as_record (v : pyval) : option pydict :=
  match v with PDict d => Some d | _ => None end.

Definition frame_of_records (recs : list pydict) : DataFrame :=
  let names := first_seen [] (concat (map (map fst) recs)) in
  let column k := map (fun r => cell_of_value (dict_get k r)) recs in
  let dts := map (fun k => dtype_of_cells (column k)) names in
  {| cols := combine names dts;
     rows := map (fun r => zip_with (fun k t => widen t (cell_of_value (dict_get k r)))
                                    names dts) recs |}.

Definition as_array (v : pyval) : option (list pyval) :=
  match v with PList l => Some l | _ => None end.

(** [read_json] on a list of arrays: the columns are labelled by their
    position. *)
Definition frame_of_arrays (arrays : list (list pyval)) : Source :=
  let width := fold_right (fun a n => Nat.max (length a) n) 0%nat arrays in
  let places := seq 0 width in
  let column j := map (fun a => cell_of_value (a !! j)) arrays in
  let dts := map (fun j => dtype_of_cells (column j)) places in
  {| src_cols := combine (map (fun j => PInt (Z.of_nat j)) places) dts;
     src_rows := map (fun a => zip_with (fun j t => widen t (cell_of_value (a !! j)))
                                        places dts) arrays |}.

Definition json_frame (path : string) (f : option file) : result Source :=
  match f with
  | Some (Blob b) =>
      match loads b with
      | Ok (PList items) =>
          match mapM as_record items, mapM as_array items with
          | Some recs, _ => Ok (source_of (frame_of_records recs))
          | None, Some arrays => Ok (frame_of_arrays arrays)
          | None, None => Err "Mixing dicts with non-Series may lead to ambiguous ordering."
          end
      | Ok _ => Err "If using all scalar values, you must pass an index"
      | Err e => Err e
      end
  | _ => Err ("File " +:+ path +:+ " does not exist")
  end.

(** Filters [column op integer] on an integer column. *)
Definition compare_op (op : string) : option (Z -> Z -> bool) :=
  if String.eqb op ">" then Some Z.gtb
  else if String.eqb op "<" then Some Z.ltb
  else if String.eqb op ">=" then Some Z.geb
  else if String.eqb op "<=" then Some Z.leb
  else if String.eqb op "==" then Some Z.eqb
  else if String.eqb op "!=" then Some (fun a b => negb (Z.eqb a b))
  else None.

Definition query (df : DataFrame) (expr : pyval) : outcome DataFrame :=
  match expr with
  | PStr e =>
      match split_on " " e with
      | [name; op; bound] =>
          match positions_of name df, compare_op op, int_text bound with
          | [j], Some test, Some b =>
              Val {| cols := cols df;
                    rows := filter (fun r => match nth j r CNaN with
                                             | CInt z => test z b
                                             | _ => false
                                             end = true) (rows df) |}
          | [], _, _ => Exc ("name " +:+ quoted name +:+ " is not defined")
          | _, _, _ => Exc "invalid syntax"
          end
      | _ => Exc "invalid syntax"
      end
  | _ => Exc ("expr must be a string to be evaluated, "
              +:+ "<class " +:+ quoted (type_name expr) +:+ "> given")
  end.

Definition int_key (j : nat) (r : list cell) : Z :=
  match nth j r CNaN with CInt z => z | _ => 0 end.

Definition int_column (df : DataFrame) (key : pyval) : option nat :=
  match key with
  | PStr k =>
      match positions_of k df with
      | [j] =>
          if forallb (fun c => match c with CInt _ => true | _ => false end)
                     (column_at df j)
          then Some j else None
      | _ => None
      end
  | _ => None
  end.

Definition key_le (j : nat) (r1 r2 : list cell) : Prop :=
  int_key j r1 <= int_key j r2.

#[local] Instance key_le_dec (j : nat) : RelDecision (key_le j).
Proof. intros r1 r2. unfold key_le. apply _. Defined.

Definition more_frequent (a b : cell * nat) : Prop := (snd b <= snd a)%nat.

#[local] Instance more_frequent_dec : RelDecision more_frequent.
Proof. intros a b. unfold more_frequent. apply _. Defined.

(** [sort_values] by an integer column. *)
Definition sorted_by (df : DataFrame) (key : pyval) : result DataFrame :=
  match int_column df key with
  | Some j =>
      Ok {| cols := cols df;
            rows := merge_sort (key_le j) (rows df) |}
  | None => Err "sorting is limited to one integer column"
  end.

(** [groupby([key]).agg("count").reset_index()] on an integer key: one row
    per key value, in increasing order, with the number of values present
    in every other column. *)
Definition grouped_count (df : DataFrame) (keys agg : pyval) : result DataFrame :=
  match keys, agg with
  | PList [key], PStr "count" =>
      match int_column df key with
      | Some j =>
          let others := filter (fun i => i <> j) (seq 0 (ncols df)) in
          let values := merge_sort Z.le (remove_dups (map (int_key j) (rows df))) in
          let group v := filter (fun r => int_key j r = v) (rows df) in
          Ok {| cols := (nth j (cols df) ("", Int64))
                        :: map (fun i => (fst (nth i (cols df) ("", Int64)), Int64)) others;
                rows := map (fun v =>
                               CInt v
                               :: map (fun i =>
                                         CInt (Z.of_nat
                                                 (length (filter (fun r => nth i r CNaN <> CNaN)
                                                                 (group v)))))
                                      others)
                            values |}
      | None => Err "grouping is limited to one integer column"
      end
  | _, _ => Err "grouping is limited to one key and the count aggregation"
  end.

(** The values of a series with their number of occurrences, the most
    frequent first. *)
Definition counts (l : list cell) : pyval :=
  let present := filter (fun c => c <> CNaN) l in
  let distinct := rev (remove_dups (rev present)) in
  let counted := map (fun v => (v, length (filter (fun c => c = v) present))) distinct in
  PDict (map (fun vc => (cell_text (fst vc), PInt (Z.of_nat (snd vc))))
             (merge_sort more_frequent counted)).

(** Statistics of one column, reduced to the number of values present. *)
Definition block (q : pyval) (t : dtype) (l : list cell) : result pyval :=
  Ok (PDict [("count", PInt (Z.of_nat (length (filter (fun c => c <> CNaN) l))))]).

(** A coefficient is computed for a column with itself only. *)
Definition coefficient (a b : list cell) : pyval :=
  if bool_decide (a = b) then PFloat "1.0" else PFloat "nan".

(** A handful of expressions; one of them looks at a file, and one opens a
    figure. *)
Definition evaluate (code : pyval) (params : pydict) (df : DataFrame) : M evaluated :=
  fun st =>
    match code with
    | PStr c =>
        if String.eqb c "df" then (Val (EvFrame df), st)
        else if String.eqb c "len(df)"
        then (Val (EvValue (PInt (Z.of_nat (nrows df)))), st)
        else if String.eqb c "df.shape" then (Val (EvValue (shape df)), st)
        else if String.eqb c "1/0" then (Exc "division by zero", st)
        else if String.eqb c "exit()" then (Base "SystemExit", st)
        else if String.eqb c "os.path.exists('flag.txt')"
        then (Val (EvValue (PBool (bool_decide (is_Some (fs st !! "flag.txt"))))), st)
        else if String.eqb c "plt.figure()"
        then (Val (EvValue (PObj "Figure" "Figure(640x480)")),
              with_figures ([] :: figures st) st)
        else (Exc "invalid syntax (<string>, line 1)", st)
    | _ => (Exc "eval() arg 1 must be a string, bytes or code object", st)
    end.

(** seaborn refuses a variable that is not a column of the data. *)
Definition known (df : DataFrame) (v : pyval) : option string :=
  match v with
  | PStr s =>
      if bool_decide (s ∈ columns df) then None
      else Some ("Could not interpret value `" +:+ s
                 +:+ "` for `x`. An entry with this name does not appear in `data`.")
  | PNone => None
  | _ => Some ("Could not interpret value of type " +:+ type_name v)
  end.

Definition first_error (l : list (option string)) : option string :=
  List.fold_right (fun e acc => match e with Some _ => e | None => acc end) None l.

Definition drawing (df : DataFrame) (c : plot_cmd) : option string :=
  match c with
  | Histplot x _ => known df x
  | Scatterplot x y _ => first_error [known df x; known df y]
  | Barplot x y => first_error [known df x; known df y]
  | Boxplot y x => first_error [known df y; known df x]
  | _ => None
  end.

Definition world : World := {|
  json_loads := loads;
  json_dumps := encode;
  repr := show;
  type_error_text := fun site v =>
    site +:+ "() argument must be str or int, not " +:+ type_name v;
  exists_other := fun v =>
    match v with
    | PInt _ | PBool _ => Ok false
    | _ => Err ("stat: path should be string, bytes, os.PathLike or integer, not "
                +:+ type_name v)
    end;
  write_fault := fun _ => None;
  csv_text := text;
  csv_fields := fields;
  csv_break := fun _ => None;
  header_text := show;
  lower_unicode := lower_text;
  mangle_dupe_cols := mangle [];
  infer_dtype := infer;
  parse_cell := convert;
  ragged_csv := fun _ => Err "Error tokenizing data. C error: too many fields";
  read_csv_other := fun v =>
    Err ("Invalid file path or buffer object type: <class "
         +:+ quoted (type_name v) +:+ ">");
  read_excel := fun _ _ =>
    Err "Excel file format cannot be determined, you must specify an engine manually.";
  read_json := json_frame;
  refine_percentiles := fun p => Ok p;
  stat_block := block;
  pearson := coefficient;
  groupby_agg := fun df keys agg st => (grouped_count df keys agg, st);
  df_query := fun df expr st => (query df expr, st);
  value_counts := counts;
  sort_values := sorted_by;
  getitem_other := fun _ v => Err (show v);
  py_eval := evaluate;
  figure_error := None;
  draw_error := drawing;
  default_filetype := "png";
  savefig_error := fun _ _ => None;
  savefig_break := fun _ _ _ => None
|}.

(** No file, no figure. *)
Definition blank : state := {| fs := ∅; figures := [] |}.

(** The state in which the staged file holds the given lines. *)
Definition staged (h : list string) (rs : list (list string)) : state :=
  {| fs := {[ temp_dataframe := Blob (text {| header := h; records := rs |}) ]};
     figures := [] |}.

(** The dataset of the specification's examples: a numeric column [A] and
    a text column [B]. *)
Definition ab : state :=
  staged ["A"; "B"] [["1"; "x"]; ["2"; "y"]; ["3"; "z"]].

End Sample.

(** ** Notions used in the statements *)

(** A body that raises nothing outside [Exception]. *)
Definition tame {A} (m : M A) : Prop :=
  forall st name st', m st <> (Base name, st').

(** [params.get("temp_path", "temp_dataframe.csv")] *)
Definition temp_path_of (params : pydict) : pyval :=
  dict_get_default "temp_path" (PStr temp_dataframe) params.

(** The query is the text of a JSON object [d] whose parameters, [{}] when
    absent, are the object [params]. *)
Definition parsed (w : World) (query : string) (d params : pydict) : Prop :=
  json_loads w query = Ok (PDict d)
  /\ as_dict (dict_get_default "parameters" (PDict []) d) = Ok params.

(** The staged file named by the parameters exists and reads as [df]. *)
Definition loaded (w : World) (st : state) (params : pydict) (df : DataFrame) : Prop :=
  path_exists w (fs st) (temp_path_of params) = Ok true
  /\ read_csv_arg w (fs st) (temp_path_of params) = Ok df.

(** What the dispatcher does once the request is read: the staged file is
    looked up, read and handed to the operation. *)
Definition analysis_on (w : World) (operation : pyval) (params : pydict) : M string :=
  present <- (fun st => lift (path_exists w (fs st) (temp_path_of params)) st) ;;
  if negb present then ret (staging_missing w (temp_path_of params))
  else
    df <- (fun st => lift (read_csv_arg w (fs st) (temp_path_of params)) st) ;;
    operation_result w operation params df.

(** What the renderer does once the request is read. *)
Definition visualization_on (w : World) (plot_type save_path : pyval) (params : pydict)
  : M string :=
  present <- (fun st => lift (path_exists w (fs st) (temp_path_of params)) st) ;;
  if negb present then ret (staging_missing w (temp_path_of params))
  else
    df <- (fun st => lift (read_csv_arg w (fs st) (temp_path_of params)) st) ;;
    _ <- new_figure w ;;
    early <- plot_branch w plot_type params df ;;
    match early with
    | Some diagnostic => ret diagnostic
    | None => save_figure w df save_path
    end.

(** A body that leaves the state alone and does not look at it. *)
Definition stateless {A} (m : M A) : Prop :=
  exists o, forall st, m st = (o, st).

(** The operations that pass something of the caller's on: groupby its
    aggregation to pandas, query its filter and custom its code to an
    interpreter. *)
Definition hands_over (operation : pyval) : bool :=
  is_str operation "groupby" || is_str operation "query" || is_str operation "custom".

(** The columns of a groupby request as they are passed to pandas. *)
Definition groupby_columns (columns : pyval) : pyval :=
  match columns with
  | PStr _ => PList [columns]
  | _ => columns
  end.


(** The parameters each plot kind checks for before drawing. *)
Definition required (kind : string) : list string :=
  if String.eqb kind "histogram" then ["column"]
  else if String.eqb kind "scatter" then ["x"; "y"]
  else if String.eqb kind "bar" then ["x"; "y"]
  else if String.eqb kind "line" then ["x"; "y"]
  else if String.eqb kind "boxplot" then ["column"]
  else [].

(** The names of the columns of a frame that have a numeric dtype. *)
Definition numeric_names (df : DataFrame) : list string :=
  map fst (filter (fun c => is_number (snd c) = true) (cols df)).

(** The dataset of the specification's example once read: the numeric
    column [A = 1, 2, 3] and the text column [B = x, y, z]. *)
Definition ab_frame : DataFrame :=
  {| cols := [("A", Int64); ("B", ObjectT)];
     rows := [[CInt 1; CStr "x"]; [CInt 2; CStr "y"]; [CInt 3; CStr "z"]] |}.

(** The open figures after the commands [cmds] went to the current one. *)
Definition extend (cmds : list plot_cmd) (figs : list (list plot_cmd))
  : list (list plot_cmd) :=
  match figs with
  | [] => [cmds]
  | f :: others => (f ++ cmds)%list :: others
  end.

(** The keys of a dict value. *)
Definition keys (v : pyval) : list string :=
  match v with PDict d => map fst d | _ => [] end.

(** The state in which [df] has been staged at the well-known path. *)
Definition staged_with (w : World) (df : DataFrame) (st : state) : state :=
  with_fs (<[temp_dataframe := Blob (staged_text w df)]> (fs st)) st.

(** The operations that need a parameter, with its name. *)
Definition needs (operation : string) : option string :=
  if String.eqb operation "groupby" then Some "columns"
  else if String.eqb operation "query" then Some "filter"
  else if String.eqb operation "custom" then Some "code"
  else None.

Definition operations : list string :=
  ["describe"; "correlation"; "groupby"; "query"; "summary"; "custom"].

Definition plot_types : list string :=
  ["histogram"; "scatter"; "bar"; "line"; "correlation_heatmap"; "boxplot"].

(** A body that writes no file and only draws on the current figure. *)
Definition draws_only {A} (m : M A) : Prop :=
  forall st o st1 f rest,
    m st = (o, st1) -> figures st = f :: rest ->
    fs st1 = fs st /\ exists cmds, figures st1 = (f ++ cmds)%list :: rest.

(** The path holds what it held, or it named nothing and is now a
    directory. *)
Definition kept_or_created (st st' : state) (p : string) : Prop :=
  fs st' !! p = fs st !! p
  \/ (fs st !! p = None /\ fs st' !! p = Some Directory).

Definition saved_to (path : string) : string := "Visualization saved to " +:+ path.

(** The file a request asks the renderer to write: the one [savefig] makes
    of its save path. *)
Definition picture_of (w : World) (q : string) : option string :=
  match json_loads w q with
  | Ok (PDict d) =>
      match dict_get_default "save_path" (PStr "visualization.png") d with
      | PStr path => Some (image_path w path)
      | _ => None
      end
  | _ => None
  end.

(** The names of the columns of a frame that have the object dtype. *)
Definition text_names (df : DataFrame) : list string :=
  map fst (filter (fun c => is_object (snd c) = true) (cols df)).

(** The sample libraries with an encoder that refuses what it is given, as
    [json.dumps] refuses a value it has no encoding for (the timestamps of
    a spreadsheet, say). *)
Definition refusing : World := {|
  json_loads := json_loads Sample.world;
  json_dumps := fun _ => Err "Object of type Timestamp is not JSON serializable";
  repr := repr Sample.world;
  type_error_text := type_error_text Sample.world;
  exists_other := exists_other Sample.world;
  write_fault := write_fault Sample.world;
  csv_text := csv_text Sample.world;
  csv_fields := csv_fields Sample.world;
  csv_break := csv_break Sample.world;
  header_text := header_text Sample.world;
  lower_unicode := lower_unicode Sample.world;
  mangle_dupe_cols := mangle_dupe_cols Sample.world;
  infer_dtype := infer_dtype Sample.world;
  parse_cell := parse_cell Sample.world;
  ragged_csv := ragged_csv Sample.world;
  read_csv_other := read_csv_other Sample.world;
  read_excel := read_excel Sample.world;
  read_json := read_json Sample.world;
  refine_percentiles := refine_percentiles Sample.world;
  stat_block := stat_block Sample.world;
  pearson := pearson Sample.world;
  groupby_agg := groupby_agg Sample.world;
  df_query := df_query Sample.world;
  value_counts := value_counts Sample.world;
  sort_values := sort_values Sample.world;
  getitem_other := getitem_other Sample.world;
  py_eval := py_eval Sample.world;
  figure_error := figure_error Sample.world;
  draw_error := draw_error Sample.world;
  default_filetype := default_filetype Sample.world;
  savefig_error := savefig_error Sample.world;
  savefig_break := savefig_break Sample.world
|}.

(** * Properties *)

(** ** Dictionaries *)

Lemma dict_get_set_same (k : string) (v : pyval) (d : pydict) :
  dict_get k (dict_set k v d) = Some v.
Proof.
  induction d as [|[k' v'] d IH]; simpl.
  - now rewrite String.eqb_refl.
  - destruct (String.eqb k k') eqn:E; simpl; rewrite ?String.eqb_refl, ?E; auto.
Qed.

Lemma dict_get_set_other (k k' : string) (v : pyval) (d : pydict) :
  k <> k' -> dict_get k' (dict_set k v d) = dict_get k' d.
Proof.
  intros Hne. induction d as [|[k0 v0] d IH]; simpl.
  - destruct (String.eqb k' k) eqn:E; auto.
    apply String.eqb_eq in E. congruence.
  - destruct (String.eqb k k0) eqn:E; simpl.
    + apply String.eqb_eq in E. subst k0.
      destruct (String.eqb k' k) eqn:E'; auto.
      apply String.eqb_eq in E'. congruence.
    + now rewrite IH.
Qed.

Lemma dict_set_keys (k : string) (v : pyval) (d : pydict) (x : string) :
  In x (map fst (dict_set k v d)) <-> x = k \/ In x (map fst d).
Proof.
  induction d as [|[k' v'] d IH]; simpl.
  - intuition.
  - destruct (String.eqb k k') eqn:E; simpl.
    + apply String.eqb_eq in E. subst k'. intuition.
    + rewrite IH. intuition.
Qed.

(** The keys of a dict built from pairs are the first components. *)
Lemma dict_of_pairs_keys (l : list (string * pyval)) (x : string) :
  In x (map fst (dict_of_pairs l)) <-> In x (map fst l).
Proof.
  unfold dict_of_pairs.
  assert (G : forall acc : pydict,
             In x (map fst (fold_left (fun d kv => dict_set (fst kv) (snd kv) d) l acc))
             <-> In x (map fst acc) \/ In x (map fst l)).
  { induction l as [|[k v] l IH]; intros acc; simpl.
    - intuition.
    - rewrite IH, dict_set_keys. intuition. }
  rewrite G. simpl. intuition.
Qed.

(** ** Strings *)

Lemma prefix_append (a b : string) : String.prefix a (a +:+ b) = true.
Proof.
  induction a as [|c a IH]; [now destruct b|].
  change (String c a +:+ b) with (String c (a +:+ b)). simpl.
  destruct (ascii_dec c c); [exact IH|congruence].
Qed.

Lemma split_on_cons (c : ascii) (s : string) :
  exists p ps, split_on c s = p :: ps.
Proof.
  destruct s as [|a s]; simpl; eauto.
  destruct (Ascii.eqb a c); eauto.
  destruct (split_on c s); eauto.
Qed.

Lemma split_on_absent (c : ascii) (s : string) :
  contains_char c s = false -> split_on c s = [s].
Proof.
  induction s as [|a s IH]; simpl; auto.
  intros H. apply orb_false_elim in H as [Ha Hs].
  rewrite Ha, (IH Hs). reflexivity.
Qed.

Lemma split_on_present (c : ascii) (s : string) :
  contains_char c s = true -> exists p q ps, split_on c s = p :: q :: ps.
Proof.
  induction s as [|a s IH]; simpl; [discriminate|].
  intros H. destruct (Ascii.eqb a c) eqn:E.
  - destruct (split_on_cons c s) as (p & ps & ->). eauto.
  - simpl in H. destruct (IH H) as (p & q & ps & ->). eauto.
Qed.

Lemma last_piece_skip (c a : ascii) (s : string) :
  contains_char c s = true ->
  last_piece (split_on c (String a s)) = last_piece (split_on c s).
Proof.
  intros H. simpl. destruct (split_on_present c s H) as (p & q & ps & ->).
  destruct (Ascii.eqb a c); reflexivity.
Qed.

Lemma contains_char_app (c : ascii) (s t : string) :
  contains_char c (s +:+ t) = contains_char c s || contains_char c t.
Proof.
  induction s as [|a s IH]; simpl; auto. now rewrite IH, orb_assoc.
Qed.

(** The last piece of a split is what follows the last separator. *)
Lemma last_piece_after (c : ascii) (pre suf : string) :
  contains_char c suf = false ->
  last_piece (split_on c (pre +:+ String c suf)) = suf.
Proof.
  intros H. induction pre as [|a pre IH].
  - simpl. rewrite Ascii.eqb_refl, (split_on_absent c suf H). reflexivity.
  - change (String a pre +:+ String c suf) with (String a (pre +:+ String c suf)).
    rewrite last_piece_skip; auto.
    rewrite contains_char_app. simpl. rewrite Ascii.eqb_refl.
    now rewrite orb_true_r.
Qed.

(** ** Method bodies *)

Lemma bind_val {A B} (m : M A) (k : A -> M B) (st st1 : state) (a : A) :
  m st = (Val a, st1) -> bind m k st = k a st1.
Proof. intros H. unfold bind. now rewrite H. Qed.

Lemma bind_val_inv {A B} (m : M A) (k : A -> M B) (st st' : state) (b : B) :
  bind m k st = (Val b, st') ->
  exists a st1, m st = (Val a, st1) /\ k a st1 = (Val b, st').
Proof.
  unfold bind. destruct (m st) as [[a|e|n] st1]; intros H; try discriminate.
  eauto.
Qed.

Lemma lift_ok {A} (r : result A) (a : A) (st : state) :
  r = Ok a -> lift r st = (Val a, st).
Proof. intros ->. reflexivity. Qed.

Lemma lift_val_inv {A} (r : result A) (a : A) (st st' : state) :
  lift r st = (Val a, st') -> r = Ok a /\ st' = st.
Proof. unfold lift. destruct r; intros H; inversion H; auto. Qed.

Lemma tame_ret {A} (a : A) : tame (ret a).
Proof. intros st n st' H. discriminate. Qed.

Lemma tame_lift {A} (r : result A) : tame (lift r).
Proof. intros st n st' H. unfold lift in H. destruct r; discriminate. Qed.

Lemma tame_raise {A} (msg : string) : tame (@raise A msg).
Proof. intros st n st' H. discriminate. Qed.

Lemma tame_bind {A B} (m : M A) (k : A -> M B) :
  tame m -> (forall a, tame (k a)) -> tame (bind m k).
Proof.
  intros Hm Hk st n st' H. unfold bind in H.
  destruct (m st) as [[a|e|b] st1] eqn:E.
  - exact (Hk a st1 n st' H).
  - discriminate.
  - exact (Hm st b st1 E).
Qed.

Lemma tame_reads {A} (f : state -> result A) : tame (fun st => lift (f st) st).
Proof. intros st n st' H. unfold lift in H. destruct (f st); discriminate. Qed.


(** ** The common prefix of the dispatcher and the renderer *)

Section Requests.

Variable w : World.


Lemma analysis_parsed (q : string) (d params : pydict) (st : state) :
  parsed w q d params ->
  DataFrameAnalysisTool.run w q st
  = try_except "Error during DataFrame analysis: "
      (analysis_on w (dict_get_default "operation" PNone d) params) st.
Proof.
  intros [Hq Hp].
  unfold DataFrameAnalysisTool.run, try_except, DataFrameAnalysisTool.body, DataFrameAnalysisTool.request.
  rewrite (bind_val _ _ st st (PDict d)) by (now apply lift_ok). cbv beta.
  rewrite (bind_val _ _ st st d) by reflexivity. cbv beta.
  rewrite (bind_val _ _ st st params) by (now apply lift_ok). cbv beta.
  reflexivity.
Qed.

Lemma analysis_unreadable (q : string) (d params : pydict) (e : string) (st : state) :
  parsed w q d params ->
  path_exists w (fs st) (temp_path_of params) = Ok true ->
  read_csv_arg w (fs st) (temp_path_of params) = Err e ->
  DataFrameAnalysisTool.run w q st = (Returns ("Error during DataFrame analysis: " +:+ e), st).
Proof.
  intros Hp He Hr. rewrite (analysis_parsed q d params st Hp).
  unfold try_except, analysis_on.
  rewrite (bind_val _ _ st st true) by (now apply lift_ok).
  cbv beta. change (negb true) with false. cbv iota.
  unfold bind, lift. rewrite Hr. reflexivity.
Qed.

Lemma analysis_staged (q : string) (d params : pydict) (df : DataFrame) (st : state) :
  parsed w q d params -> loaded w st params df ->
  DataFrameAnalysisTool.run w q st
  = try_except "Error during DataFrame analysis: "
      (operation_result w (dict_get_default "operation" PNone d) params df) st.
Proof.
  intros [Hq Hp] [He Hr].
  unfold DataFrameAnalysisTool.run, try_except, DataFrameAnalysisTool.body, DataFrameAnalysisTool.request.
  rewrite (bind_val _ _ st st (PDict d)) by (now apply lift_ok). cbv beta.
  rewrite (bind_val _ _ st st d) by reflexivity. cbv beta.
  rewrite (bind_val _ _ st st params) by (now apply lift_ok). cbv beta.
  fold (temp_path_of params).
  rewrite (bind_val _ _ st st true) by (now apply lift_ok).
  cbv beta. change (negb true) with false. cbv iota.
  rewrite (bind_val _ _ st st df) by (now apply lift_ok).
  reflexivity.
Qed.


Lemma visualization_parsed (q : string) (d params : pydict) (st : state) :
  parsed w q d params ->
  DataVisualizationTool.run w q st
  = try_except "Error creating visualization: "
      (visualization_on w (dict_get_default "plot_type" PNone d)
                          (dict_get_default "save_path" (PStr "visualization.png") d)
                          params) st.
Proof.
  intros [Hq Hp].
  unfold DataVisualizationTool.run, try_except, DataVisualizationTool.body, DataVisualizationTool.request.
  rewrite (bind_val _ _ st st (PDict d)) by (now apply lift_ok). cbv beta.
  rewrite (bind_val _ _ st st d) by reflexivity. cbv beta.
  rewrite (bind_val _ _ st st params) by (now apply lift_ok). cbv beta.
  reflexivity.
Qed.

Lemma visualization_staged (q : string) (d params : pydict) (df : DataFrame) (st : state) :
  parsed w q d params -> loaded w st params df ->
  DataVisualizationTool.body w q st
  = (_ <- new_figure w ;;
     early <- plot_branch w (dict_get_default "plot_type" PNone d) params df ;;
     match early with
     | Some diagnostic => ret diagnostic
     | None => save_figure w df (dict_get_default "save_path" (PStr "visualization.png") d)
     end) st.
Proof.
  intros [Hq Hp] [He Hr].
  unfold DataVisualizationTool.body, DataVisualizationTool.request.
  rewrite (bind_val _ _ st st (PDict d)) by (now apply lift_ok). cbv beta.
  rewrite (bind_val _ _ st st d) by reflexivity. cbv beta.
  rewrite (bind_val _ _ st st params) by (now apply lift_ok). cbv beta.
  fold (temp_path_of params).
  rewrite (bind_val _ _ st st true) by (now apply lift_ok).
  cbv beta. change (negb true) with false. cbv iota.
  rewrite (bind_val _ _ st st df) by (now apply lift_ok).
  reflexivity.
Qed.

End Requests.

(** ** The loader's choice of a reader *)

Lemma file_ext_after_dot (w : World) (pre suf : string) :
  contains_char "." suf = false -> file_ext w (pre +:+ "." +:+ suf) = lower w suf.
Proof.
  intros H. unfold file_ext.
  change ("." +:+ suf) with (String "."%char suf).
  now rewrite last_piece_after.
Qed.

Lemma file_ext_no_dot (w : World) (path : string) :
  contains_char "." path = false -> file_ext w path = lower w path.
Proof.
  intros H. unfold file_ext. now rewrite split_on_absent.
Qed.

Lemma load_unsupported (w : World) (path : string) (st : state) :
  reader_of (file_ext w path) = None ->
  DataFrameLoadTool.run w path st
  = (Returns ("Unsupported file format: " +:+ file_ext w path), st).
Proof.
  intros H. unfold DataFrameLoadTool.run, try_except, DataFrameLoadTool.body. rewrite H. reflexivity.
Qed.

Lemma load_supported (w : World) (path : string) (r : reader) (st : state) :
  reader_of (file_ext w path) = Some r ->
  DataFrameLoadTool.run w path st
  = try_except "Error loading dataset: "
      (df <- read_source w r path ;;
       _ <- to_csv w temp_dataframe (named w df) ;;
       lift (json_dumps w (info_dict path df))) st.
Proof.
  intros H. unfold DataFrameLoadTool.run, DataFrameLoadTool.body. rewrite H. reflexivity.
Qed.

(** C9, amended.  The loader takes as extension what follows the last dot
    of the path, in lower case, so that the reader is chosen without regard
    to case: a path ending in [.CSV] is read as delimited text.  For a path
    without any dot the extension is the whole path in lower case; the call
    then returns the unsupported-format diagnostic and leaves the state as
    it was, unless that lower-cased path is itself one of csv, xls, xlsx or
    json, in which case the matching reader is run on the path. *)
Theorem loader_extension (w : World) (path : string) (st : state) :
  (forall pre suf,
      path = pre +:+ "." +:+ suf -> contains_char "." suf = false ->
      file_ext w path = lower w suf)
  /\ (forall pre, path = pre +:+ ".CSV" -> reader_of (file_ext w path) = Some ReadCsv)
  /\ (contains_char "." path = false ->
      file_ext w path = lower w path
      /\ (reader_of (lower w path) = None ->
          DataFrameLoadTool.run w path st
          = (Returns ("Unsupported file format: " +:+ lower w path), st))
      /\ (forall r, reader_of (lower w path) = Some r ->
          DataFrameLoadTool.run w path st
          = try_except "Error loading dataset: "
              (df <- read_source w r path ;;
               _ <- to_csv w temp_dataframe (named w df) ;;
               lift (json_dumps w (info_dict path df))) st)).
Proof.
  split; [|split].
  - intros pre suf -> H. now apply file_ext_after_dot.
  - intros pre ->.
    change (pre +:+ ".CSV") with (pre +:+ "." +:+ "CSV").
    now rewrite file_ext_after_dot.
  - intros H. pose proof (file_ext_no_dot w path H) as E. repeat split; auto.
    + intros Hn. rewrite <- E in *. now apply load_unsupported.
    + intros r Hr. rewrite <- E in Hr. now apply load_supported.
Qed.

Lemma loader_extension_witness :
  file_ext Sample.world "data.v2.CSV" = "csv"
  /\ reader_of (file_ext Sample.world "data.v2.CSV") = Some ReadCsv
  /\ DataFrameLoadTool.run Sample.world "README" Sample.blank
     = (Returns "Unsupported file format: readme", Sample.blank).
Proof.
  split; [|split].
  - exact (proj1 (loader_extension Sample.world "data.v2.CSV" Sample.blank)
             "data.v2" "CSV" eq_refl eq_refl).
  - exact (proj1 (proj2 (loader_extension Sample.world "data.v2.CSV" Sample.blank))
             "data.v2" eq_refl).
  - exact (proj1 (proj2 (proj2 (proj2 (loader_extension Sample.world "README" Sample.blank))
                           eq_refl)) eq_refl).
Defined.

(** C9 as stated fails on the path [csv]: it has no dot, and the loader does
    not answer with the unsupported-format diagnostic but runs [read_csv] on
    it; when a file of that name holds a table, the table is staged. *)
Lemma loader_extension_counterexample :
  contains_char "." "csv" = false
  /\ DataFrameLoadTool.run Sample.world "csv" Sample.blank
     = (Returns "Error loading dataset: [Errno 2] No such file or directory: 'csv'",
        Sample.blank)
  /\ fs (snd (DataFrameLoadTool.run Sample.world "csv"
                {| fs := {[ "csv" := Blob ("A" +:+ Sample.nl +:+ "1" +:+ Sample.nl) ]};
                   figures := [] |}))
     !! temp_dataframe
     = Some (Blob ("A" +:+ Sample.nl +:+ "1" +:+ Sample.nl)).
Proof. repeat split; vm_compute; reflexivity. Qed.

(** ** A request without its kind *)

(** C10, amended.  When the request is a JSON object without the key
    [operation] (for the renderer: without [plot_type]), its parameters are
    an object or absent, and the staged file exists and is read (for the
    renderer: and the figure is opened), no parse failure is reported: the
    kind is read as [None] and the call returns the unsupported-kind
    diagnostic with the text [None] as the name of the kind. *)
Theorem missing_kind_is_none
  (w : World) (q : string) (d params : pydict) (df : DataFrame) (st : state) :
  parsed w q d params -> loaded w st params df ->
  (dict_get "operation" d = None ->
   DataFrameAnalysisTool.run w q st = (Returns "Error: Unsupported operation 'None'", st))
  /\ (dict_get "plot_type" d = None -> figure_error w = None ->
      DataVisualizationTool.run w q st
      = (Returns "Error: Unsupported plot type 'None'",
         with_figures ([] :: figures st) st)).
Proof.
  intros Hp Hl. split.
  - intros Hk. rewrite (analysis_staged w q d params df st Hp Hl).
    unfold dict_get_default. rewrite Hk. reflexivity.
  - intros Hk Hf. unfold DataVisualizationTool.run, try_except.
    rewrite (visualization_staged w q d params df st Hp Hl).
    unfold dict_get_default at 1. rewrite Hk.
    unfold bind, new_figure. rewrite Hf. reflexivity.
Qed.

Lemma missing_kind_is_none_witness :
  DataFrameAnalysisTool.run Sample.world (Sample.js "{'parameters': {}}") Sample.ab
  = (Returns "Error: Unsupported operation 'None'", Sample.ab)
  /\ fst (DataVisualizationTool.run Sample.world (Sample.js "{}") Sample.ab)
     = Returns "Error: Unsupported plot type 'None'".
Proof.
  assert (L : forall params, params = [] ->
              exists df, loaded Sample.world Sample.ab params df).
  { intros params ->. eexists. split; vm_compute; reflexivity. }
  split.
  - destruct (L [] eq_refl) as [df Hdf].
    apply (missing_kind_is_none Sample.world (Sample.js "{'parameters': {}}")
             [("parameters", PDict [])] [] df Sample.ab); auto.
    split; vm_compute; reflexivity.
  - destruct (L [] eq_refl) as [df Hdf].
    rewrite (proj2 (missing_kind_is_none Sample.world (Sample.js "{}")
                      [] [] df Sample.ab (conj eq_refl eq_refl) Hdf) eq_refl eq_refl).
    reflexivity.
Defined.

(** C10 as stated fails when nothing is staged: the request [{}] parses and
    has no [operation], and the call returns the diagnostic of the missing
    staged file, not the unsupported-kind diagnostic. *)
Lemma missing_kind_is_none_counterexample :
  json_loads Sample.world (Sample.js "{}") = Ok (PDict [])
  /\ DataFrameAnalysisTool.run Sample.world (Sample.js "{}") Sample.blank
     = (Returns "Error: Temporary DataFrame file not found at temp_dataframe.csv",
        Sample.blank)
  /\ DataVisualizationTool.run Sample.world (Sample.js "{}") Sample.blank
     = (Returns "Error: Temporary DataFrame file not found at temp_dataframe.csv",
        Sample.blank).
Proof. repeat split; vm_compute; reflexivity. Qed.

(** ** Grouping by one column *)

(** C4.  For every staged state and every column name, the groupby
    operation with ["columns": "A"] returns what it returns with
    ["columns": ["A"]], the other parameters being the same: a single
    string is wrapped into a one-element list before pandas is called. *)
Theorem groupby_string_as_list
  (w : World) (q1 q2 : string) (d1 d2 rest : pydict) (a : string) (st : state) :
  json_loads w q1 = Ok (PDict d1) ->
  json_loads w q2 = Ok (PDict d2) ->
  dict_get "operation" d1 = Some (PStr "groupby") ->
  dict_get "operation" d2 = Some (PStr "groupby") ->
  dict_get "parameters" d1 = Some (PDict (dict_set "columns" (PStr a) rest)) ->
  dict_get "parameters" d2 = Some (PDict (dict_set "columns" (PList [PStr a]) rest)) ->
  DataFrameAnalysisTool.run w q1 st = DataFrameAnalysisTool.run w q2 st.
Proof.
  intros H1 H2 O1 O2 P1 P2.
  rewrite (analysis_parsed w q1 d1 (dict_set "columns" (PStr a) rest) st),
          (analysis_parsed w q2 d2 (dict_set "columns" (PList [PStr a]) rest) st).
  2: { split; auto. unfold dict_get_default. now rewrite P2. }
  2: { split; auto. unfold dict_get_default. now rewrite P1. }
  unfold dict_get_default. rewrite O1, O2.
  unfold try_except, analysis_on, temp_path_of, dict_get_default.
  rewrite !(dict_get_set_other "columns" "temp_path") by discriminate.
  unfold bind, lift.
  destruct (path_exists w (fs st) _) as [[|]|e]; simpl; auto.
  destruct (read_csv_arg w (fs st) _) as [df|e]; simpl; auto.
  unfold operation_result, dict_has, dict_get_default.
  simpl is_str. cbv iota.
  rewrite !dict_get_set_same.
  rewrite !(dict_get_set_other "columns" "aggregation") by discriminate.
  reflexivity.
Qed.

Lemma groupby_string_as_list_witness :
  DataFrameAnalysisTool.run Sample.world
    (Sample.js "{'operation': 'groupby', 'parameters': {'aggregation': 'count', 'columns': 'A'}}")
    Sample.ab
  = DataFrameAnalysisTool.run Sample.world
      (Sample.js "{'operation': 'groupby', 'parameters': {'aggregation': 'count', 'columns': ['A']}}")
      Sample.ab.
Proof.
  apply (groupby_string_as_list Sample.world _ _
           [("operation", PStr "groupby");
            ("parameters", PDict [("aggregation", PStr "count"); ("columns", PStr "A")])]
           [("operation", PStr "groupby");
            ("parameters", PDict [("aggregation", PStr "count");
                                  ("columns", PList [PStr "A"])])]
           [("aggregation", PStr "count")] "A" Sample.ab);
    vm_compute; reflexivity.
Defined.

(** ** The staged file is the only input *)

Lemma stateless_ret {A} (a : A) : stateless (ret a).
Proof. exists (Val a). reflexivity. Qed.

Lemma stateless_lift {A} (r : result A) : stateless (lift r).
Proof. exists (match r with Ok a => Val a | Err e => Exc e end). reflexivity. Qed.

Lemma stateless_bind {A B} (m : M A) (k : A -> M B) :
  stateless m -> (forall a, stateless (k a)) -> stateless (bind m k).
Proof.
  intros [o Ho] Hk. destruct o as [a|e|b].
  - destruct (Hk a) as [o' Ho']. exists o'. intros st.
    unfold bind. now rewrite Ho, Ho'.
  - exists (Exc e). intros st. unfold bind. now rewrite Ho.
  - exists (Base b). intros st. unfold bind. now rewrite Ho.
Qed.

Lemma hands_over_false (operation : pyval) :
  hands_over operation = false ->
  is_str operation "groupby" = false
  /\ is_str operation "query" = false
  /\ is_str operation "custom" = false.
Proof.
  unfold hands_over. intros H.
  apply orb_false_elim in H as [H H3]. apply orb_false_elim in H as [H1 H2]. auto.
Qed.

(** The operations that pass nothing of the caller's on read the frame
    they are given and nothing else. *)
Lemma operation_result_stateless
  (w : World) (operation : pyval) (params : pydict) (df : DataFrame) :
  hands_over operation = false ->
  stateless (operation_result w operation params df).
Proof.
  intros H. apply hands_over_false in H as (H1 & H2 & H3).
  unfold operation_result. rewrite H1, H2, H3.
  repeat match goal with
         | |- stateless (if ?b then _ else _) => destruct b
         | |- stateless (ret _) => apply stateless_ret
         | |- stateless (lift _) => apply stateless_lift
         | |- stateless (bind _ _) => apply stateless_bind; [|intros ?]
         | |- stateless (fun st => (?o, st)) => exists o; reflexivity
         end.
Qed.




(** ** What reaches the caller *)


Section Tame.

Variable w : World.

Lemma tame_effect {A} (f : state -> result A * state) : tame (effect f).
Proof.
  intros st n st' H. unfold effect, lift in H.
  destruct (f st) as [[a|e] s1]; discriminate.
Qed.

Lemma tame_to_csv (path : string) (df : DataFrame) : tame (to_csv w path df).
Proof.
  intros st n st' H. unfold to_csv in H.
  destruct (fs st !! path) as [[]|]; try discriminate;
    destruct (write_fault w path); try discriminate;
    destruct (csv_break w df) as [[e written]|]; discriminate.
Qed.

Lemma tame_new_figure : tame (new_figure w).
Proof.
  intros st n st' H. unfold new_figure in H.
  destruct (figure_error w); discriminate.
Qed.

Lemma tame_draw (df : DataFrame) (c : plot_cmd) : tame (draw w df c).
Proof.
  intros st n st' H. unfold draw in H.
  destruct (draw_error w df c); discriminate.
Qed.

Lemma tame_mkdir (name : string) (head : option string) : tame (mkdir w name head).
Proof.
  intros st n st' H. unfold mkdir in H.
  destruct (match head with Some h => fs st !! h | None => Some Directory end)
    as [[]|]; try discriminate;
    destruct (fs st !! name) as [[]|]; try discriminate;
    destruct (write_fault w name); discriminate.
Qed.

Lemma tame_makedirs_from (name : string) (heads : list string) :
  tame (makedirs_from w name heads).
Proof.
  revert name. induction heads as [|head outer IH]; intros name; simpl.
  - apply tame_mkdir.
  - intros st n st' H.
    destruct (bool_decide (is_Some (fs st !! head))).
    + revert H. apply tame_bind; [apply tame_ret|intros ?; apply tame_mkdir].
    + revert H. apply tame_bind; [apply IH|intros ?; apply tame_mkdir].
Qed.

Lemma tame_makedirs (d : string) : tame (makedirs w d).
Proof.
  unfold makedirs. destruct (makedirs_chain d); [apply tame_ret|].
  apply tame_makedirs_from.
Qed.

Lemma tame_savefig (path : string) : tame (savefig w path).
Proof.
  intros st n st' H. unfold savefig in H.
  destruct (savefig_error w path (current_figure st)); [discriminate|].
  destruct (fs st !! image_path w path) as [[]|]; try discriminate;
    destruct (write_fault w (image_path w path)); try discriminate;
    destruct (savefig_break w path (current_figure st) _) as [[e [remains|]]|];
    discriminate.
Qed.

Lemma tame_close_figure : tame close_figure.
Proof. intros st n st' H. discriminate. Qed.

Lemma tame_read_source (r : reader) (path : string) : tame (read_source w r path).
Proof. unfold read_source. apply tame_reads. Qed.

Ltac tame_step :=
  match goal with
  | |- tame (ret _) => apply tame_ret
  | |- tame (lift _) => apply tame_lift
  | |- tame (raise _) => apply tame_raise
  | |- tame (effect _) => apply tame_effect
  | |- tame (to_csv _ _ _) => apply tame_to_csv
  | |- tame (new_figure _) => apply tame_new_figure
  | |- tame (draw _ _ _) => apply tame_draw
  | |- tame (makedirs _ _) => apply tame_makedirs
  | |- tame (savefig _ _) => apply tame_savefig
  | |- tame close_figure => apply tame_close_figure
  | |- tame (read_source _ _ _) => apply tame_read_source
  | |- tame (fun st => lift _ st) => apply tame_reads
  | |- tame (bind _ _) => apply tame_bind; [|intros ?]
  | |- tame (if ?b then _ else _) => destruct b
  | |- tame (match ?x with _ => _ end) => destruct x
  end.


Lemma tame_plot_branch (plot_type : pyval) (params : pydict) (df : DataFrame) :
  tame (plot_branch w plot_type params df).
Proof. unfold plot_branch. repeat tame_step. Qed.




End Tame.

Lemma as_dict_ok (v : pyval) (d : pydict) : as_dict v = Ok d -> v = PDict d.
Proof. destruct v; simpl; intros H; inversion H; reflexivity. Qed.





(** ** Numeric columns *)

Lemma keep_filter {A} (f : A -> bool) (l : list A) :
  keep (map f l) l = filter (fun x => f x = true) l.
Proof.
  induction l as [|x l IH]; simpl; auto.
  destruct (f x) eqn:E.
  - rewrite filter_cons_True by assumption. now rewrite IH.
  - rewrite filter_cons_False by congruence. assumption.
Qed.

Lemma keep_keep {A B} (f : A -> bool) (l : list A) (r : list B) :
  keep (map f (keep (map f l) l)) (keep (map f l) r) = keep (map f l) r.
Proof.
  revert r. induction l as [|x l IH]; intros r; simpl.
  - now destruct r.
  - destruct r as [|y r].
    + destruct (f x); simpl; auto.
      now destruct (map f (keep (map f l) l)).
    + destruct (f x) eqn:E; simpl; rewrite ?E, IH; reflexivity.
Qed.

Lemma select_dtypes_cols (p : dtype -> bool) (df : DataFrame) :
  cols (select_dtypes p df) = filter (fun c => p (snd c) = true) (cols df).
Proof. unfold select_dtypes. simpl. apply (keep_filter (fun c => p (snd c))). Qed.

Lemma select_dtypes_twice (p : dtype -> bool) (df : DataFrame) :
  select_dtypes p (select_dtypes p df) = select_dtypes p df.
Proof.
  unfold select_dtypes. simpl. f_equal.
  - apply (keep_keep (fun c => p (snd c)) (cols df) (cols df)).
  - rewrite map_map. apply map_ext. intros r.
    apply (keep_keep (fun c => p (snd c)) (cols df) r).
Qed.

Lemma numeric_columns (df : DataFrame) :
  columns (select_dtypes is_number df) = numeric_names df.
Proof. unfold columns, numeric_names. now rewrite select_dtypes_cols. Qed.

Lemma imap_keeps_names {A B} (g : nat -> string * A -> B) (l : list (string * A)) :
  map fst (imap (fun j c => (fst c, g j c)) l) = map fst l.
Proof.
  revert g. induction l as [|c l IH]; intros g; simpl; auto.
  f_equal. apply (IH (fun j => g (S j))).
Qed.

Lemma traverse_length {A B} (f : A -> result B) (l : list A) (r : list B) :
  traverse f l = Ok r -> length r = length l.
Proof.
  revert r. induction l as [|x l IH]; simpl; intros r H.
  - inversion H. reflexivity.
  - destruct (f x); [|discriminate].
    destruct (traverse f l) eqn:E; [|discriminate].
    inversion H. simpl. f_equal. now apply IH.
Qed.

Lemma combine_names {A B} (names : list A) (l : list B) :
  length l = length names -> map fst (combine names l) = names.
Proof.
  revert l. induction names as [|n names IH]; intros [|x l] H; simpl in *;
    try discriminate; auto.
  f_equal. apply IH. congruence.
Qed.

Section Numeric.

Variable w : World.

(** The correlation matrix has one row and one column per column of the
    frame it is computed on. *)
Lemma corr_dict_keys (df : DataFrame) (k : string) :
  In k (keys (corr_dict w df)) <-> In k (columns df).
Proof.
  unfold corr_dict, keys. rewrite dict_of_pairs_keys, map_map. simpl.
  rewrite (map_ext _ fst) by reflexivity.
  unfold columns. now rewrite imap_keeps_names.
Qed.

Lemma corr_dict_rows (df : DataFrame) (k : string) (row : pyval) :
  dict_get k (match corr_dict w df with PDict m => m | _ => [] end) = Some row ->
  forall k', In k' (keys row) <-> In k' (columns df).
Proof.
  unfold corr_dict.
  set (series := imap (fun j c => (fst c, column_at df j)) (cols df)).
  set (line := fun a : string * list cell =>
                 (fst a, PDict (dict_of_pairs
                                  (map (fun b => (fst b, pearson w (snd a) (snd b))) series)))).
  assert (G : forall (l : list (string * list cell)) (acc : pydict),
             (forall x v, dict_get x acc = Some v ->
                          forall k', In k' (keys v) <-> In k' (columns df)) ->
             forall x v,
               dict_get x (fold_left (fun m kv => dict_set (fst kv) (snd kv) m)
                                     (map line l) acc) = Some v ->
               forall k', In k' (keys v) <-> In k' (columns df)).
  { induction l as [|a l IH]; intros acc Hacc x v; simpl; [apply Hacc|].
    apply IH. intros y u Hy.
    destruct (String.eqb (fst a) y) eqn:E.
    - apply String.eqb_eq in E. subst y. rewrite dict_get_set_same in Hy.
      inversion Hy. subst u. intros k'. simpl.
      rewrite dict_of_pairs_keys, map_map. simpl.
      rewrite (map_ext _ fst) by reflexivity.
      unfold series, columns. now rewrite imap_keeps_names.
    - rewrite dict_get_set_other in Hy.
      + now apply (Hacc y).
      + intros Heq. simpl in Heq. rewrite Heq, String.eqb_refl in E. discriminate. }
  intros H. apply (G series [] (fun x v Hx => ltac:(discriminate)) k row H).
Qed.

Lemma described_numeric (df : DataFrame) :
  numeric_names df <> [] -> described df = select_dtypes is_number df.
Proof.
  intros H. unfold described.
  destruct (cols (select_dtypes is_number df)) eqn:E; auto.
  exfalso. apply H. rewrite <- numeric_columns. unfold columns. now rewrite E.
Qed.

(** With a numeric column in the frame, [describe] is computed on the
    numeric columns alone. *)
Lemma describe_numeric (p : pyval) (df : DataFrame) :
  numeric_names df <> [] ->
  describe w p df = describe w p (select_dtypes is_number df).
Proof.
  intros H. unfold describe.
  destruct (refine_percentiles w p) as [q|e]; auto.
  assert (N : numeric_names (select_dtypes is_number df) <> []).
  { rewrite <- numeric_columns, select_dtypes_twice, numeric_columns. exact H. }
  rewrite (described_numeric df H), (described_numeric _ N), select_dtypes_twice.
  destruct (cols df) eqn:E1.
  { exfalso. apply H. unfold numeric_names. now rewrite E1. }
  destruct (cols (select_dtypes is_number df)) eqn:E2; auto.
  exfalso. apply H. rewrite <- numeric_columns. unfold columns. now rewrite E2.
Qed.

Lemma describe_keys (p : pyval) (df : DataFrame) (r : pyval) (k : string) :
  describe w p df = Ok r -> In k (keys r) <-> In k (columns (described df)).
Proof.
  unfold describe.
  destruct (refine_percentiles w p) as [q|e]; [|discriminate].
  destruct (cols df); [discriminate|].
  destruct (traverse _ _) as [blocks|e] eqn:E; [|discriminate].
  intros H. inversion H. subst r. simpl.
  rewrite dict_of_pairs_keys.
  apply traverse_length in E. rewrite length_imap in E.
  rewrite combine_names; [reflexivity|].
  unfold columns. now rewrite length_map.
Qed.

End Numeric.

(** C2, amended.  On every staged dataset the correlation operation works
    on the columns of numeric dtype only: its matrix has exactly these as
    rows and as columns, the other columns raise no error and do not appear,
    and when there is no numeric column the diagnostic is returned instead
    of a matrix; for [A = 1, 2, 3] and the text column [B] the matrix is the
    one coefficient of [A] with [A].  The describe operation works on the
    numeric columns only when the dataset has at least one: its result is
    the one computed on the numeric columns alone and has exactly these as
    keys. *)
Theorem numeric_columns_only
  (w : World) (q : string) (d params : pydict) (df : DataFrame) (st : state) :
  parsed w q d params -> loaded w st params df ->
  let numeric := select_dtypes is_number df in
  let p := dict_get_default "percentiles" default_percentiles params in
  columns numeric = numeric_names df
  /\ (dict_get "operation" d = Some (PStr "correlation") ->
      (numeric_names df = [] ->
       DataFrameAnalysisTool.run w q st
       = (Returns "No numeric columns found for correlation analysis", st))
      /\ (empty numeric = false ->
          DataFrameAnalysisTool.run w q st
          = try_except "Error during DataFrame analysis: "
              (lift (json_dumps w (corr_dict w numeric))) st
          /\ (forall k, In k (keys (corr_dict w numeric)) <-> In k (numeric_names df))
          /\ (forall k row,
                 dict_get k (match corr_dict w numeric with PDict m => m | _ => [] end)
                 = Some row ->
                 forall k', In k' (keys row) <-> In k' (numeric_names df)))
      /\ (df = ab_frame ->
          DataFrameAnalysisTool.run w q st
          = try_except "Error during DataFrame analysis: "
              (lift (json_dumps w
                       (PDict [("A", PDict [("A", pearson w [CInt 1; CInt 2; CInt 3]
                                                             [CInt 1; CInt 2; CInt 3])])])))
              st))
  /\ (dict_get "operation" d = Some (PStr "describe") ->
      numeric_names df <> [] ->
      describe w p df = describe w p numeric
      /\ DataFrameAnalysisTool.run w q st
         = try_except "Error during DataFrame analysis: "
             (result <- lift (describe w p numeric) ;; lift (json_dumps w result)) st
      /\ (forall r, describe w p df = Ok r ->
                    forall k, In k (keys r) <-> In k (numeric_names df))).
Proof.
  intros Hp Hl numeric p.
  split; [apply numeric_columns|]. split.
  - intros Ho.
    assert (R : DataFrameAnalysisTool.run w q st
                = try_except "Error during DataFrame analysis: "
                    (if empty numeric
                     then ret "No numeric columns found for correlation analysis"
                     else lift (json_dumps w (corr_dict w numeric))) st).
    { rewrite (analysis_staged w q d params df st Hp Hl).
      unfold dict_get_default. rewrite Ho. reflexivity. }
    split; [|split].
    + intros Hn. rewrite R.
      assert (E : empty numeric = true).
      { unfold empty, ncols.
        replace (cols numeric) with (@nil (string * dtype)); [reflexivity|].
        pose proof (numeric_columns df) as C. fold numeric in C.
        rewrite Hn in C. unfold columns in C.
        destruct (cols numeric); [reflexivity|discriminate]. }
      rewrite E. reflexivity.
    + intros He. rewrite R, He. split; [reflexivity|]. split.
      * intros k. rewrite corr_dict_keys. unfold numeric.
        now rewrite numeric_columns.
      * intros k row Hrow k'. rewrite (corr_dict_rows w numeric k row Hrow).
        unfold numeric. now rewrite numeric_columns.
    + intros ->. rewrite R. reflexivity.
  - intros Ho Hn.
    pose proof (describe_numeric w p df Hn) as D. fold numeric in D.
    split; [exact D|]. split.
    + rewrite (analysis_staged w q d params df st Hp Hl).
      unfold dict_get_default at 1. rewrite Ho.
      unfold operation_result. simpl is_str. cbv iota.
      fold p. rewrite D. reflexivity.
    + intros r Hr k. rewrite (describe_keys w p df r k Hr).
      rewrite (described_numeric df Hn). now rewrite numeric_columns.
Qed.

Lemma numeric_columns_only_witness :
  DataFrameAnalysisTool.run Sample.world (Sample.js "{'operation': 'correlation'}") Sample.ab
  = (Returns (Sample.dumps 0 (PDict [("A", PDict [("A", PFloat "1.0")])])), Sample.ab).
Proof.
  assert (P : parsed Sample.world (Sample.js "{'operation': 'correlation'}")
                [("operation", PStr "correlation")] []).
  { split; vm_compute; reflexivity. }
  assert (L : loaded Sample.world Sample.ab [] ab_frame).
  { split; vm_compute; reflexivity. }
  rewrite (proj2 (proj2 (proj1 (proj2 (numeric_columns_only Sample.world _ _ _ _ _ P L))
                           eq_refl)) eq_refl).
  reflexivity.
Defined.

(** C2 as stated fails for describe on a dataset without any numeric
    column: the text column [B] is not left out, it is the one column the
    result reports on. *)
Lemma numeric_columns_only_counterexample :
  let st := Sample.staged ["B"] [["x"]; ["y"]; ["z"]] in
  let df := {| cols := [("B", ObjectT)]; rows := [[CStr "x"]; [CStr "y"]; [CStr "z"]] |} in
  exists r,
    loaded Sample.world st [] df
    /\ numeric_names df = []
    /\ describe Sample.world default_percentiles df = Ok r
    /\ keys r = ["B"]
    /\ DataFrameAnalysisTool.run Sample.world (Sample.js "{'operation': 'describe'}") st
       = (Returns (Sample.dumps 0 r), st).
Proof.
  exists (PDict [("B", PDict [("count", PInt 3)])]).
  repeat split; vm_compute; reflexivity.
Qed.

(** ** The rows a query shows *)

Lemma head_rows_length (k : Z) (rs : list (list cell)) :
  (0 <= k -> Z.of_nat (length (head_rows k rs)) = Z.min (Z.of_nat (length rs)) k)
  /\ (k < 0 -> Z.of_nat (length (head_rows k rs)) = Z.max 0 (Z.of_nat (length rs) + k)).
Proof.
  unfold head_rows. split; intros H.
  - destruct (Z.leb_spec 0 k); [|lia]. rewrite length_take. lia.
  - destruct (Z.leb_spec 0 k); [lia|]. rewrite length_take. lia.
Qed.

(** C3, amended.  For every staged dataset and every query whose filter
    selects [n] rows, with the integer [k] as limit (10 when no limit is
    given), the result has [n] as the row count of its shape; for [0 <= k]
    its data are the records of the first [min n k] filtered rows, in their
    order; for a negative [k] they are the filtered rows without the last
    [|k|], [max 0 (n + k)] of them.  The state is the one the evaluation of
    the filter left. *)
Theorem query_limit
  (w : World) (q : string) (d params : pydict) (df filtered : DataFrame)
  (f : pyval) (k : Z) (st st1 : state) :
  parsed w q d params -> loaded w st params df ->
  dict_get "operation" d = Some (PStr "query") ->
  dict_get "filter" params = Some f ->
  df_query w df f st = (Val filtered, st1) ->
  dict_get_default "limit" (PInt 10) params = PInt k ->
  let n := Z.of_nat (nrows filtered) in
  let data := map (record_of (columns filtered)) (head_rows k (rows filtered)) in
  DataFrameAnalysisTool.run w q st
  = try_except "Error during DataFrame analysis: "
      (lift (json_dumps w
               (PDict [("shape", PList [PInt n; PInt (Z.of_nat (ncols filtered))]);
                       ("data", PList data)]))) st1
  /\ (0 <= k ->
      data = map (record_of (columns filtered)) (take (Z.to_nat (Z.min n k)) (rows filtered))
      /\ Z.of_nat (length data) = Z.min n k)
  /\ (k < 0 -> Z.of_nat (length data) = Z.max 0 (n + k))
  /\ (dict_get "limit" params = None -> k = 10).
Proof.
  intros Hp Hl Ho Hf Hq Hk n data. repeat split.
  - rewrite (analysis_staged w q d params df st Hp Hl).
    unfold dict_get_default at 1. rewrite Ho.
    unfold operation_result, dict_has. simpl is_str. cbv iota.
    rewrite Hf. simpl negb. cbv iota.
    unfold dict_get_default at 1. rewrite Hf, Hk.
    unfold try_except, bind, lift. rewrite Hq. reflexivity.
  - unfold data, head_rows. destruct (Z.leb_spec 0 k); [|lia].
    f_equal. unfold n, nrows.
    destruct (Z.le_ge_cases (Z.of_nat (length (rows filtered))) k).
    + rewrite Z.min_l, Nat2Z.id by assumption.
      rewrite !firstn_all2; auto; lia.
    + now rewrite Z.min_r by assumption.
  - unfold data. rewrite length_map.
    now apply (proj1 (head_rows_length k (rows filtered))).
  - intros H. unfold data. rewrite length_map.
    now apply (proj2 (head_rows_length k (rows filtered))).
  - intros H. unfold dict_get_default in Hk. rewrite H in Hk. congruence.
Qed.

Lemma query_limit_witness :
  DataFrameAnalysisTool.run Sample.world
    (Sample.js "{'operation': 'query', 'parameters': {'filter': 'A > 0', 'limit': 2}}")
    Sample.ab
  = (Returns (Sample.dumps 0
                (PDict [("shape", PList [PInt 3; PInt 2]);
                        ("data", PList [PDict [("A", PInt 1); ("B", PStr "x")];
                                        PDict [("A", PInt 2); ("B", PStr "y")]])])),
     Sample.ab).
Proof.
  assert (P : parsed Sample.world
                (Sample.js "{'operation': 'query', 'parameters': {'filter': 'A > 0', 'limit': 2}}")
                [("operation", PStr "query");
                 ("parameters", PDict [("filter", PStr "A > 0"); ("limit", PInt 2)])]
                [("filter", PStr "A > 0"); ("limit", PInt 2)]).
  { split; vm_compute; reflexivity. }
  assert (L : loaded Sample.world Sample.ab
                [("filter", PStr "A > 0"); ("limit", PInt 2)] ab_frame).
  { split; vm_compute; reflexivity. }
  assert (Q : df_query Sample.world ab_frame (PStr "A > 0") Sample.ab
              = (Val ab_frame, Sample.ab)).
  { vm_compute. reflexivity. }
  rewrite (proj1 (query_limit Sample.world _ _ _ _ _ _ 2 _ _ P L eq_refl eq_refl Q eq_refl)).
  reflexivity.
Defined.

(** C3 as stated fails for a negative limit: the filter keeps the three
    rows, the limit is -1, and the data hold two records, which is not
    [min 3 (-1)]. *)
Lemma query_limit_counterexample :
  exists data,
    DataFrameAnalysisTool.run Sample.world
      (Sample.js "{'operation': 'query', 'parameters': {'filter': 'A > 0', 'limit': -1}}")
      Sample.ab
    = (Returns (Sample.dumps 0 (PDict [("shape", PList [PInt 3; PInt 2]);
                                       ("data", PList data)])),
       Sample.ab)
    /\ length data = 2%nat
    /\ Z.of_nat (length data) <> Z.min 3 (-1).
Proof.
  exists [PDict [("A", PInt 1); ("B", PStr "x")]; PDict [("A", PInt 2); ("B", PStr "y")]].
  split; [vm_compute; reflexivity | split; [reflexivity | discriminate]].
Qed.

(** ** A plot request without a required parameter *)

Lemma plot_branch_missing
  (w : World) (kind name : string) (params : pydict) (df : DataFrame) :
  In name (required kind) -> dict_has name params = false ->
  exists msg, plot_branch w (PStr kind) params df = ret (Some msg)
              /\ contains (quoted name) msg = true.
Proof.
  unfold required, plot_branch. simpl is_str.
  destruct (String.eqb kind "histogram") eqn:E1.
  { intros [<-|[]] ->. eexists. split; reflexivity. }
  destruct (String.eqb kind "scatter") eqn:E2.
  { intros [<-|[<-|[]]] ->; change (negb false) with true;
      rewrite ?orb_true_r, ?orb_true_l; eexists; split; reflexivity. }
  destruct (String.eqb kind "bar") eqn:E3.
  { intros [<-|[<-|[]]] ->; change (negb false) with true;
      rewrite ?orb_true_r, ?orb_true_l; eexists; split; reflexivity. }
  destruct (String.eqb kind "line") eqn:E4.
  { intros [<-|[<-|[]]] ->; change (negb false) with true;
      rewrite ?orb_true_r, ?orb_true_l; eexists; split; reflexivity. }
  destruct (String.eqb kind "boxplot") eqn:E5; [|intros []].
  apply String.eqb_eq in E5. subst kind.
  intros [<-|[]] ->. eexists. split; reflexivity.
Qed.

(** C5, amended.  For every plot request that lacks a parameter its plot
    kind requires, no file is created or overwritten and nothing is drawn:
    at most a blank figure has been opened.  When the staged file exists and
    is read and the figure is opened, the renderer returns an error string
    that names the missing parameter. *)
Theorem missing_parameter_fails_fast
  (w : World) (q : string) (d params : pydict) (kind name : string) (st : state) :
  parsed w q d params ->
  dict_get "plot_type" d = Some (PStr kind) ->
  In name (required kind) -> dict_has name params = false ->
  let after := snd (DataVisualizationTool.run w q st) in
  fs after = fs st
  /\ (figures after = figures st \/ figures after = [] :: figures st)
  /\ (exists s, fst (DataVisualizationTool.run w q st) = Returns s)
  /\ (forall df, loaded w st params df -> figure_error w = None ->
        exists s, DataVisualizationTool.run w q st
                  = (Returns s, with_figures ([] :: figures st) st)
                  /\ contains (quoted name) s = true).
Proof.
  intros Hp Hk Hin Hmiss after. subst after.
  rewrite (visualization_parsed w q d params st Hp).
  replace (dict_get_default "plot_type" PNone d) with (PStr kind)
    by (unfold dict_get_default; now rewrite Hk).
  assert (B : forall df, exists msg,
               plot_branch w (PStr kind) params df = ret (Some msg)
               /\ contains (quoted name) msg = true).
  { intros df. now apply plot_branch_missing. }
  cut (let r := try_except "Error creating visualization: "
                  (visualization_on w (PStr kind)
                     (dict_get_default "save_path" (PStr "visualization.png") d) params) st in
       (fs (snd r) = fs st
        /\ (figures (snd r) = figures st \/ figures (snd r) = [] :: figures st)
        /\ exists s, fst r = Returns s)
       /\ (forall df, loaded w st params df -> figure_error w = None ->
             exists s, r = (Returns s, with_figures ([] :: figures st) st)
                       /\ contains (quoted name) s = true)).
  { intros [(H1 & H2 & H3) H4]. exact (conj H1 (conj H2 (conj H3 H4))). }
  unfold try_except, visualization_on, bind, lift, new_figure.
  split.
  - destruct (path_exists w (fs st) (temp_path_of params)) as [[|]|e]; simpl; eauto.
    destruct (read_csv_arg w (fs st) (temp_path_of params)) as [df|e]; simpl; eauto.
    destruct (figure_error w); simpl; eauto.
    destruct (B df) as (msg & -> & _). simpl. eauto.
  - intros df [He Hr] Hf. rewrite He. simpl. rewrite Hr, Hf.
    destruct (B df) as (msg & -> & Hc). simpl. eauto.
Qed.

Lemma missing_parameter_fails_fast_witness :
  exists s,
    DataVisualizationTool.run Sample.world
      (Sample.js "{'plot_type': 'scatter', 'parameters': {'x': 'A'}}") Sample.ab
    = (Returns s, with_figures ([] :: figures Sample.ab) Sample.ab)
    /\ contains (quoted "y") s = true.
Proof.
  apply (proj2 (proj2 (proj2
           (missing_parameter_fails_fast Sample.world
              (Sample.js "{'plot_type': 'scatter', 'parameters': {'x': 'A'}}")
              [("plot_type", PStr "scatter"); ("parameters", PDict [("x", PStr "A")])]
              [("x", PStr "A")] "scatter" "y" Sample.ab
              (conj eq_refl eq_refl) eq_refl (or_intror (or_introl eq_refl)) eq_refl)))
           ab_frame).
  - split; vm_compute; reflexivity.
  - reflexivity.
Defined.

(** C5 as stated fails when nothing is staged: the scatter request without
    [y] is answered with the diagnostic of the missing staged file, which
    names no parameter. *)
Lemma missing_parameter_fails_fast_counterexample :
  DataVisualizationTool.run Sample.world
    (Sample.js "{'plot_type': 'scatter', 'parameters': {'x': 'a'}}") Sample.blank
  = (Returns "Error: Temporary DataFrame file not found at temp_dataframe.csv",
     Sample.blank)
  /\ contains (quoted "y")
       "Error: Temporary DataFrame file not found at temp_dataframe.csv" = false.
Proof. split; vm_compute; reflexivity. Qed.

(** ** Staging and reading back *)















(** ** The labels of a bar chart *)

Section Drawing.

Variable w : World.

Lemma new_figure_val (u : unit) (st st1 : state) :
  new_figure w st = (Val u, st1) -> st1 = with_figures ([] :: figures st) st.
Proof.
  unfold new_figure. destruct (figure_error w); intros H; inversion H. reflexivity.
Qed.

Lemma draw_val (df : DataFrame) (c : plot_cmd) (u : unit) (st st1 : state) :
  draw w df c st = (Val u, st1) ->
  fs st1 = fs st
  /\ figures st1 = match figures st with
                   | [] => [[c]]
                   | f :: others => (f ++ [c])%list :: others
                   end.
Proof.
  unfold draw. destruct (draw_error w df c); intros H; inversion H. auto.
Qed.

Lemma kept_or_created_refl (st : state) (p : string) : kept_or_created st st p.
Proof. now left. Qed.

Lemma kept_or_created_fs (st st1 st2 : state) (p : string) :
  fs st2 = fs st1 -> kept_or_created st st1 p -> kept_or_created st st2 p.
Proof. unfold kept_or_created. intros ->. auto. Qed.

Lemma kept_or_created_trans (st st1 st2 : state) (p : string) :
  kept_or_created st st1 p -> kept_or_created st1 st2 p -> kept_or_created st st2 p.
Proof.
  unfold kept_or_created. intros [H1|[H1 H1']] [H2|[H2 H2']].
  - left. congruence.
  - right. split; congruence.
  - right. split; congruence.
  - congruence.
Qed.

Lemma mkdir_cases (name : string) (head : option string) (o : outcome unit)
  (st st' : state) :
  mkdir w name head st = (o, st') ->
  figures st' = figures st
  /\ (st' = st
      \/ (fs st !! name = None /\ fs st' = <[name := Directory]> (fs st))).
Proof.
  unfold mkdir.
  destruct (match head with Some h => fs st !! h | None => Some Directory end)
    as [[]|]; intros H; try (inversion H; auto; fail);
    destruct (fs st !! name) as [[]|] eqn:E; try (inversion H; auto; fail);
    destruct (write_fault w name); inversion H; subst; simpl; auto.
Qed.

Lemma mkdir_keeps (name : string) (head : option string) (o : outcome unit)
  (st st' : state) (p : string) :
  mkdir w name head st = (o, st') -> kept_or_created st st' p.
Proof.
  intros H. apply mkdir_cases in H as [_ [->|[Hn Hf]]]; [now left|].
  unfold kept_or_created. rewrite Hf.
  destruct (decide (name = p)) as [->|Hne].
  - right. split; [assumption|]. apply lookup_insert_eq.
  - left. now apply lookup_insert_ne.
Qed.

(** Making directories draws nothing and leaves every path with what it
    held, or makes a directory where there was nothing. *)
Lemma makedirs_from_cases (name : string) (heads : list string) (o : outcome unit)
  (st st' : state) :
  makedirs_from w name heads st = (o, st') ->
  figures st' = figures st /\ forall p, kept_or_created st st' p.
Proof.
  revert name o st st'. induction heads as [|head outer IH]; intros name o st st'; simpl.
  - intros H. split; [apply (mkdir_cases _ _ _ _ _ H)|].
    intros p. exact (mkdir_keeps _ _ _ _ _ p H).
  - unfold bind.
    destruct (bool_decide (is_Some (fs st !! head))).
    + unfold ret. intros H. split; [apply (mkdir_cases _ _ _ _ _ H)|].
      intros p. exact (mkdir_keeps _ _ _ _ _ p H).
    + destruct (makedirs_from w head outer st) as [[[]|e|b] s1] eqn:E;
        destruct (IH _ _ _ _ E) as [G K].
      * intros H. split.
        -- rewrite <- G. apply (mkdir_cases _ _ _ _ _ H).
        -- intros p. apply (kept_or_created_trans st s1); [apply K|].
           exact (mkdir_keeps _ _ _ _ _ p H).
      * intros H. inversion H. subst. auto.
      * intros H. inversion H. subst. auto.
Qed.

Lemma makedirs_cases (dir : string) (o : outcome unit) (st st' : state) :
  makedirs w dir st = (o, st') ->
  figures st' = figures st /\ forall p, kept_or_created st st' p.
Proof.
  unfold makedirs. destruct (makedirs_chain dir) as [|name heads].
  - intros H. inversion H. subst. split; [reflexivity|]. intros p. now left.
  - apply makedirs_from_cases.
Qed.

Lemma makedirs_val (dir : string) (u : unit) (st st1 : state) :
  makedirs w dir st = (Val u, st1) -> figures st1 = figures st.
Proof. intros H. now apply makedirs_cases in H. Qed.

Lemma makedirs_keeps (dir : string) (o : outcome unit) (st st' : state) (p : string) :
  makedirs w dir st = (o, st') -> kept_or_created st st' p.
Proof. intros H. now apply makedirs_cases in H. Qed.

Lemma savefig_val (path : string) (u : unit) (st st1 : state) :
  savefig w path st = (Val u, st1) ->
  fs st1 !! image_path w path = Some (Image (current_figure st))
  /\ figures st1 = figures st
  /\ forall p, p <> image_path w path -> fs st1 !! p = fs st !! p.
Proof.
  unfold savefig. intros H.
  destruct (savefig_error w path (current_figure st)); [discriminate|].
  destruct (fs st !! image_path w path) as [[]|]; try discriminate;
    destruct (write_fault w (image_path w path)); try discriminate;
    destruct (savefig_break w path (current_figure st) _) as [[e [remains|]]|];
    try discriminate;
    inversion H; simpl;
    (split; [apply lookup_insert_eq|]); (split; [reflexivity|]);
    intros p Hp; now apply lookup_insert_ne.
Qed.

Lemma nunique_gt5_ok (df : DataFrame) (x : string) (many : bool) :
  nunique_gt5 w df (PStr x) = Ok many ->
  exists j, positions_of x df = [j]
            /\ many = Nat.ltb 5 (nunique (column_at df j)).
Proof.
  unfold nunique_gt5, getitem.
  destruct (positions_of x df) as [|j [|j' js]]; simpl; intros H; inversion H.
  eauto.
Qed.

(** What was drawn when the figure of a bar chart is saved. *)
Lemma save_figure_val (df : DataFrame) (save_path : pyval) (s : string) (st st' : state) :
  save_figure w df save_path st = (Val s, st') ->
  exists path, save_path = PStr path
               /\ s = "Visualization saved to " +:+ path
               /\ fs st' !! image_path w path
                  = Some (Image (match figures st with
                                 | [] => [Tight_layout]
                                 | f :: _ => (f ++ [Tight_layout])%list
                                 end)).
Proof.
  unfold save_figure. destruct save_path; try discriminate.
  intros H. exists s0.
  apply bind_val_inv in H as (u1 & s1 & H1 & H).
  apply bind_val_inv in H as (u2 & s2 & H2 & H).
  apply bind_val_inv in H as (u3 & s3 & H3 & H).
  apply bind_val_inv in H as (u4 & s4 & H4 & H).
  inversion H. subst s st'. clear H.
  inversion H4. subst s4. clear H4.
  apply makedirs_val in H1. apply draw_val in H2 as [_ H2].
  apply savefig_val in H3 as [H3 _].
  repeat split; auto. simpl. rewrite H3. unfold current_figure.
  rewrite H2, H1. now destruct (figures st).
Qed.

End Drawing.

Lemma extend_extend (a b : list plot_cmd) (figs : list (list plot_cmd)) :
  extend b (extend a figs) = extend (a ++ b) figs.
Proof. destruct figs; simpl; auto. now rewrite <- app_assoc. Qed.

Lemma draw_extends (w : World) (df : DataFrame) (c : plot_cmd) (u : unit) (st st1 : state) :
  draw w df c st = (Val u, st1) -> figures st1 = extend [c] (figures st).
Proof. intros H. now apply draw_val in H as [_ H]. Qed.

(** The bar branch either stops on a missing parameter or draws the bars,
    the title and the axis labels, and then turns the tick labels when the
    column of [x] has more than five distinct values. *)
Lemma bar_branch_val
  (w : World) (params : pydict) (df : DataFrame) (x : string)
  (early : option string) (st st1 : state) :
  dict_get "x" params = Some (PStr x) ->
  plot_branch w (PStr "bar") params df st = (Val early, st1) ->
  early = Some "Error: 'x' and 'y' parameters required for bar chart"
  \/ (early = None
      /\ exists j, positions_of x df = [j]
         /\ figures st1
            = extend ([Barplot (PStr x) (dict_get_default "y" PNone params);
                       Title ("Bar Chart: " +:+ py_str w (dict_get_default "y" PNone params)
                              +:+ " by " +:+ x);
                       Xlabel (PStr x);
                       Ylabel (dict_get_default "y" PNone params)]
                      ++ (if Nat.ltb 5 (nunique (column_at df j))
                          then [Xticks_rotated] else []))
                     (figures st)).
Proof.
  intros Hx.
  cbv beta iota zeta delta [plot_branch is_str String.eqb Ascii.eqb Bool.eqb].
  unfold dict_has at 1. rewrite Hx. simpl negb. rewrite orb_false_l.
  destruct (negb (dict_has "y" params)).
  { intros H. inversion H. now left. }
  assert (X : dict_get_default "x" PNone params = PStr x)
    by (unfold dict_get_default; now rewrite Hx).
  rewrite !X. change (py_str w (PStr x)) with x.
  intros H. right.
  apply bind_val_inv in H as (u1 & s1 & H1 & H). apply draw_extends in H1.
  apply bind_val_inv in H as (u2 & s2 & H2 & H). apply draw_extends in H2.
  apply bind_val_inv in H as (u3 & s3 & H3 & H). apply draw_extends in H3.
  apply bind_val_inv in H as (u4 & s4 & H4 & H). apply draw_extends in H4.
  apply bind_val_inv in H as (many & s5 & H5 & H).
  apply lift_val_inv in H5 as [H5 ->].
  apply nunique_gt5_ok in H5 as (j & Hj & ->).
  apply bind_val_inv in H as (u6 & s6 & H6 & H).
  inversion H. subst early st1. clear H.
  split; [reflexivity|]. exists j. split; [assumption|].
  assert (F4 : figures s4
               = extend [Barplot (PStr x) (dict_get_default "y" PNone params);
                         Title ("Bar Chart: " +:+ py_str w (dict_get_default "y" PNone params)
                                +:+ " by " +:+ x);
                         Xlabel (PStr x);
                         Ylabel (dict_get_default "y" PNone params)] (figures st)).
  { rewrite H4, H3, H2, H1, !extend_extend. reflexivity. }
  destruct (Nat.ltb 5 (nunique (column_at df j))).
  - apply draw_extends in H6. rewrite H6, F4, extend_extend. reflexivity.
  - inversion H6. subst s6. rewrite F4. now rewrite app_nil_r.
Qed.

(** C8.  For the bar plot, the labels of the x axis are turned exactly when
    the column given as [x] has more than five distinct values: whenever the
    renderer reports a bar chart as saved, the picture that was written (at
    the save path, or at the save path with the default format appended
    when its name has no extension) holds the rotation of the tick labels
    if and only if the number of distinct values present in that column is
    greater than 5. *)
Theorem bar_labels_rotation
  (w : World) (q : string) (d params : pydict) (df : DataFrame)
  (x path : string) (st st' : state) :
  parsed w q d params -> loaded w st params df ->
  dict_get "plot_type" d = Some (PStr "bar") ->
  dict_get "x" params = Some (PStr x) ->
  DataVisualizationTool.run w q st = (Returns ("Visualization saved to " +:+ path), st') ->
  exists j fig,
    positions_of x df = [j]
    /\ fs st' !! image_path w path = Some (Image fig)
    /\ (In Xticks_rotated fig <-> (5 < nunique (column_at df j))%nat).
Proof.
  intros Hp Hl Hk Hx Hrun.
  unfold DataVisualizationTool.run, try_except in Hrun.
  rewrite (visualization_staged w q d params df st Hp Hl) in Hrun.
  replace (dict_get_default "plot_type" PNone d) with (PStr "bar") in Hrun
    by (unfold dict_get_default; now rewrite Hk).
  match type of Hrun with
  | (let (_, _) := ?body in _) = _ => destruct body as [[s|e|b] st2] eqn:E
  end; [| simpl in Hrun; discriminate | discriminate].
  inversion Hrun. subst s st2. clear Hrun.
  apply bind_val_inv in E as (u & s1 & Hf & E).
  apply new_figure_val in Hf. subst s1.
  apply bind_val_inv in E as (early & s2 & Hb & E).
  apply (bar_branch_val w params df x early _ s2 Hx) in Hb
    as [->|(-> & j & Hj & Hfig)].
  { inversion E. }
  apply save_figure_val in E as (path' & _ & Hs & Hfs).
  cbv in Hs. injection Hs as Hs. rewrite <- Hs in Hfs. clear Hs path'.
  rewrite Hfig in Hfs. simpl in Hfs.
  exists j. eexists. split; [exact Hj|]. split; [exact Hfs|].
  destruct (Nat.ltb_spec 5 (nunique (column_at df j))) as [Hlt|Hge]; simpl.
  - split; [intros _; exact Hlt | intros _; tauto].
  - split; [|lia].
    intros [H|[H|[H|[H|[H|[]]]]]]; discriminate.
Qed.

Lemma bar_labels_rotation_witness :
  let q := Sample.js "{'plot_type': 'bar', 'parameters': {'x': 'C', 'y': 'V'}}" in
  let six := Sample.staged ["C"; "V"]
               [["a"; "1"]; ["b"; "2"]; ["c"; "3"]; ["d"; "4"]; ["e"; "5"]; ["f"; "6"]] in
  let five := Sample.staged ["C"; "V"]
                [["a"; "1"]; ["b"; "2"]; ["c"; "3"]; ["d"; "4"]; ["e"; "5"]; ["a"; "6"]] in
  (exists fig, fs (snd (DataVisualizationTool.run Sample.world q six)) !! "visualization.png"
               = Some (Image fig)
               /\ In Xticks_rotated fig)
  /\ (exists fig, fs (snd (DataVisualizationTool.run Sample.world q five)) !! "visualization.png"
                  = Some (Image fig)
                  /\ ~ In Xticks_rotated fig).
Proof.
  intros q six five.
  pose (d := [("plot_type", PStr "bar");
              ("parameters", PDict [("x", PStr "C"); ("y", PStr "V")])]).
  pose (params := [("x", PStr "C"); ("y", PStr "V")]).
  pose (frame := fun last : string =>
          {| cols := [("C", ObjectT); ("V", Int64)];
             rows := [[CStr "a"; CInt 1]; [CStr "b"; CInt 2]; [CStr "c"; CInt 3];
                      [CStr "d"; CInt 4]; [CStr "e"; CInt 5]; [CStr last; CInt 6]] |}).
  assert (P : parsed Sample.world q d params) by (split; vm_compute; reflexivity).
  split.
  - destruct (bar_labels_rotation Sample.world q d params (frame "f") "C"
                "visualization.png" six (snd (DataVisualizationTool.run Sample.world q six)) P)
      as (j & fig & Hj & Hfs & Hrot); try (split; vm_compute; reflexivity);
      try (vm_compute; reflexivity).
    exists fig. split; [exact Hfs|]. apply Hrot.
    vm_compute in Hj. inversion Hj. subst j. vm_compute. lia.
  - destruct (bar_labels_rotation Sample.world q d params (frame "a") "C"
                "visualization.png" five (snd (DataVisualizationTool.run Sample.world q five)) P)
      as (j & fig & Hj & Hfs & Hrot); try (split; vm_compute; reflexivity);
      try (vm_compute; reflexivity).
    exists fig. split; [exact Hfs|]. intros Hin. apply Hrot in Hin.
    vm_compute in Hj. inversion Hj. subst j. vm_compute in Hin. lia.
Defined.

(** * Further properties of the tools *)

(** ** The loader and the staged file *)

Section Loader.

Variable w : World.

Lemma read_source_cases (r : reader) (path : string) (st : state) :
  (exists df, read_source w r path st = (Val df, st))
  \/ (exists e, read_source w r path st = (Exc e, st)).
Proof.
  unfold read_source, lift.
  destruct r;
    repeat match goal with |- context [match ?x with Ok _ => _ | Err _ => _ end] =>
      destruct x end; eauto.
Qed.

(** Writing the staged file: it is written in full, or it cannot be opened
    and nothing changes, or the write breaks off and the file is left with
    what had been written. *)
Lemma to_csv_cases (path : string) (df : DataFrame) (st : state) :
  to_csv w path df st
  = (Val tt, with_fs (<[path := Blob (staged_text w df)]> (fs st)) st)
  \/ (exists e, to_csv w path df st = (Exc e, st))
  \/ (exists e written,
         csv_break w df = Some (e, written)
         /\ to_csv w path df st
            = (Exc e, with_fs (<[path := Blob written]> (fs st)) st)).
Proof.
  unfold to_csv.
  destruct (fs st !! path) as [[]|]; destruct (write_fault w path);
    destruct (csv_break w df) as [[e written]|]; eauto 6.
Qed.

(** The ways through the loader. *)
Lemma loader_cases (path : string) (st : state) :
  (reader_of (file_ext w path) = None
   /\ DataFrameLoadTool.run w path st
      = (Returns ("Unsupported file format: " +:+ file_ext w path), st))
  \/ exists r,
      reader_of (file_ext w path) = Some r
      /\ ((exists e, read_source w r path st = (Exc e, st)
                     /\ DataFrameLoadTool.run w path st
                        = (Returns ("Error loading dataset: " +:+ e), st))
          \/ exists df,
              read_source w r path st = (Val df, st)
              /\ ((exists e, to_csv w temp_dataframe (named w df) st = (Exc e, st)
                             /\ DataFrameLoadTool.run w path st
                                = (Returns ("Error loading dataset: " +:+ e), st))
                  \/ (exists e written,
                         csv_break w (named w df) = Some (e, written)
                         /\ DataFrameLoadTool.run w path st
                            = (Returns ("Error loading dataset: " +:+ e),
                               with_fs (<[temp_dataframe := Blob written]> (fs st)) st))
                  \/ (to_csv w temp_dataframe (named w df) st
                      = (Val tt, staged_with w (named w df) st)
                      /\ DataFrameLoadTool.run w path st
                         = (Returns (match json_dumps w (info_dict path df) with
                                     | Ok s => s
                                     | Err e => "Error loading dataset: " +:+ e
                                     end),
                            staged_with w (named w df) st)))).
Proof.
  destruct (reader_of (file_ext w path)) as [r|] eqn:Hr.
  - right. exists r. split; [reflexivity|].
    rewrite (load_supported w path r st Hr). unfold try_except, bind.
    destruct (read_source_cases r path st) as [[df Hs]|[e Hs]]; rewrite Hs.
    + right. exists df. split; [reflexivity|].
      destruct (to_csv_cases temp_dataframe (named w df) st)
        as [Hc|[[e Hc]|(e & written & Hb & Hc)]]; rewrite Hc.
      * right. right. split; [reflexivity|]. unfold lift.
        destruct (json_dumps w (info_dict path df)); reflexivity.
      * left. exists e. split; reflexivity.
      * right. left. exists e, written. split; [exact Hb|reflexivity].
    + left. exists e. split; reflexivity.
  - left. split; [reflexivity|]. now apply load_unsupported.
Qed.

End Loader.

(** X1.  The loader touches the staged file and nothing else: after any
    call every other path holds what it held and no figure is opened.  The
    staged file is as it was, or it holds the text written for the dataset
    that was just read, whatever was staged before, or the loader answers
    with an error and the staged file holds what had been written when the
    write broke off: a load that fails may still have emptied the dataset
    that was staged before it. *)
Theorem loader_replaces_staging_only (w : World) (path : string) (st : state) :
  let out := DataFrameLoadTool.run w path st in
  (snd out = st
   \/ exists r df,
       reader_of (file_ext w path) = Some r
       /\ read_source w r path st = (Val df, st)
       /\ (fs (snd out) = <[temp_dataframe := Blob (staged_text w (named w df))]> (fs st)
           \/ exists e written,
               csv_break w (named w df) = Some (e, written)
               /\ fst out = Returns ("Error loading dataset: " +:+ e)
               /\ fs (snd out) = <[temp_dataframe := Blob written]> (fs st)))
  /\ delete temp_dataframe (fs (snd out)) = delete temp_dataframe (fs st)
  /\ figures (snd out) = figures st.
Proof.
  cbv zeta.
  destruct (loader_cases w path st)
    as [[_ ->]|(r & Hr & [(e & _ & ->)
                         |(df & Hs & [(e & _ & ->)
                                     |[(e & written & Hb & ->)|(_ & ->)]])])];
    simpl; (split; [|split]); auto.
  - right. exists r, df. split; [exact Hr|]. split; [exact Hs|].
    right. exists e, written. auto.
  - apply delete_insert_eq.
  - right. exists r, df. auto.
  - apply delete_insert_eq.
Qed.

(** X2.  The dataset is staged before the summary is serialised: when
    [json.dumps] refuses the summary, the loader answers with an error
    string although the new dataset has replaced the staged one. *)
Theorem loader_error_after_staging
  (w : World) (path : string) (r : reader) (df : Source) (e : string) (st : state) :
  reader_of (file_ext w path) = Some r ->
  read_source w r path st = (Val df, st) ->
  to_csv w temp_dataframe (named w df) st = (Val tt, staged_with w (named w df) st) ->
  json_dumps w (info_dict path df) = Err e ->
  DataFrameLoadTool.run w path st
  = (Returns ("Error loading dataset: " +:+ e), staged_with w (named w df) st)
  /\ fs (staged_with w (named w df) st) !! temp_dataframe
     = Some (Blob (staged_text w (named w df))).
Proof.
  intros Hr Hs Hc He. split.
  - rewrite (load_supported w path r st Hr). unfold try_except, bind.
    rewrite Hs, Hc. unfold lift. now rewrite He.
  - simpl. apply lookup_insert_eq.
Qed.

Lemma loader_error_after_staging_witness :
  let st := {| fs := {[ "data.json" :=
                          Blob (Sample.js "[{'A': 1, 'B': 'x'}, {'A': 2, 'B': 'y'}]") ]};
               figures := [] |} in
  let df := {| cols := [("A", Int64); ("B", ObjectT)];
               rows := [[CInt 1; CStr "x"]; [CInt 2; CStr "y"]] |} in
  DataFrameLoadTool.run refusing "data.json" st
  = (Returns ("Error loading dataset: "
              +:+ "Object of type Timestamp is not JSON serializable"),
     staged_with refusing df st)
  /\ fs (staged_with refusing df st) !! temp_dataframe
     = Some (Blob (staged_text refusing df)).
Proof.
  intros st df.
  apply (loader_error_after_staging refusing "data.json" ReadJson (source_of df)
           "Object of type Timestamp is not JSON serializable" st);
    vm_compute; reflexivity.
Defined.

(** X3.  Loading and then analysing: once the loader has staged a dataset,
    a request that names no other path is not answered with the diagnostic
    of the missing staged file; the operation is run on what [read_csv]
    makes of the text the loader wrote, and a failure of that read is the
    only diagnostic that can come before the operation. *)
Theorem load_then_analyze
  (w : World) (path : string) (r : reader) (df : Source) (st : state)
  (q : string) (d params : pydict) :
  reader_of (file_ext w path) = Some r ->
  read_source w r path st = (Val df, st) ->
  to_csv w temp_dataframe (named w df) st = (Val tt, staged_with w (named w df) st) ->
  parsed w q d params ->
  temp_path_of params = PStr temp_dataframe ->
  let st1 := snd (DataFrameLoadTool.run w path st) in
  st1 = staged_with w (named w df) st
  /\ DataFrameAnalysisTool.run w q st1
     = match frame_of_text w (staged_text w (named w df)) with
       | Ok df' =>
           try_except "Error during DataFrame analysis: "
             (operation_result w (dict_get_default "operation" PNone d) params df') st1
       | Err e => (Returns ("Error during DataFrame analysis: " +:+ e), st1)
       end.
Proof.
  intros Hr Hs Hc Hp Ht st1.
  assert (E : st1 = staged_with w (named w df) st).
  { unfold st1. rewrite (load_supported w path r st Hr). unfold try_except, bind.
    rewrite Hs, Hc. unfold lift. destruct (json_dumps w (info_dict path df)); reflexivity. }
  split; [exact E|]. rewrite E.
  assert (F : fs (staged_with w (named w df) st) !! temp_dataframe
              = Some (Blob (staged_text w (named w df)))).
  { simpl. apply lookup_insert_eq. }
  assert (X : path_exists w (fs (staged_with w (named w df) st)) (temp_path_of params)
              = Ok true).
  { rewrite Ht. cbn [path_exists]. now rewrite F. }
  assert (R : read_csv_arg w (fs (staged_with w (named w df) st)) (temp_path_of params)
              = frame_of_text w (staged_text w (named w df))).
  { rewrite Ht. cbn [read_csv_arg]. unfold pd_read_csv. now rewrite F. }
  destruct (frame_of_text w (staged_text w (named w df))) as [df'|e] eqn:Hf.
  - apply analysis_staged; [exact Hp|]. split; assumption.
  - now apply (analysis_unreadable w q d params e).
Qed.

Lemma load_then_analyze_witness :
  let st := {| fs := {[ "data.json" :=
                          Blob (Sample.js "[{'A': 1, 'B': 'x'}, {'A': 2, 'B': 'y'}]") ]};
               figures := [] |} in
  let df := {| cols := [("A", Int64); ("B", ObjectT)];
               rows := [[CInt 1; CStr "x"]; [CInt 2; CStr "y"]] |} in
  snd (DataFrameLoadTool.run Sample.world "data.json" st) = staged_with Sample.world df st
  /\ DataFrameAnalysisTool.run Sample.world (Sample.js "{'operation': 'summary'}")
       (snd (DataFrameLoadTool.run Sample.world "data.json" st))
     = try_except "Error during DataFrame analysis: "
         (operation_result Sample.world (PStr "summary") [] df)
         (staged_with Sample.world df st).
Proof.
  intros st df.
  destruct (load_then_analyze Sample.world "data.json" ReadJson (source_of df) st
              (Sample.js "{'operation': 'summary'}")
              [("operation", PStr "summary")] [])
    as [E H]; try (vm_compute; reflexivity).
  - split; vm_compute; reflexivity.
  - split; [exact E|]. cbv zeta in H. rewrite H, E. reflexivity.
Defined.

(** ** The dispatcher *)

Lemma try_except_state (prefix : string) (body : M string) (st : state) :
  snd (try_except prefix body st) = snd (body st).
Proof. unfold try_except. now destruct (body st) as [[?|?|?] ?]. Qed.

(** Before the operation nothing is touched. *)
Lemma dispatcher_cases (w : World) (q : string) (st : state) :
  (exists s, DataFrameAnalysisTool.run w q st = (Returns s, st))
  \/ exists d params df, parsed w q d params /\ loaded w st params df.
Proof.
  unfold DataFrameAnalysisTool.run, try_except, DataFrameAnalysisTool.body,
    DataFrameAnalysisTool.request, bind, lift.
  destruct (json_loads w q) as [v|e] eqn:Hq; [|left; eexists; reflexivity].
  destruct (as_dict v) as [d|e] eqn:Hd; [|left; eexists; reflexivity].
  apply as_dict_ok in Hd. subst v.
  destruct (as_dict (dict_get_default "parameters" (PDict []) d)) as [params|e] eqn:Hp;
    [|left; eexists; reflexivity].
  fold (temp_path_of params).
  destruct (path_exists w (fs st) (temp_path_of params)) as [[|]|e] eqn:He;
    [| left; eexists; reflexivity | left; eexists; reflexivity].
  change (negb true) with false. cbv beta iota.
  destruct (read_csv_arg w (fs st) (temp_path_of params)) as [df|e] eqn:Hr;
    [|left; eexists; reflexivity].
  right. exists d, params, df. repeat split; assumption.
Qed.

Lemma effect_then_lift {A} (f : state -> result A * state) (k : A -> result string)
  (st : state) :
  snd (bind (effect f) (fun a => lift (k a)) st) = snd (f st).
Proof.
  unfold bind, effect, lift. destruct (f st) as [[a|e] s1]; reflexivity.
Qed.

Lemma is_str_eq (v : pyval) (s : string) : is_str v s = true -> v = PStr s.
Proof.
  destruct v; simpl; try discriminate. intros H. apply String.eqb_eq in H. now subst.
Qed.

(** X4.  The dispatcher has no effect of its own on the files and the
    figures.  After a call they are what they were, and the same request
    asked again gets the same answer; or the request is a groupby, a query
    or a custom one that has its parameter and found the staged dataset,
    and they are what the aggregation named by the caller, the filter or
    the code left when pandas or the interpreter ran it: nothing is staged
    or drawn after it, whether it returned or raised. *)
Theorem dispatcher_leaves_state (w : World) (q : string) (st : state) :
  let after := snd (DataFrameAnalysisTool.run w q st) in
  (after = st
   /\ DataFrameAnalysisTool.run w q after = DataFrameAnalysisTool.run w q st)
  \/ exists d params df,
      parsed w q d params /\ loaded w st params df
      /\ ((dict_get "operation" d = Some (PStr "groupby")
           /\ exists columns,
               dict_get "columns" params = Some columns
               /\ after
                  = snd (groupby_agg w df (groupby_columns columns)
                           (dict_get_default "aggregation" (PStr "mean") params) st))
          \/ (dict_get "operation" d = Some (PStr "query")
              /\ exists f, dict_get "filter" params = Some f
                           /\ after = snd (df_query w df f st))
          \/ (dict_get "operation" d = Some (PStr "custom")
              /\ exists code, dict_get "code" params = Some code
                              /\ after = snd (py_eval w code params df st))).
Proof.
  cbv zeta.
  assert (Same : forall s, DataFrameAnalysisTool.run w q st = (s, st) ->
            snd (DataFrameAnalysisTool.run w q st) = st
            /\ DataFrameAnalysisTool.run w q (snd (DataFrameAnalysisTool.run w q st))
               = DataFrameAnalysisTool.run w q st).
  { intros s H. rewrite H. simpl. now rewrite H. }
  destruct (dispatcher_cases w q st) as [[s H]|(d & params & df & Hp & Hl)].
  { left. exact (Same _ H). }
  pose proof (analysis_staged w q d params df st Hp Hl) as R.
  assert (K : forall kind, dict_get_default "operation" PNone d = PStr kind ->
                           dict_get "operation" d = Some (PStr kind)).
  { intros kind. unfold dict_get_default.
    destruct (dict_get "operation" d); [now intros ->|discriminate]. }
  destruct (hands_over (dict_get_default "operation" PNone d)) eqn:Hh.
  2: { left. destruct (operation_result_stateless w _ params df Hh) as [o Ho].
       apply (Same (match o with
                    | Val s => Returns s
                    | Exc msg => Returns ("Error during DataFrame analysis: " +:+ msg)
                    | Base b => Propagates b
                    end)).
       rewrite R. unfold try_except. rewrite Ho. now destruct o. }
  unfold hands_over in Hh.
  destruct (is_str (dict_get_default "operation" PNone d) "groupby") eqn:H1;
    [|destruct (is_str (dict_get_default "operation" PNone d) "query") eqn:H2;
      [|destruct (is_str (dict_get_default "operation" PNone d) "custom") eqn:H3;
        [|discriminate]]].
  - apply is_str_eq in H1.
    destruct (dict_get "columns" params) as [columns|] eqn:Hc.
    + right. exists d, params, df. split; [exact Hp|]. split; [exact Hl|].
      left. split; [now apply K|]. exists columns. split; [first [exact Hc|reflexivity]|].
      rewrite R, try_except_state, H1.
      cbv beta iota zeta delta [operation_result is_str String.eqb Ascii.eqb Bool.eqb].
      unfold dict_has. rewrite Hc. cbv beta iota delta [negb].
      assert (X : dict_get_default "columns" PNone params = columns)
        by (unfold dict_get_default; now rewrite Hc).
      rewrite !X, effect_then_lift. unfold groupby_columns. now destruct columns.
    + left. apply (Same (Returns "Error: 'columns' parameter required for groupby operation")).
      rewrite R, H1.
      cbv beta iota zeta delta [operation_result is_str String.eqb Ascii.eqb Bool.eqb].
      unfold dict_has. rewrite Hc. reflexivity.
  - apply is_str_eq in H2.
    destruct (dict_get "filter" params) as [f|] eqn:Hc.
    + right. exists d, params, df. split; [exact Hp|]. split; [exact Hl|].
      right. left. split; [now apply K|]. exists f. split; [first [exact Hc|reflexivity]|].
      rewrite R, try_except_state, H2.
      cbv beta iota zeta delta [operation_result is_str String.eqb Ascii.eqb Bool.eqb].
      unfold dict_has. rewrite Hc. cbv beta iota delta [negb].
      assert (X : dict_get_default "filter" PNone params = f)
        by (unfold dict_get_default; now rewrite Hc).
      rewrite !X. unfold bind, lift.
      destruct (df_query w df f st) as [[filtered|e|b] s1]; try reflexivity.
      destruct (head_arg w _ filtered); reflexivity.
    + left. apply (Same (Returns "Error: 'filter' parameter required for query operation")).
      rewrite R, H2.
      cbv beta iota zeta delta [operation_result is_str String.eqb Ascii.eqb Bool.eqb].
      unfold dict_has. rewrite Hc. reflexivity.
  - apply is_str_eq in H3.
    destruct (dict_get "code" params) as [code|] eqn:Hc.
    + right. exists d, params, df. split; [exact Hp|]. split; [exact Hl|].
      right. right. split; [now apply K|]. exists code. split; [first [exact Hc|reflexivity]|].
      rewrite R, try_except_state, H3.
      cbv beta iota zeta delta [operation_result is_str String.eqb Ascii.eqb Bool.eqb].
      unfold dict_has. rewrite Hc. cbv beta iota delta [negb].
      assert (X : dict_get_default "code" PNone params = code)
        by (unfold dict_get_default; now rewrite Hc).
      rewrite !X. unfold bind, lift.
      destruct (py_eval w code params df st) as [[v|e|b] s1]; reflexivity.
    + left. apply (Same (Returns "Error: 'code' parameter required for custom operation")).
      rewrite R, H3.
      cbv beta iota zeta delta [operation_result is_str String.eqb Ascii.eqb Bool.eqb].
      unfold dict_has. rewrite Hc. reflexivity.
Qed.

(** X5.  The three operations that need a parameter answer its absence with
    a diagnostic that names the parameter and the operation, before calling
    pandas or evaluating anything: the answer is the same for every dataset
    and every behaviour of the libraries. *)
Theorem dispatcher_missing_parameter
  (w : World) (q : string) (d params : pydict) (df : DataFrame)
  (operation name : string) (st : state) :
  parsed w q d params -> loaded w st params df ->
  dict_get "operation" d = Some (PStr operation) ->
  needs operation = Some name ->
  dict_has name params = false ->
  DataFrameAnalysisTool.run w q st
  = (Returns ("Error: " +:+ quoted name +:+ " parameter required for "
              +:+ operation +:+ " operation"), st).
Proof.
  intros Hp Hl Ho Hn Hm.
  rewrite (analysis_staged w q d params df st Hp Hl).
  unfold dict_get_default. rewrite Ho.
  unfold needs in Hn. unfold operation_result. cbn [is_str].
  destruct (String.eqb operation "groupby") eqn:E1.
  { apply String.eqb_eq in E1. subst operation. inversion Hn. subst name.
    cbv beta iota zeta delta [String.eqb Ascii.eqb Bool.eqb].
    rewrite Hm. reflexivity. }
  destruct (String.eqb operation "query") eqn:E2.
  { apply String.eqb_eq in E2. subst operation. inversion Hn. subst name.
    cbv beta iota zeta delta [String.eqb Ascii.eqb Bool.eqb].
    rewrite Hm. reflexivity. }
  destruct (String.eqb operation "custom") eqn:E3; [|discriminate].
  apply String.eqb_eq in E3. subst operation. inversion Hn. subst name.
  cbv beta iota zeta delta [String.eqb Ascii.eqb Bool.eqb].
  rewrite Hm. reflexivity.
Qed.

Lemma dispatcher_missing_parameter_witness :
  DataFrameAnalysisTool.run Sample.world (Sample.js "{'operation': 'custom'}") Sample.ab
  = (Returns "Error: 'code' parameter required for custom operation", Sample.ab).
Proof.
  apply (dispatcher_missing_parameter Sample.world (Sample.js "{'operation': 'custom'}")
           [("operation", PStr "custom")] [] ab_frame "custom" "code" Sample.ab);
    try reflexivity; split; vm_compute; reflexivity.
Defined.

Lemma eqb_not_in (name : string) (l : list string) (x : string) :
  ~ In name l -> In x l -> String.eqb name x = false.
Proof.
  intros Hn Hx. destruct (String.eqb name x) eqn:E; auto.
  apply String.eqb_eq in E. subst. contradiction.
Qed.

(** X6.  A kind that is none of the supported ones, compared as written
    (so [Describe] is not [describe]), is answered with the diagnostic that
    quotes it.  The dispatcher leaves the state as it was; the renderer has
    written no file but leaves open the blank figure it had set up. *)
Theorem unsupported_kind_is_named
  (w : World) (q : string) (d params : pydict) (df : DataFrame)
  (name : string) (st : state) :
  parsed w q d params -> loaded w st params df ->
  (dict_get "operation" d = Some (PStr name) -> ~ In name operations ->
   DataFrameAnalysisTool.run w q st
   = (Returns ("Error: Unsupported operation " +:+ quoted name), st))
  /\ (dict_get "plot_type" d = Some (PStr name) -> ~ In name plot_types ->
      figure_error w = None ->
      DataVisualizationTool.run w q st
      = (Returns ("Error: Unsupported plot type " +:+ quoted name),
         with_figures ([] :: figures st) st)).
Proof.
  intros Hp Hl. split.
  - intros Ho Hn. rewrite (analysis_staged w q d params df st Hp Hl).
    unfold dict_get_default. rewrite Ho.
    unfold operation_result. cbn [is_str].
    rewrite !(eqb_not_in name operations) by (auto; simpl; tauto).
    reflexivity.
  - intros Ho Hn Hf. unfold DataVisualizationTool.run, try_except.
    rewrite (visualization_staged w q d params df st Hp Hl).
    unfold dict_get_default at 1. rewrite Ho.
    unfold bind, new_figure. rewrite Hf.
    unfold plot_branch. cbn [is_str].
    rewrite !(eqb_not_in name plot_types) by (auto; simpl; tauto).
    reflexivity.
Qed.

Lemma unsupported_kind_is_named_witness :
  DataFrameAnalysisTool.run Sample.world (Sample.js "{'operation': 'median'}") Sample.ab
  = (Returns "Error: Unsupported operation 'median'", Sample.ab)
  /\ DataVisualizationTool.run Sample.world (Sample.js "{'plot_type': 'pie'}") Sample.ab
     = (Returns "Error: Unsupported plot type 'pie'",
        with_figures ([] :: figures Sample.ab) Sample.ab).
Proof.
  assert (L : loaded Sample.world Sample.ab [] ab_frame)
    by (split; vm_compute; reflexivity).
  split.
  - apply (proj1 (unsupported_kind_is_named Sample.world
                    (Sample.js "{'operation': 'median'}")
                    [("operation", PStr "median")] [] ab_frame "median" Sample.ab
                    (conj eq_refl eq_refl) L)); [reflexivity|].
    simpl. intuition discriminate.
  - apply (proj2 (unsupported_kind_is_named Sample.world
                    (Sample.js "{'plot_type': 'pie'}")
                    [("plot_type", PStr "pie")] [] ab_frame "pie" Sample.ab
                    (conj eq_refl eq_refl) L)); [reflexivity| |reflexivity].
    simpl. intuition discriminate.
Defined.

(** X7.  A request that is valid JSON but not an object, or whose
    [parameters] are given and are not an object (an explicit [null]
    included: the default [{}] stands in for an absent key only), is
    answered by both tools with the diagnostic of the missing [get]
    attribute, naming the type met.  This comes before the staged file is
    looked at, and the state is left as it was. *)
Theorem request_shape_errors (w : World) (q : string) (v : pyval) (st : state) :
  json_loads w q = Ok v ->
  let complaint t := quoted (type_name t) +:+ " object has no attribute 'get'" in
  ((forall d, v <> PDict d) ->
   DataFrameAnalysisTool.run w q st
   = (Returns ("Error during DataFrame analysis: " +:+ complaint v), st)
   /\ DataVisualizationTool.run w q st
      = (Returns ("Error creating visualization: " +:+ complaint v), st))
  /\ (forall d p, v = PDict d -> dict_get "parameters" d = Some p ->
                  (forall d', p <> PDict d') ->
      DataFrameAnalysisTool.run w q st
      = (Returns ("Error during DataFrame analysis: " +:+ complaint p), st)
      /\ DataVisualizationTool.run w q st
         = (Returns ("Error creating visualization: " +:+ complaint p), st)).
Proof.
  intros Hq complaint.
  assert (N : forall t, (forall d, t <> PDict d) -> as_dict t = Err (complaint t)).
  { intros t Ht. destruct t; try reflexivity. now destruct (Ht d). }
  split.
  - intros Hv.
    unfold DataFrameAnalysisTool.run, DataVisualizationTool.run, try_except,
      DataFrameAnalysisTool.body, DataVisualizationTool.body,
      DataFrameAnalysisTool.request, DataVisualizationTool.request, bind, lift.
    rewrite Hq, (N v Hv). auto.
  - intros d p -> Hd Hp.
    unfold DataFrameAnalysisTool.run, DataVisualizationTool.run, try_except,
      DataFrameAnalysisTool.body, DataVisualizationTool.body,
      DataFrameAnalysisTool.request, DataVisualizationTool.request, bind, lift.
    rewrite Hq. simpl as_dict. unfold dict_get_default. rewrite Hd, (N p Hp). auto.
Qed.

Lemma request_shape_errors_witness :
  DataFrameAnalysisTool.run Sample.world "[1]" Sample.ab
  = (Returns "Error during DataFrame analysis: 'list' object has no attribute 'get'",
     Sample.ab)
  /\ DataVisualizationTool.run Sample.world
       (Sample.js "{'plot_type': 'bar', 'parameters': null}") Sample.ab
     = (Returns "Error creating visualization: 'NoneType' object has no attribute 'get'",
        Sample.ab).
Proof.
  split.
  - apply (proj1 (request_shape_errors Sample.world "[1]" (PList [PInt 1]) Sample.ab
                    eq_refl)).
    intros d. discriminate.
  - apply (proj2 (request_shape_errors Sample.world
                    (Sample.js "{'plot_type': 'bar', 'parameters': null}")
                    (PDict [("plot_type", PStr "bar"); ("parameters", PNone)])
                    Sample.ab eq_refl)
             [("plot_type", PStr "bar"); ("parameters", PNone)] PNone
             eq_refl eq_refl).
    intros d. discriminate.
Defined.

(** ** The renderer: files and figures *)

Lemma draws_ret {A} (a : A) : draws_only (ret a).
Proof.
  intros st o st1 f rest H Hf. inversion H. subst. split; auto.
  exists []. now rewrite app_nil_r.
Qed.

Lemma draws_lift {A} (r : result A) : draws_only (lift r).
Proof.
  intros st o st1 f rest H Hf. unfold lift in H. inversion H. subst. split; auto.
  exists []. now rewrite app_nil_r.
Qed.

Lemma draws_draw (w : World) (df : DataFrame) (c : plot_cmd) : draws_only (draw w df c).
Proof.
  intros st o st1 f rest H Hf. unfold draw in H.
  destruct (draw_error w df c); inversion H; subst; simpl; split; auto.
  - exists []. now rewrite app_nil_r.
  - rewrite Hf. eauto.
Qed.

Lemma draws_bind {A B} (m : M A) (k : A -> M B) :
  draws_only m -> (forall a, draws_only (k a)) -> draws_only (bind m k).
Proof.
  intros Hm Hk st o st2 f rest H Hf. unfold bind in H.
  destruct (m st) as [[a|e|b] st1] eqn:E.
  - destruct (Hm st _ st1 f rest E Hf) as (F1 & c1 & G1).
    destruct (Hk a st1 o st2 _ rest H G1) as (F2 & c2 & G2).
    split; [congruence|]. exists (c1 ++ c2)%list. now rewrite app_assoc.
  - inversion H. subst. exact (Hm st _ st2 f rest E Hf).
  - inversion H. subst. exact (Hm st _ st2 f rest E Hf).
Qed.

Lemma draws_plot_branch (w : World) (plot_type : pyval) (params : pydict) (df : DataFrame) :
  draws_only (plot_branch w plot_type params df).
Proof.
  unfold plot_branch.
  repeat match goal with
         | |- draws_only (ret _) => apply draws_ret
         | |- draws_only (lift _) => apply draws_lift
         | |- draws_only (draw _ _ _) => apply draws_draw
         | |- draws_only (bind _ _) => apply draws_bind; [|intros ?]
         | |- draws_only (if ?b then _ else _) => destruct b
         end.
Qed.

(** A branch that stops early does so with a diagnostic, never with the
    text of a saved picture. *)
Lemma plot_branch_early
  (w : World) (plot_type : pyval) (params : pydict) (df : DataFrame)
  (msg : string) (st st1 : state) :
  plot_branch w plot_type params df st = (Val (Some msg), st1) ->
  String.prefix "Visualization saved to " msg = false.
Proof.
  unfold plot_branch. intros H.
  repeat match type of H with
         | (if ?b then _ else _) _ = _ => destruct b
         end;
    try (inversion H; reflexivity);
    repeat (apply bind_val_inv in H as (? & ? & _ & H));
    inversion H.
Qed.

Section Saving.

Variable w : World.

(** Saving the figure writes at one path, the picture when it succeeds. *)
Lemma savefig_cases (path : string) (o : outcome unit) (st st' : state) :
  savefig w path st = (o, st') ->
  figures st' = figures st
  /\ (forall p, p <> image_path w path -> fs st' !! p = fs st !! p)
  /\ ((o = Val tt /\ fs st' !! image_path w path = Some (Image (current_figure st)))
      \/ exists e, o = Exc e).
Proof.
  unfold savefig. intros H.
  destruct (savefig_error w path (current_figure st));
    [inversion H; subst; eauto|].
  destruct (fs st !! image_path w path) as [[]|];
    try (inversion H; subst; eauto; fail);
    (destruct (write_fault w (image_path w path)); [inversion H; subst; eauto|]);
    destruct (savefig_break w path (current_figure st) _) as [[e [remains|]]|];
    inversion H; subst; simpl;
    (split; [reflexivity|]);
    (split; [intros p Hp; first [now apply lookup_insert_ne | now apply lookup_delete_ne]|]);
    first [ right; eexists; reflexivity
          | left; split; [reflexivity|apply lookup_insert_eq] ].
Qed.

(** Saving: either the picture is written and the figure is closed, or the
    call fails with the figure still open; at most directories are new, the
    file of the picture apart. *)
Lemma save_figure_cases
  (df : DataFrame) (save_path : pyval) (o : outcome string) (st st' : state)
  (f : list plot_cmd) (rest : list (list plot_cmd)) :
  save_figure w df save_path st = (o, st') ->
  figures st = f :: rest ->
  (exists path,
      save_path = PStr path /\ o = Val (saved_to path)
      /\ figures st' = rest
      /\ fs st' !! image_path w path = Some (Image (f ++ [Tight_layout]))
      /\ forall p, p <> image_path w path -> kept_or_created st st' p)
  \/ ((exists e, o = Exc e)
      /\ (exists f', figures st' = f' :: rest)
      /\ forall p, (forall path, save_path = PStr path -> p <> image_path w path) ->
                   kept_or_created st st' p).
Proof.
  unfold save_figure. intros H Hf.
  destruct save_path as [| | | |path| | |];
    try (inversion H; subst; right; repeat split; eauto using kept_or_created_refl; fail).
  set (dir := if String.eqb (dirname path) "" then "." else dirname path) in H.
  unfold bind in H.
  destruct (makedirs w dir st) as [[[]|e|b] s1] eqn:E1.
  2: { inversion H. subst. destruct (makedirs_cases w _ _ _ _ E1) as [G K].
       right. repeat split; eauto. rewrite G, Hf. eauto. }
  2: { now apply tame_makedirs in E1. }
  destruct (makedirs_cases w _ _ _ _ E1) as [G1 K1].
  destruct (draw w df Tight_layout s1) as [[[]|e|b] s2] eqn:E2.
  2: { inversion H. subst. right.
       destruct (draws_draw w df Tight_layout s1 _ st' f rest E2) as (F & c & G);
         [congruence|].
       repeat split; eauto. intros p _. now apply (kept_or_created_fs st s1). }
  2: { now apply tame_draw in E2. }
  destruct (draw_val w df Tight_layout _ s1 s2 E2) as [F2 G2].
  rewrite G1, Hf in G2.
  destruct (savefig w path s2) as [o3 s3] eqn:E3.
  destruct (savefig_cases path o3 s2 s3 E3) as (G3 & K3 & C3).
  assert (K : forall p, p <> image_path w path -> kept_or_created st s3 p).
  { intros p Hp. apply (kept_or_created_trans st s1); [apply K1|].
    left. rewrite (K3 p Hp). now rewrite F2. }
  destruct C3 as [[-> I]|[e ->]].
  - inversion H. subst. left. exists path.
    split; [reflexivity|]. split; [reflexivity|].
    split; [simpl; rewrite G3, G2; reflexivity|].
    split; [simpl; rewrite I; unfold current_figure; now rewrite G2|].
    intros p Hp. apply (kept_or_created_fs st s3); [reflexivity|now apply K].
  - inversion H. subst. right. split; [eauto|]. split.
    + rewrite G3, G2. eauto.
    + intros p Hp. apply K. now apply Hp.
Qed.

End Saving.

Lemma kept_or_created_from (st0 st st' : state) (p : string) :
  fs st = fs st0 -> kept_or_created st st' p -> kept_or_created st0 st' p.
Proof. unfold kept_or_created. intros ->. auto. Qed.

Section Renderer.

Variable w : World.

(** Before the figure is set up nothing is touched. *)
Lemma renderer_cases (q : string) (st : state) :
  (exists s, DataVisualizationTool.run w q st = (Returns s, st)
             /\ String.prefix "Visualization saved to " s = false)
  \/ exists d params df,
      parsed w q d params /\ loaded w st params df /\ figure_error w = None.
Proof.
  unfold DataVisualizationTool.run, try_except, DataVisualizationTool.body,
    DataVisualizationTool.request, bind, lift.
  destruct (json_loads w q) as [v|e] eqn:Hq; [|left; eexists; split; reflexivity].
  destruct (as_dict v) as [d|e] eqn:Hd; [|left; eexists; split; reflexivity].
  apply as_dict_ok in Hd. subst v.
  destruct (as_dict (dict_get_default "parameters" (PDict []) d)) as [params|e] eqn:Hp;
    [|left; eexists; split; reflexivity].
  fold (temp_path_of params).
  destruct (path_exists w (fs st) (temp_path_of params)) as [[|]|e] eqn:He;
    [| left; eexists; split; reflexivity | left; eexists; split; reflexivity].
  change (negb true) with false. cbv beta iota.
  destruct (read_csv_arg w (fs st) (temp_path_of params)) as [df|e] eqn:Hr;
    [|left; eexists; split; reflexivity].
  unfold new_figure.
  destruct (figure_error w) as [e|] eqn:Hf; [left; eexists; split; reflexivity|].
  right. exists d, params, df. repeat split; assumption.
Qed.

(** Once the figure is set up: the picture is saved and the figure closed,
    or the call ends on a diagnostic with the figure left open. *)
Lemma renderer_outcomes
  (q : string) (d params : pydict) (df : DataFrame) (st : state) :
  parsed w q d params -> loaded w st params df -> figure_error w = None ->
  let out := DataVisualizationTool.run w q st in
  let blank := with_figures ([] :: figures st) st in
  let save_path := dict_get_default "save_path" (PStr "visualization.png") d in
  (exists path cmds s1,
      fst out = Returns (saved_to path)
      /\ save_path = PStr path
      /\ plot_branch w (dict_get_default "plot_type" PNone d) params df blank
         = (Val None, s1)
      /\ figures s1 = cmds :: figures st
      /\ fs (snd out) !! image_path w path = Some (Image (cmds ++ [Tight_layout]))
      /\ figures (snd out) = figures st
      /\ forall p, p <> image_path w path -> kept_or_created st (snd out) p)
  \/ (exists s fig,
         fst out = Returns s
         /\ String.prefix "Visualization saved to " s = false
         /\ figures (snd out) = fig :: figures st
         /\ forall p, (forall path, save_path = PStr path -> p <> image_path w path) ->
                      kept_or_created st (snd out) p).
Proof.
  intros Hp Hl Hf. cbv zeta.
  set (blank := with_figures ([] :: figures st) st).
  assert (R : DataVisualizationTool.run w q st
              = try_except "Error creating visualization: "
                  (early <- plot_branch w (dict_get_default "plot_type" PNone d) params df ;;
                   match early with
                   | Some diagnostic => ret diagnostic
                   | None => save_figure w df
                               (dict_get_default "save_path" (PStr "visualization.png") d)
                   end) blank).
  { unfold DataVisualizationTool.run, try_except.
    rewrite (visualization_staged w q d params df st Hp Hl).
    unfold bind at 1. unfold new_figure. rewrite Hf. reflexivity. }
  rewrite R. clear R. unfold try_except, bind.
  destruct (plot_branch w (dict_get_default "plot_type" PNone d) params df blank)
    as [[early|e|b] s1] eqn:E.
  - destruct (draws_plot_branch w _ params df blank _ s1 [] (figures st) E eq_refl)
      as (F & cmds & G). simpl in G.
    destruct early as [msg|].
    + right. exists msg, cmds. simpl. repeat split; auto.
      * exact (plot_branch_early w _ params df msg blank s1 E).
      * intros p _. left. now rewrite F.
    + destruct (save_figure w df
                  (dict_get_default "save_path" (PStr "visualization.png") d) s1)
        as [o st'] eqn:S.
      destruct (save_figure_cases w df _ o s1 st' cmds (figures st) S G)
        as [(path & Hs & -> & G' & I & K)|((e & ->) & (f' & G') & K)].
      * left. exists path, cmds, s1. simpl. repeat split; auto.
        intros p Hne. apply (kept_or_created_from st s1); auto.
      * right. exists ("Error creating visualization: " +:+ e), f'. simpl.
        repeat split; auto.
        intros p Hne. apply (kept_or_created_from st s1); auto.
  - destruct (draws_plot_branch w _ params df blank _ s1 [] (figures st) E eq_refl)
      as (F & cmds & G). simpl in G.
    right. exists ("Error creating visualization: " +:+ e), cmds. simpl.
    repeat split; auto. intros p _. left. now rewrite F.
  - now apply tame_plot_branch in E.
Qed.

End Renderer.

Lemma saved_to_inj (p1 p2 : string) : saved_to p1 = saved_to p2 -> p1 = p2.
Proof. unfold saved_to. intros H. cbv in H. now injection H. Qed.

(** X8.  The renderer never removes or rewrites a file it was not asked to
    write.  The file it is asked to write is the one [savefig] makes of the
    save path of the request: the save path itself, or the save path with
    the default format appended when its name has no extension.  After any
    call every other path holds what it held before, or it named nothing
    and is now a directory, one of those made for the picture.  And a call
    that reports the picture saved at a path has written it at the file
    [savefig] makes of that path, which is another path than the one
    reported when the name has no extension. *)
Theorem renderer_file_frame (w : World) (q : string) (st : state) :
  let out := DataVisualizationTool.run w q st in
  (forall p, picture_of w q <> Some p -> kept_or_created st (snd out) p)
  /\ (forall path, fst out = Returns (saved_to path) ->
        picture_of w q = Some (image_path w path)
        /\ (exists fig, fs (snd out) !! image_path w path = Some (Image fig))
        /\ (extension path = "" ->
            image_path w path = rstrip_dots path +:+ "." +:+ default_filetype w)).
Proof.
  cbv zeta.
  destruct (renderer_cases w q st) as [(s & E & N)|(d & params & df & Hp & Hl & Hf)].
  { rewrite E. simpl. split.
    - intros p _. apply kept_or_created_refl.
    - intros path Hs. inversion Hs. subst s. unfold saved_to in N.
      rewrite prefix_append in N. discriminate N. }
  assert (T : forall path,
             dict_get_default "save_path" (PStr "visualization.png") d = PStr path ->
             picture_of w q = Some (image_path w path)).
  { intros path Hs. unfold picture_of. destruct Hp as [-> _]. now rewrite Hs. }
  destruct (renderer_outcomes w q d params df st Hp Hl Hf)
    as [(path & cmds & s1 & R & S & _ & _ & I & _ & K)|(s & fig & R & N & _ & K)].
  - split.
    + intros p Hne. apply K. intros ->. apply Hne. now apply T.
    + intros path' Hs. rewrite R in Hs.
      assert (path' = path) by (apply saved_to_inj; congruence).
      subst path'. split; [now apply T|]. split; [eauto|].
      intros He. unfold image_path. now rewrite He.
  - split.
    + intros p Hne. apply K. intros path Hs ->. apply Hne. now apply T.
    + intros path Hs. rewrite R in Hs. inversion Hs. subst s. unfold saved_to in N.
      rewrite prefix_append in N. discriminate N.
Qed.

(** X9.  The figure the renderer opens is closed on success only.  When
    the staged file is read and the figure set up, either the call reports
    the picture saved, at the requested path or at [visualization.png] when
    none is requested; then the file [savefig] makes of that path holds
    what this call drew on a blank figure, followed by the layout step, and
    the open figures are the ones there were before the call.  Or the call
    returns something else (a missing parameter, an unsupported kind, no
    numeric column, any failure of drawing or saving), and one more figure
    is open than before. *)
Theorem renderer_figure_lifecycle
  (w : World) (q : string) (d params : pydict) (df : DataFrame) (st : state) :
  parsed w q d params -> loaded w st params df -> figure_error w = None ->
  let out := DataVisualizationTool.run w q st in
  (exists path cmds s1,
      fst out = Returns (saved_to path)
      /\ dict_get_default "save_path" (PStr "visualization.png") d = PStr path
      /\ plot_branch w (dict_get_default "plot_type" PNone d) params df
           (with_figures ([] :: figures st) st) = (Val None, s1)
      /\ figures s1 = cmds :: figures st
      /\ fs (snd out) !! image_path w path = Some (Image (cmds ++ [Tight_layout]))
      /\ figures (snd out) = figures st)
  \/ (exists s fig,
         fst out = Returns s
         /\ String.prefix "Visualization saved to " s = false
         /\ figures (snd out) = fig :: figures st).
Proof.
  intros Hp Hl Hf.
  destruct (renderer_outcomes w q d params df st Hp Hl Hf)
    as [(path & cmds & s1 & R & P & B & G & I & F & _)|(s & fig & R & N & G & _)].
  - left. exists path, cmds, s1. auto 10.
  - right. exists s, fig. auto.
Qed.

Lemma renderer_figure_lifecycle_witness :
  let q := Sample.js "{'plot_type': 'histogram', 'parameters': {'column': 'A'}, 'save_path': 'plots/a'}" in
  let out := DataVisualizationTool.run Sample.world q Sample.ab in
  exists cmds,
    fst out = Returns (saved_to "plots/a")
    /\ fs (snd out) !! "plots/a.png" = Some (Image (cmds ++ [Tight_layout]))
    /\ fs (snd out) !! "plots/a" = None
    /\ fs (snd out) !! "plots" = Some Directory
    /\ figures (snd out) = figures Sample.ab.
Proof.
  intros q out.
  assert (P : parsed Sample.world q
                [("plot_type", PStr "histogram");
                 ("parameters", PDict [("column", PStr "A")]);
                 ("save_path", PStr "plots/a")]
                [("column", PStr "A")])
    by (split; vm_compute; reflexivity).
  assert (L : loaded Sample.world Sample.ab [("column", PStr "A")] ab_frame)
    by (split; vm_compute; reflexivity).
  destruct (renderer_figure_lifecycle Sample.world q _ _ ab_frame Sample.ab P L eq_refl)
    as [(path & cmds & s1 & R & S & _ & _ & I & F)|(s & fig & R & N & _)].
  - simpl in S. inversion S. subst path. exists cmds.
    split; [exact R|]. split; [exact I|].
    split; [vm_compute; reflexivity|]. split; [vm_compute; reflexivity|exact F].
  - exfalso. fold out in R.
    assert (E : fst out = Returns (saved_to "plots/a")) by (vm_compute; reflexivity).
    rewrite E in R. inversion R. subst s. unfold saved_to in N.
    rewrite prefix_append in N. discriminate N.
Defined.

(** ** What the renderer draws *)

Lemma saved_needs_figure
  (w : World) (q : string) (d params : pydict) (df : DataFrame)
  (path : string) (st st' : state) :
  parsed w q d params -> loaded w st params df ->
  DataVisualizationTool.run w q st = (Returns (saved_to path), st') ->
  figure_error w = None.
Proof.
  intros Hp Hl H. destruct (figure_error w) as [e|] eqn:Hf; [|reflexivity].
  unfold DataVisualizationTool.run, try_except in H.
  rewrite (visualization_staged w q d params df st Hp Hl) in H.
  unfold bind at 1 in H. unfold new_figure in H. rewrite Hf in H. discriminate.
Qed.

(** The scatter branch with both axes given: the points are coloured by
    [hue] when [hue] is given, true and a column, and drawn plain
    otherwise. *)
Lemma scatter_branch_val
  (w : World) (params : pydict) (df : DataFrame)
  (early : option string) (st st1 : state) :
  dict_has "x" params = true -> dict_has "y" params = true ->
  plot_branch w (PStr "scatter") params df st = (Val early, st1) ->
  let x := dict_get_default "x" PNone params in
  let y := dict_get_default "y" PNone params in
  let hue := dict_get_default "hue" PNone params in
  early = None
  /\ exists colour,
      figures st1
      = extend [Scatterplot x y colour;
                Title ("Scatter Plot: " +:+ py_str w y +:+ " vs " +:+ py_str w x);
                Xlabel x; Ylabel y] (figures st)
      /\ ((colour = Some hue /\ truthy hue = true /\ in_columns hue df = Ok true)
          \/ (colour = None /\ (truthy hue = false \/ in_columns hue df = Ok false))).
Proof.
  intros Hx Hy.
  cbv beta iota zeta delta [plot_branch is_str String.eqb Ascii.eqb Bool.eqb].
  rewrite Hx, Hy. simpl negb. cbv iota. simpl orb. cbv iota.
  intros H.
  apply bind_val_inv in H as (coloured & s0 & H0 & H).
  apply bind_val_inv in H as (u1 & s1' & H1 & H). apply draw_extends in H1.
  apply bind_val_inv in H as (u2 & s2 & H2 & H). apply draw_extends in H2.
  apply bind_val_inv in H as (u3 & s3 & H3 & H). apply draw_extends in H3.
  apply bind_val_inv in H as (u4 & s4 & H4 & H). apply draw_extends in H4.
  inversion H. subst early st1. clear H.
  split; [reflexivity|].
  exists (if coloured then Some (dict_get_default "hue" PNone params) else None).
  split.
  - assert (S0 : s0 = st).
    { destruct (truthy (dict_get_default "hue" PNone params)).
      - now apply lift_val_inv in H0 as [_ ->].
      - now inversion H0. }
    subst s0. rewrite H4, H3, H2, H1, !extend_extend. reflexivity.
  - destruct (truthy (dict_get_default "hue" PNone params)) eqn:T.
    + apply lift_val_inv in H0 as [H0 _]. destruct coloured; auto.
    + inversion H0. subst coloured. auto.
Qed.

(** X10.  A scatter plot is coloured by [hue] only when [hue] names a
    column of the dataset: whenever the renderer reports a scatter plot as
    saved, the picture that was written holds the scatter of [x] and [y],
    the title and the two axis labels, and the points are grouped by [hue]
    exactly when the request gives a non-empty [hue] that is among the
    columns; a [hue] that is no column is passed over without any
    diagnostic. *)
Theorem scatter_hue_is_a_column
  (w : World) (q : string) (d params : pydict) (df : DataFrame)
  (path : string) (st st' : state) :
  parsed w q d params -> loaded w st params df ->
  dict_get "plot_type" d = Some (PStr "scatter") ->
  DataVisualizationTool.run w q st = (Returns (saved_to path), st') ->
  let x := dict_get_default "x" PNone params in
  let y := dict_get_default "y" PNone params in
  exists colour,
    fs st' !! image_path w path
    = Some (Image [Scatterplot x y colour;
                   Title ("Scatter Plot: " +:+ py_str w y +:+ " vs " +:+ py_str w x);
                   Xlabel x; Ylabel y; Tight_layout])
    /\ (forall h, dict_get "hue" params = Some (PStr h) ->
                  (h <> "" /\ In h (columns df) /\ colour = Some (PStr h))
                  \/ ((h = "" \/ ~ In h (columns df)) /\ colour = None))
    /\ (dict_get "hue" params = None -> colour = None).
Proof.
  intros Hp Hl Hk Hrun x y.
  pose proof (saved_needs_figure w q d params df path st st' Hp Hl Hrun) as Hf.
  destruct (renderer_outcomes w q d params df st Hp Hl Hf)
    as [(path' & cmds & s1 & R & _ & B & G & I & _)|(s & fig & R & N & _)];
    rewrite Hrun in *; simpl in *.
  2: { inversion R. subst s. unfold saved_to in N.
       rewrite prefix_append in N. discriminate N. }
  assert (R' : path' = path) by (apply saved_to_inj; congruence).
  subst path'. clear R.
  replace (dict_get_default "plot_type" PNone d) with (PStr "scatter") in B
    by (unfold dict_get_default; now rewrite Hk).
  assert (Hxy : dict_has "x" params = true /\ dict_has "y" params = true).
  { destruct (dict_has "x" params) eqn:Ex, (dict_has "y" params) eqn:Ey; auto;
      exfalso; revert B;
      cbv beta iota zeta delta [plot_branch is_str String.eqb Ascii.eqb Bool.eqb];
      rewrite Ex, Ey; discriminate. }
  destruct Hxy as [Hx Hy].
  destruct (scatter_branch_val w params df None _ s1 Hx Hy B)
    as (_ & colour & G' & C).
  simpl in G'. rewrite G' in G. inversion G. subst cmds.
  exists colour. split; [exact I|]. split.
  - intros h Hh.
    assert (E : dict_get_default "hue" PNone params = PStr h)
      by (unfold dict_get_default; now rewrite Hh).
    rewrite E in C. simpl in C.
    destruct C as [(-> & T & Hc)|(-> & [T|Hc])].
    + left. split; [|split; [|reflexivity]].
      * intros ->. discriminate.
      * inversion Hc as [Hb]. apply bool_decide_eq_true_1 in Hb.
        now apply list_elem_of_In.
    + right. split; [|reflexivity]. left.
      apply negb_false_iff in T. now apply String.eqb_eq.
    + right. split; [|reflexivity]. right.
      inversion Hc as [Hb]. apply bool_decide_eq_false_1 in Hb.
      intros Hin. apply Hb. now apply list_elem_of_In.
  - intros Hn.
    assert (E : dict_get_default "hue" PNone params = PNone)
      by (unfold dict_get_default; now rewrite Hn).
    rewrite E in C. simpl in C.
    destruct C as [(_ & T & _)|(-> & _)]; [discriminate|reflexivity].
Qed.

Lemma scatter_hue_is_a_column_witness :
  let q := Sample.js "{'plot_type': 'scatter', 'parameters': {'x': 'A', 'y': 'A', 'hue': 'C'}}" in
  fs (snd (DataVisualizationTool.run Sample.world q Sample.ab)) !! "visualization.png"
  = Some (Image [Scatterplot (PStr "A") (PStr "A") None;
                 Title "Scatter Plot: A vs A";
                 Xlabel (PStr "A"); Ylabel (PStr "A"); Tight_layout]).
Proof.
  intros q.
  assert (P : parsed Sample.world q
                [("plot_type", PStr "scatter");
                 ("parameters", PDict [("x", PStr "A"); ("y", PStr "A"); ("hue", PStr "C")])]
                [("x", PStr "A"); ("y", PStr "A"); ("hue", PStr "C")])
    by (split; vm_compute; reflexivity).
  assert (L : loaded Sample.world Sample.ab
                [("x", PStr "A"); ("y", PStr "A"); ("hue", PStr "C")] ab_frame)
    by (split; vm_compute; reflexivity).
  assert (R : DataVisualizationTool.run Sample.world q Sample.ab
              = (Returns (saved_to "visualization.png"),
                 snd (DataVisualizationTool.run Sample.world q Sample.ab)))
    by (vm_compute; reflexivity).
  destruct (scatter_hue_is_a_column Sample.world q _ _ ab_frame "visualization.png"
              Sample.ab _ P L eq_refl R) as (colour & I & H & _).
  destruct (H "C" eq_refl) as [(_ & Hin & _)|(_ & E)].
  - exfalso. simpl in Hin. intuition discriminate.
  - rewrite E in I. exact I.
Defined.

(** ** The summary operation *)

Lemma keep_imap_names {A B} (f : string * A -> bool) (g : nat -> string * A -> B)
  (l : list (string * A)) :
  map fst (keep (map f l) (imap (fun j c => (fst c, g j c)) l))
  = map fst (filter (fun c => f c = true) l).
Proof.
  revert g. induction l as [|c l IH]; intros g; [reflexivity|].
  simpl. destruct (f c) eqn:E.
  - rewrite filter_cons_True by exact E. simpl. f_equal.
    apply (IH (fun j => g (S j))).
  - rewrite filter_cons_False by (rewrite E; discriminate).
    apply (IH (fun j => g (S j))).
Qed.

(** X11.  The summary of a dataset has five sections in a fixed order.  The
    types and the counts of missing values are keyed by all the columns,
    the numeric summary by the columns describe keeps (the numeric ones, or
    all of them when none is numeric), and the categorical summary by the
    columns of object dtype alone, so that a boolean column has its type
    and its missing count reported but no value counts.  When describe
    fails, the whole summary is the diagnostic of that failure. *)
Theorem summary_sections
  (w : World) (q : string) (d params : pydict) (df : DataFrame) (st : state) :
  parsed w q d params -> loaded w st params df ->
  dict_get "operation" d = Some (PStr "summary") ->
  match describe w PNone df with
  | Err e =>
      DataFrameAnalysisTool.run w q st
      = (Returns ("Error during DataFrame analysis: " +:+ e), st)
  | Ok numeric =>
      exists types missing categorical,
        DataFrameAnalysisTool.run w q st
        = try_except "Error during DataFrame analysis: "
            (lift (json_dumps w
                     (PDict [("shape", PList [PInt (Z.of_nat (nrows df));
                                              PInt (Z.of_nat (ncols df))]);
                             ("dtypes", types);
                             ("missing_values", missing);
                             ("numeric_summary", numeric);
                             ("categorical_summary", categorical)]))) st
        /\ (forall k, In k (keys types) <-> In k (columns df))
        /\ (forall k, In k (keys missing) <-> In k (columns df))
        /\ (forall k, In k (keys numeric) <-> In k (columns (described df)))
        /\ (forall k, In k (keys categorical) <-> In k (text_names df))
  end.
Proof.
  intros Hp Hl Ho.
  assert (R : DataFrameAnalysisTool.run w q st
              = try_except "Error during DataFrame analysis: "
                  (summary <- lift (summary_dict w df) ;; lift (json_dumps w summary)) st).
  { rewrite (analysis_staged w q d params df st Hp Hl).
    unfold dict_get_default. rewrite Ho. reflexivity. }
  rewrite R. unfold summary_dict.
  destruct (describe w PNone df) as [numeric|e] eqn:D.
  - eexists _, _, _. split; [reflexivity|].
    split; [|split; [|split]]; intros k.
    + unfold dtypes_dict, keys. rewrite dict_of_pairs_keys, map_map. simpl.
      reflexivity.
    + unfold missing_values, keys. rewrite dict_of_pairs_keys.
      unfold columns. now rewrite imap_keeps_names.
    + exact (describe_keys w PNone df numeric k D).
    + unfold keys, text_names. rewrite dict_of_pairs_keys.
      now rewrite (keep_imap_names (fun c => is_object (snd c))).
  - reflexivity.
Qed.

Lemma summary_sections_witness :
  exists types missing numeric categorical,
    DataFrameAnalysisTool.run Sample.world (Sample.js "{'operation': 'summary'}") Sample.ab
    = try_except "Error during DataFrame analysis: "
        (lift (json_dumps Sample.world
                 (PDict [("shape", PList [PInt 3; PInt 2]);
                         ("dtypes", types);
                         ("missing_values", missing);
                         ("numeric_summary", numeric);
                         ("categorical_summary", categorical)]))) Sample.ab
    /\ (In "A" (keys numeric) <-> In "A" (columns (described ab_frame)))
    /\ (In "A" (keys categorical) <-> In "A" (text_names ab_frame)).
Proof.
  pose proof (summary_sections Sample.world (Sample.js "{'operation': 'summary'}")
                [("operation", PStr "summary")] [] ab_frame Sample.ab
                (conj eq_refl eq_refl)) as H.
  destruct (describe Sample.world PNone ab_frame) as [numeric|e] eqn:D;
    [|vm_compute in D; discriminate D].
  destruct H as (types & missing & categorical & R & _ & _ & N & C);
    try reflexivity; try (split; vm_compute; reflexivity).
  exists types, missing, numeric, categorical. split; [exact R|]. split.
  - apply N.
  - apply C.
Defined.

(** ** The correlation heatmap *)

(** X12.  The heatmap is drawn from the columns of numeric dtype alone.
    When the dataset has none (or no row at all) the renderer answers with
    a diagnostic, saves nothing and leaves the figure it opened among the
    open ones.  Whenever it reports the heatmap as saved, the picture is
    the heatmap, its title and the layout command; the matrix has exactly
    the numeric columns as rows and as columns, the coefficients are
    written into the cells unless [show_values] says otherwise, and the
    colours are "coolwarm" unless [colormap] names others.  The picture is
    in the file [savefig] makes of the path reported. *)
Theorem heatmap_numeric_only
  (w : World) (q : string) (d params : pydict) (df : DataFrame) (st : state) :
  parsed w q d params -> loaded w st params df ->
  dict_get "plot_type" d = Some (PStr "correlation_heatmap") ->
  (figure_error w = None -> empty (select_dtypes is_number df) = true ->
   DataVisualizationTool.run w q st
   = (Returns "No numeric columns found for correlation heatmap",
      with_figures ([] :: figures st) st))
  /\ (forall path st',
         DataVisualizationTool.run w q st = (Returns (saved_to path), st') ->
         exists matrix,
           fs st' !! image_path w path
           = Some (Image [Heatmap matrix
                                  (dict_get_default "show_values" (PBool true) params)
                                  (dict_get_default "colormap" (PStr "coolwarm") params);
                          Title "Correlation Matrix Heatmap";
                          Tight_layout])
           /\ (forall k, In k (keys matrix) <-> In k (numeric_names df))
           /\ (forall k row,
                  dict_get k (match matrix with PDict m => m | _ => [] end) = Some row ->
                  forall k', In k' (keys row) <-> In k' (numeric_names df))).
Proof.
  intros Hp Hl Hk.
  assert (K : dict_get_default "plot_type" PNone d = PStr "correlation_heatmap")
    by (unfold dict_get_default; now rewrite Hk).
  split.
  - intros Hf He.
    unfold DataVisualizationTool.run, try_except.
    rewrite (visualization_staged w q d params df st Hp Hl).
    unfold bind at 1. unfold new_figure. rewrite Hf. cbv beta iota.
    rewrite K.
    cbv beta iota zeta delta [plot_branch is_str String.eqb Ascii.eqb Bool.eqb].
    rewrite He. reflexivity.
  - intros path st' Hrun.
    pose proof (saved_needs_figure w q d params df path st st' Hp Hl Hrun) as Hf.
    destruct (renderer_outcomes w q d params df st Hp Hl Hf)
      as [(path' & cmds & s1 & R & _ & B & G & I & _)|(s & fig & R & N & _)];
      rewrite Hrun in *; simpl in *.
    2: { inversion R. subst s. unfold saved_to in N.
         rewrite prefix_append in N. discriminate N. }
    assert (R' : path' = path) by (apply saved_to_inj; congruence).
    subst path'. clear R.
    rewrite K in B. revert B.
    cbv beta iota zeta delta [plot_branch is_str String.eqb Ascii.eqb Bool.eqb].
    destruct (empty (select_dtypes is_number df)); [discriminate|].
    intros B.
    apply bind_val_inv in B as (u1 & s1' & H1 & B). apply draw_extends in H1.
    apply bind_val_inv in B as (u2 & s2 & H2 & B). apply draw_extends in H2.
    inversion B. subst s2. clear B.
    rewrite H2, H1, extend_extend in G. simpl in G. inversion G. subst cmds.
    exists (corr_dict w (select_dtypes is_number df)).
    split; [exact I|]. split.
    + intros k. rewrite corr_dict_keys. now rewrite numeric_columns.
    + intros k row Hrow k'.
      rewrite (corr_dict_rows w (select_dtypes is_number df) k row Hrow).
      now rewrite numeric_columns.
Qed.

Lemma heatmap_numeric_only_witness :
  DataVisualizationTool.run Sample.world (Sample.js "{'plot_type': 'correlation_heatmap'}")
    (Sample.staged ["B"] [["x"]; ["y"]])
  = (Returns "No numeric columns found for correlation heatmap",
     with_figures [[]] (Sample.staged ["B"] [["x"]; ["y"]])).
Proof.
  apply (proj1 (heatmap_numeric_only Sample.world
                  (Sample.js "{'plot_type': 'correlation_heatmap'}")
                  [("plot_type", PStr "correlation_heatmap")] []
                  {| cols := [("B", ObjectT)]; rows := [[CStr "x"]; [CStr "y"]] |}
                  (Sample.staged ["B"] [["x"]; ["y"]])
                  (conj eq_refl eq_refl)
                  (conj eq_refl eq_refl) eq_refl));
    reflexivity.
Defined.

(** ** The report of the loader *)




